(** * Chemical inventory tracker and GPM stopwatch calculator

    A shallow embedding of the pure logic of the two browser applications:

    - [Inventory]: the record types of [types/chemical.ts], the two state
      transitions of [ChemicalInventory.tsx] ([addChemical],
      [updateInventory]), the filter / sort / status functions of
      [InventoryTable.tsx] and the CSV text built by
      [ExportUtils.exportToExcel].
    - [Flow]: the flow-rate effect, the admin report average, the
      validation, the stopwatch and the log of [GPMCalculator.tsx].
    - [Binary64]: the stock flag of [InventoryTable.tsx] on the numbers of
      the program.

    The properties follow the definitions, one module of facts for each
    part of the code.

    Numbers.  The histories of the inventory application are modelled on
    exact rationals [Q], which stand for the finite numbers the forms
    supply.  The stock flag multiplies by 0.1 and compares: [Binary64]
    gives it on IEEE 754 binary64 values, Rocq's primitive [float], with
    the product and the comparison of the program.  The flow calculator is
    specified by the concrete values a JavaScript engine computes, so
    [Flow] works on binary64 values as well.

    Environment.  [Date.now()], [new Date()] and
    [new Date().toLocaleString()] are inputs of the functions that read
    them.  Strings are byte strings; [toLowerCase] maps the ASCII letters. *)

From Stdlib Require Import ZArith QArith Qminmax List String Ascii Bool Lia.
From Stdlib Require Import Permutation Sorted OrdersEx NArith Nnat.
From Stdlib Require Import DecimalString DecimalPos DecimalZ Floats.
Import ListNotations.

Set Warnings "-inexact-float".

(** ** JavaScript built-ins on strings and arrays *)

Module JS.

Open Scope string_scope.

(** [Array.prototype.join]. *)
Fixpoint join (sep : string) (l : list string) : string :=
  match l with
  | [] => ""
  | [x] => x
  | x :: xs => x ++ sep ++ join sep xs
  end.

(** [String.prototype.startsWith] at position 0. *)
Fixpoint startsWith (s t : string) {struct t} : bool :=
  match t with
  | EmptyString => true
  | String b t' =>
      match s with
      | EmptyString => false
      | String a s' => Ascii.eqb a b && startsWith s' t'
      end
  end.

(** [String.prototype.includes]: does [t] occur somewhere in [s]? *)
Fixpoint includes (s t : string) : bool :=
  startsWith s t ||
  match s with
  | EmptyString => false
  | String _ s' => includes s' t
  end.

Definition toLowerCaseChar (c : ascii) : ascii :=
  let n := nat_of_ascii c in
  if (65 <=? n)%nat && (n <=? 90)%nat then ascii_of_nat (n + 32) else c.

(** [String.prototype.toLowerCase] on ASCII text. *)
Fixpoint toLowerCase (s : string) : string :=
  match s with
  | EmptyString => EmptyString
  | String c s' => String (toLowerCaseChar c) (toLowerCase s')
  end.

(** Decimal digits of an integer, as [Number.prototype.toString] prints one. *)
Definition Z_toString (n : Z) : string :=
  NilZero.string_of_int (Z.to_int n).

(** The fractional digits of [r / d] (with [0 <= r < d]), stopping when the
    expansion ends; [fuel] bounds the number of digits. *)
Fixpoint fracDigits (fuel : nat) (r d : Z) : string :=
  match fuel with
  | O => ""
  | S fuel' =>
      if (r =? 0)%Z then ""
      else Z_toString (10 * r / d) ++ fracDigits fuel' (10 * r mod d) d
  end.

(** [Number.prototype.toString] on a rational: an integer prints its digits,
    a terminating decimal its exact expansion (17 fractional digits at most;
    the exponent notation of very large and very small values is outside the
    model). *)
Definition Number_toString (q : Q) : string :=
  let n := Qnum q in
  let d := Z.pos (Qden q) in
  let a := Z.abs n in
  (if (n <? 0)%Z then "-" else "") ++
  Z_toString (a / d) ++
  (if (a mod d =? 0)%Z then "" else "." ++ fracDigits 17 (a mod d) d).

(** The text of [h] hundredths with two decimals, behind a minus sign when
    [negative]. *)
Definition fixed2 (negative : bool) (h : Z) : string :=
  let c := (h mod 100)%Z in
  (if negative then "-" else "") ++
  Z_toString (h / 100) ++ "." ++
  (if (c <? 10)%Z then "0" else "") ++ Z_toString c.

(** [Number.prototype.toFixed(2)]: the nearest multiple of 1/100, ties
    taken upwards on the absolute value, printed with two decimals. *)
Definition Number_toFixed2 (q : Q) : string :=
  let n := Qnum q in
  let d := Z.pos (Qden q) in
  fixed2 (n <? 0)%Z ((2 * 100 * Z.abs n + d) / (2 * d))%Z.

(** [padString] repeated and cut to [n] characters; [rest] is what is left
    of the copy being written. *)
Fixpoint padFill (n : nat) (padString rest : string) : string :=
  match n with
  | O => ""
  | S n' =>
      match rest with
      | String c rest' => String c (padFill n' padString rest')
      | EmptyString =>
          match padString with
          | String c rest' => String c (padFill n' padString rest')
          | EmptyString => ""
          end
      end
  end.

(** [String.prototype.padStart]. *)
Definition padStart (targetLength : nat) (padString s : string) : string :=
  if (targetLength <=? String.length s)%nat then s
  else padFill (targetLength - String.length s) padString padString ++ s.

(** White space and line terminators among the ASCII characters. *)
Definition isWhiteSpace (c : ascii) : bool :=
  let n := nat_of_ascii c in
  ((9 <=? n)%nat && (n <=? 13)%nat) || (n =? 32)%nat.

Fixpoint trimStart (s : string) : string :=
  match s with
  | EmptyString => EmptyString
  | String c s' => if isWhiteSpace c then trimStart s' else s
  end.

Fixpoint trimEnd (s : string) : string :=
  match s with
  | EmptyString => EmptyString
  | String c s' =>
      match trimEnd s' with
      | EmptyString => if isWhiteSpace c then EmptyString else String c EmptyString
      | t => String c t
      end
  end.

(** [String.prototype.trim] on ASCII text. *)
Definition trim (s : string) : string := trimEnd (trimStart s).

End JS.

(** ** The inventory application *)

Module Inventory.

Open Scope string_scope.

Inductive Unit := Liters | Kilograms.

Definition Unit_toString (u : Unit) : string :=
  match u with Liters => "Liters" | Kilograms => "Kilograms" end.

Module Chemical.
Record t := mk {
  id : string;
  dateReceived : string;
  name : string;
  quantity : Q;
  unit : Unit;
  supplier : string;
  expiryDate : string;
  storageLocation : string;
  remarks : option string;
  currentBalance : Q
}.
End Chemical.

Module ChemicalUsage.
Record t := mk {
  id : string;
  chemicalId : string;
  chemicalName : string;
  quantityUsed : Q;
  dateUsed : string;
  personInCharge : string;
  remarks : option string
}.
End ChemicalUsage.

Inductive FilterBy := FilterName | FilterDate | FilterLocation.

Record ChemicalInventoryState := mkState {
  chemicals : list Chemical.t;
  usageHistory : list ChemicalUsage.t;
  searchTerm : string;
  filterBy : FilterBy;
  isDarkMode : bool
}.

(** [Omit<Chemical, 'id' | 'currentBalance'>]. *)
Module NewChemical.
Record t := mk {
  dateReceived : string;
  name : string;
  quantity : Q;
  unit : Unit;
  supplier : string;
  expiryDate : string;
  storageLocation : string;
  remarks : option string
}.
End NewChemical.

(** [Omit<ChemicalUsage, 'id'>]. *)
Module NewUsage.
Record t := mk {
  chemicalId : string;
  chemicalName : string;
  quantityUsed : Q;
  dateUsed : string;
  personInCharge : string;
  remarks : option string
}.
End NewUsage.

(** The state of [useState] before anything is loaded. *)
Definition initialState : ChemicalInventoryState :=
  mkState [] [] "" FilterName false.

(** *** Mutation engine ([ChemicalInventory.tsx]) *)

(** [Date.now().toString()]: the clock reading [now] is in milliseconds. *)
Definition clockId (now : Z) : string := JS.Z_toString now.

Definition newChemical (now : Z) (chemical : NewChemical.t) : Chemical.t :=
  Chemical.mk (clockId now)
    (NewChemical.dateReceived chemical) (NewChemical.name chemical)
    (NewChemical.quantity chemical) (NewChemical.unit chemical)
    (NewChemical.supplier chemical) (NewChemical.expiryDate chemical)
    (NewChemical.storageLocation chemical) (NewChemical.remarks chemical)
    (NewChemical.quantity chemical).

Definition addChemical (now : Z) (chemical : NewChemical.t)
    (prev : ChemicalInventoryState) : ChemicalInventoryState :=
  mkState (chemicals prev ++ [newChemical now chemical])
    (usageHistory prev) (searchTerm prev) (filterBy prev) (isDarkMode prev).

Definition newUsage (now : Z) (usage : NewUsage.t) : ChemicalUsage.t :=
  ChemicalUsage.mk (clockId now)
    (NewUsage.chemicalId usage) (NewUsage.chemicalName usage)
    (NewUsage.quantityUsed usage) (NewUsage.dateUsed usage)
    (NewUsage.personInCharge usage) (NewUsage.remarks usage).

(** [{ ...chemical, currentBalance: b }]. *)
Definition withBalance (chemical : Chemical.t) (b : Q) : Chemical.t :=
  Chemical.mk (Chemical.id chemical)
    (Chemical.dateReceived chemical) (Chemical.name chemical)
    (Chemical.quantity chemical) (Chemical.unit chemical)
    (Chemical.supplier chemical) (Chemical.expiryDate chemical)
    (Chemical.storageLocation chemical) (Chemical.remarks chemical) b.

(** The callback of [prev.chemicals.map] in [updateInventory]. *)
Definition applyUsage (usage : NewUsage.t) (chemical : Chemical.t) : Chemical.t :=
  if String.eqb (Chemical.id chemical) (NewUsage.chemicalId usage)
  then withBalance chemical
         (Qmax 0 (Chemical.currentBalance chemical - NewUsage.quantityUsed usage))
  else chemical.

Definition updateInventory (now : Z) (usage : NewUsage.t)
    (prev : ChemicalInventoryState) : ChemicalInventoryState :=
  mkState (map (applyUsage usage) (chemicals prev))
    (usageHistory prev ++ [newUsage now usage])
    (searchTerm prev) (filterBy prev) (isDarkMode prev).

(** *** Derivation engine ([InventoryTable.tsx]) *)

(** [<] and [<=] on numbers. *)
Definition Number_lt (x y : Q) : bool :=
  (Qnum x * QDen y <? Qnum y * QDen x)%Z.

Definition Number_le (x y : Q) : bool := Qle_bool x y.

(** The predicate passed to [chemicals.filter]. *)
Definition matchesSearch (searchTerm : string) (filterBy : FilterBy)
    (chemical : Chemical.t) : bool :=
  if String.eqb searchTerm "" then true
  else
    match filterBy with
    | FilterName =>
        JS.includes (JS.toLowerCase (Chemical.name chemical))
          (JS.toLowerCase searchTerm)
    | FilterDate =>
        JS.includes (Chemical.dateReceived chemical) searchTerm
        || JS.includes (Chemical.expiryDate chemical) searchTerm
    | FilterLocation =>
        JS.includes (JS.toLowerCase (Chemical.storageLocation chemical))
          (JS.toLowerCase searchTerm)
    end.

Definition filteredChemicals (chemicals : list Chemical.t)
    (searchTerm : string) (filterBy : FilterBy) : list Chemical.t :=
  filter (matchesSearch searchTerm filterBy) chemicals.

(** [keyof Chemical]. *)
Inductive SortKey :=
| KeyId | KeyDateReceived | KeyName | KeyQuantity | KeyUnit | KeySupplier
| KeyExpiryDate | KeyStorageLocation | KeyRemarks | KeyCurrentBalance.

Inductive SortOrder := Asc | Desc.

(** [a[sortBy] < b[sortBy]]: strings compare by character codes, numbers
    by value, and a comparison with [undefined] is false. *)
Definition fieldLt (sortBy : SortKey) (a b : Chemical.t) : bool :=
  match sortBy with
  | KeyId => String.ltb (Chemical.id a) (Chemical.id b)
  | KeyDateReceived =>
      String.ltb (Chemical.dateReceived a) (Chemical.dateReceived b)
  | KeyName => String.ltb (Chemical.name a) (Chemical.name b)
  | KeyQuantity => Number_lt (Chemical.quantity a) (Chemical.quantity b)
  | KeyUnit =>
      String.ltb (Unit_toString (Chemical.unit a))
        (Unit_toString (Chemical.unit b))
  | KeySupplier => String.ltb (Chemical.supplier a) (Chemical.supplier b)
  | KeyExpiryDate =>
      String.ltb (Chemical.expiryDate a) (Chemical.expiryDate b)
  | KeyStorageLocation =>
      String.ltb (Chemical.storageLocation a) (Chemical.storageLocation b)
  | KeyRemarks =>
      match Chemical.remarks a, Chemical.remarks b with
      | Some x, Some y => String.ltb x y
      | _, _ => false
      end
  | KeyCurrentBalance =>
      Number_lt (Chemical.currentBalance a) (Chemical.currentBalance b)
  end.

(** The comparison function given to [sort]; [aValue > bValue] is
    [bValue < aValue]. *)
Definition compareChemicals (sortBy : SortKey) (sortOrder : SortOrder)
    (a b : Chemical.t) : Z :=
  if fieldLt sortBy a b then
    match sortOrder with Asc => -1 | Desc => 1 end
  else if fieldLt sortBy b a then
    match sortOrder with Asc => 1 | Desc => -1 end
  else 0.

(** [Array.prototype.sort] is a stable sort: [x] moves behind exactly the
    elements it compares greater than.  For a comparison function that
    orders the elements consistently this is the one result the language
    allows; for any other the language leaves the order to the engine, and
    this is a possible one. *)
Fixpoint sortInsert {A : Type} (cmp : A -> A -> Z) (x : A) (l : list A) : list A :=
  match l with
  | [] => [x]
  | y :: l' =>
      if (0 <? cmp x y)%Z then y :: sortInsert cmp x l' else x :: y :: l'
  end.

Definition Array_sort {A : Type} (cmp : A -> A -> Z) (l : list A) : list A :=
  fold_right (sortInsert cmp) [] l.

Definition sortList (sortBy : SortKey) (sortOrder : SortOrder)
    (l : list Chemical.t) : list Chemical.t :=
  Array_sort (compareChemicals sortBy sortOrder) l.

Definition sortedChemicals (chemicals : list Chemical.t)
    (searchTerm : string) (filterBy : FilterBy)
    (sortBy : SortKey) (sortOrder : SortOrder) : list Chemical.t :=
  sortList sortBy sortOrder (filteredChemicals chemicals searchTerm filterBy).

Definition isLowStock (chemical : Chemical.t) : bool :=
  Number_le (Chemical.currentBalance chemical)
    (Chemical.quantity chemical * (1 # 10)).

(** *** Dates *)

Definition msPerDay : Z := 24 * 60 * 60 * 1000.

Definition digitValue (c : ascii) : option Z :=
  let n := Z.of_N (N_of_ascii c) in
  if (48 <=? n)%Z && (n <=? 57)%Z then Some (n - 48)%Z else None.

(** The value of a run of decimal digits. *)
Fixpoint digitsValue (acc : Z) (s : string) : option Z :=
  match s with
  | EmptyString => Some acc
  | String c s' =>
      match digitValue c with
      | Some d => digitsValue (10 * acc + d) s'
      | None => None
      end
  end.

Definition isLeapYear (y : Z) : bool :=
  ((y mod 4 =? 0) && negb (y mod 100 =? 0) || (y mod 400 =? 0))%Z.

Definition daysInMonth (y m : Z) : Z :=
  if (m =? 2)%Z then (if isLeapYear y then 29 else 28)
  else if ((m =? 4) || (m =? 6) || (m =? 9) || (m =? 11))%Z then 30
  else 31.

(** The number of the first day of year [y], counted from 1970-01-01. *)
Definition dayFromYear (y : Z) : Z :=
  365 * (y - 1970) + (y - 1969) / 4 - (y - 1901) / 100 + (y - 1601) / 400.

(** Days of year [y] before month [m]. *)
Fixpoint daysBeforeMonth (y : Z) (m : nat) : Z :=
  match m with
  | O => 0
  | S m' => daysBeforeMonth y m' + daysInMonth y (Z.of_nat m)
  end.

Definition makeDay (y m d : Z) : Z :=
  dayFromYear y + daysBeforeMonth y (Z.to_nat (m - 1)) + (d - 1).

(** [new Date(s).getTime()] for the date-only form [YYYY-MM-DD] that the
    forms' date inputs store, read as midnight UTC; [None] is the invalid
    date. *)
Definition Date_parse (s : string) : option Z :=
  if negb (Nat.eqb (String.length s) 10) then None
  else if negb (String.eqb (substring 4 1 s) "-"
                && String.eqb (substring 7 1 s) "-") then None
  else
    match digitsValue 0 (substring 0 4 s),
          digitsValue 0 (substring 5 2 s),
          digitsValue 0 (substring 8 2 s) with
    | Some y, Some m, Some d =>
        if ((1 <=? m) && (m <=? 12) && (1 <=? d) && (d <=? daysInMonth y m))%Z
        then Some (makeDay y m d * msPerDay)%Z
        else None
    | _, _, _ => None
    end.

(** [today] is [new Date().getTime()]; a comparison with an invalid date
    is false. *)
Definition isNearExpiry (today : Z) (chemical : Chemical.t) : bool :=
  match Date_parse (Chemical.expiryDate chemical) with
  | Some expiryDate =>
      let thirtyDaysFromNow := (today + 30 * 24 * 60 * 60 * 1000)%Z in
      (expiryDate <=? thirtyDaysFromNow)%Z
  | None => false
  end.

(** [getAlerts] of [ChemicalInventory.tsx]. *)
Definition alertsOf (today : Z) (chemical : Chemical.t) : list string :=
  let thirtyDaysFromNow := (today + 30 * 24 * 60 * 60 * 1000)%Z in
  let lowStockThreshold := Chemical.quantity chemical * (1 # 10) in
  (match Date_parse (Chemical.expiryDate chemical) with
   | Some expiryDate =>
       if (expiryDate <=? thirtyDaysFromNow)%Z
       then [Chemical.name chemical ++ " expires on "
               ++ Chemical.expiryDate chemical]
       else []
   | None => []
   end)
  ++
  (if Number_le (Chemical.currentBalance chemical) lowStockThreshold
   then [Chemical.name chemical ++ " is low in stock ("
           ++ JS.Number_toString (Chemical.currentBalance chemical) ++ " "
           ++ Unit_toString (Chemical.unit chemical) ++ ")"]
   else []).

Definition getAlerts (today : Z) (state : ChemicalInventoryState) : list string :=
  flat_map (alertsOf today) (chemicals state).

(** *** Export formatter ([ExportUtils.exportToExcel]) *)

Definition newline : string := String "010"%char "".
Definition dquote : string := String "034"%char "".

(** The template [`"${cell}"`]. *)
Definition quoteCell (cell : string) : string := dquote ++ cell ++ dquote.

(** [remarks || '']. *)
Definition orEmpty (remarks : option string) : string :=
  match remarks with Some r => r | None => "" end.

Definition chemicalHeaders : list string :=
  ["Chemical Name"; "Current Balance"; "Unit"; "Original Quantity";
   "Supplier"; "Date Received"; "Expiry Date"; "Storage Location"; "Remarks"].

Definition chemicalRow (chemical : Chemical.t) : list string :=
  [Chemical.name chemical;
   JS.Number_toString (Chemical.currentBalance chemical);
   Unit_toString (Chemical.unit chemical);
   JS.Number_toString (Chemical.quantity chemical);
   Chemical.supplier chemical;
   Chemical.dateReceived chemical;
   Chemical.expiryDate chemical;
   Chemical.storageLocation chemical;
   orEmpty (Chemical.remarks chemical)].

Definition usageHeaders : list string :=
  ["Chemical Name"; "Quantity Used"; "Date Used"; "Person In Charge"; "Remarks"].

Definition usageRow (usage : ChemicalUsage.t) : list string :=
  [ChemicalUsage.chemicalName usage;
   JS.Number_toString (ChemicalUsage.quantityUsed usage);
   ChemicalUsage.dateUsed usage;
   ChemicalUsage.personInCharge usage;
   orEmpty (ChemicalUsage.remarks usage)].

Definition csvLine (row : list string) : string :=
  JS.join "," (map quoteCell row).

(** The text handed to the [Blob]; [generatedOn] is
    [new Date().toLocaleString()]. *)
Definition exportToExcel (chemicals : list Chemical.t)
    (usageHistory : list ChemicalUsage.t) (generatedOn : string) : string :=
  let chemicalRows := map chemicalRow chemicals in
  let usageRows := map usageRow usageHistory in
  let chemicalCSV :=
    JS.join newline (JS.join "," chemicalHeaders :: map csvLine chemicalRows) in
  let usageCSV :=
    JS.join newline (JS.join "," usageHeaders :: map csvLine usageRows) in
  JS.join newline
    ["CHEMICAL INVENTORY REPORT";
     "Generated on: " ++ generatedOn;
     "";
     "CURRENT INVENTORY:";
     chemicalCSV;
     "";
     "USAGE HISTORY:";
     usageCSV].

(** *** Histories of operations, and the notions the properties use *)

(** One call of the mutation engine, with the clock reading it saw. *)
Inductive Operation :=
| OpAdd (now : Z) (chemical : NewChemical.t)
| OpUsage (now : Z) (usage : NewUsage.t).

Definition applyOperation (state : ChemicalInventoryState) (op : Operation)
    : ChemicalInventoryState :=
  match op with
  | OpAdd now chemical => addChemical now chemical state
  | OpUsage now usage => updateInventory now usage state
  end.

Definition run (ops : list Operation) (state : ChemicalInventoryState)
    : ChemicalInventoryState :=
  fold_left applyOperation ops state.

(** Every usage of the history has a positive quantity. *)
Definition usagePositive (op : Operation) : bool :=
  match op with
  | OpAdd _ _ => true
  | OpUsage _ usage => Number_lt 0 (NewUsage.quantityUsed usage)
  end.

(** Moreover every added lot has a quantity that is not negative. *)
Definition validOperation (op : Operation) : bool :=
  match op with
  | OpAdd _ chemical => Number_le 0 (NewChemical.quantity chemical)
  | OpUsage _ usage => Number_lt 0 (NewUsage.quantityUsed usage)
  end.

Definition balanceInRange (chemical : Chemical.t) : Prop :=
  0 <= Chemical.currentBalance chemical
  /\ Chemical.currentBalance chemical <= Chemical.quantity chemical.

(** [t] occurs in [s]. *)
Definition isSubstring (t s : string) : Prop :=
  exists before after, s = before ++ t ++ after.

(** [t] occurs in [s] when the case of letters is ignored. *)
Definition isSubstringIgnoringCase (t s : string) : Prop :=
  isSubstring (JS.toLowerCase t) (JS.toLowerCase s).

(** The filtering contract in the specification's words. *)
Definition passesFilter (searchTerm : string) (filterBy : FilterBy)
    (chemical : Chemical.t) : Prop :=
  searchTerm = ""
  \/ (searchTerm <> ""
      /\ match filterBy with
         | FilterName =>
             isSubstringIgnoringCase searchTerm (Chemical.name chemical)
         | FilterDate =>
             isSubstring searchTerm (Chemical.dateReceived chemical)
             \/ isSubstring searchTerm (Chemical.expiryDate chemical)
         | FilterLocation =>
             isSubstringIgnoringCase searchTerm
               (Chemical.storageLocation chemical)
         end).

(** The longer term contains the shorter one as the filter mode compares
    terms: as typed in the date mode, after [toLowerCase] in the name and
    location modes. *)
Definition termRefines (filterBy : FilterBy) (shorter longer : string) : Prop :=
  match filterBy with
  | FilterDate => isSubstring shorter longer
  | FilterName | FilterLocation => isSubstringIgnoringCase shorter longer
  end.

(** A list is in the order of [cmp] when no element compares greater than
    its successor. *)
Fixpoint inOrder {A : Type} (cmp : A -> A -> Z) (l : list A) : bool :=
  match l with
  | [] => true
  | x :: l' =>
      match l' with
      | [] => true
      | y :: _ => negb (0 <? cmp x y)%Z && inOrder cmp l'
      end
  end.

(** The row of a lot as the specification words it: the current balance
    with two decimals. *)
Definition chemicalLineTwoDecimals (chemical : Chemical.t) : string :=
  csvLine
    [Chemical.name chemical;
     JS.Number_toFixed2 (Chemical.currentBalance chemical);
     Unit_toString (Chemical.unit chemical);
     JS.Number_toString (Chemical.quantity chemical);
     Chemical.supplier chemical;
     Chemical.dateReceived chemical;
     Chemical.expiryDate chemical;
     Chemical.storageLocation chemical;
     orEmpty (Chemical.remarks chemical)].

(** The row of a lot with both numbers printed by [toString]. *)
Definition chemicalLine (chemical : Chemical.t) : string :=
  csvLine
    [Chemical.name chemical;
     JS.Number_toString (Chemical.currentBalance chemical);
     Unit_toString (Chemical.unit chemical);
     JS.Number_toString (Chemical.quantity chemical);
     Chemical.supplier chemical;
     Chemical.dateReceived chemical;
     Chemical.expiryDate chemical;
     Chemical.storageLocation chemical;
     orEmpty (Chemical.remarks chemical)].

Definition usageLine (usage : ChemicalUsage.t) : string :=
  csvLine
    [ChemicalUsage.chemicalName usage;
     JS.Number_toString (ChemicalUsage.quantityUsed usage);
     ChemicalUsage.dateUsed usage;
     ChemicalUsage.personInCharge usage;
     orEmpty (ChemicalUsage.remarks usage)].

(** The lines of the report, given the line of each lot. *)
Definition reportLines (line : Chemical.t -> string)
    (chemicals : list Chemical.t) (usageHistory : list ChemicalUsage.t)
    (generatedOn : string) : list string :=
  ["CHEMICAL INVENTORY REPORT";
   "Generated on: " ++ generatedOn;
   "";
   "CURRENT INVENTORY:";
   "Chemical Name,Current Balance,Unit,Original Quantity,Supplier,Date Received,Expiry Date,Storage Location,Remarks"]
  ++ map line chemicals
  ++ [""; "USAGE HISTORY:";
      "Chemical Name,Quantity Used,Date Used,Person In Charge,Remarks"]
  ++ map usageLine usageHistory.

(** [text.split('\n')]. *)
Fixpoint splitLines (current : string) (text : string) : list string :=
  match text with
  | EmptyString => [current]
  | String c text' =>
      if Ascii.eqb c "010"%char then current :: splitLines "" text'
      else splitLines (current ++ String c "") text'
  end.

(** *** The rest of [ChemicalInventory.tsx] and [InventoryTable.tsx] *)

(** [chemical?.unit || '']: a unit is never the empty text. *)
Definition getChemicalUnit (state : ChemicalInventoryState)
    (chemicalId : string) : string :=
  match find (fun c => String.eqb (Chemical.id c) chemicalId) (chemicals state) with
  | Some chemical => Unit_toString (Chemical.unit chemical)
  | None => ""
  end.

Definition SortKey_eqb (a b : SortKey) : bool :=
  match a, b with
  | KeyId, KeyId | KeyDateReceived, KeyDateReceived | KeyName, KeyName
  | KeyQuantity, KeyQuantity | KeyUnit, KeyUnit | KeySupplier, KeySupplier
  | KeyExpiryDate, KeyExpiryDate | KeyStorageLocation, KeyStorageLocation
  | KeyRemarks, KeyRemarks | KeyCurrentBalance, KeyCurrentBalance => true
  | _, _ => false
  end.

(** The two [useState] cells of the table. *)
Record SortState := mkSort {
  sortBy : SortKey;
  sortOrder : SortOrder
}.

Definition initialSort : SortState := mkSort KeyName Asc.

Definition handleSort (field : SortKey) (s : SortState) : SortState :=
  if SortKey_eqb (sortBy s) field
  then mkSort (sortBy s) (match sortOrder s with Asc => Desc | Desc => Asc end)
  else mkSort field Asc.

(** The rows of the table, for the sort state of the component. *)
Definition tableRows (chemicals : list Chemical.t) (searchTerm : string)
    (filterBy : FilterBy) (s : SortState) : list Chemical.t :=
  sortedChemicals chemicals searchTerm filterBy (sortBy s) (sortOrder s).

(** The text shown in place of the rows when there is none. *)
Definition emptyTableMessage (chemicals : list Chemical.t)
    (searchTerm : string) (filterBy : FilterBy) (s : SortState)
    : option string :=
  if (List.length (tableRows chemicals searchTerm filterBy s) =? 0)%nat
  then Some (if (List.length chemicals =? 0)%nat
             then "No chemicals in inventory"
             else "No chemicals found matching your search")
  else None.

(** *** The forms ([AddChemicalForm], [UpdateInventoryForm]) *)

(** What the fields of the add form hold at submission; a number field
    that is empty or not a number holds no quantity. *)
Module ChemicalFormValues.
Record t := mk {
  dateReceived : string;
  name : string;
  quantity : option Q;
  unit : Unit;
  supplier : string;
  expiryDate : string;
  storageLocation : string;
  remarks : option string
}.
End ChemicalFormValues.

(** [z.string().min(1)]. *)
Definition minLength1 (s : string) : bool := (1 <=? String.length s)%nat.

(** [chemicalSchema]: the parsed data, when every field is accepted. *)
Definition chemicalSchema (values : ChemicalFormValues.t) : option NewChemical.t :=
  match ChemicalFormValues.quantity values with
  | Some quantity =>
      if minLength1 (ChemicalFormValues.dateReceived values)
         && minLength1 (ChemicalFormValues.name values)
         && Number_le (1 # 100) quantity
         && minLength1 (ChemicalFormValues.supplier values)
         && minLength1 (ChemicalFormValues.expiryDate values)
         && minLength1 (ChemicalFormValues.storageLocation values)
      then Some (NewChemical.mk
                   (ChemicalFormValues.dateReceived values)
                   (ChemicalFormValues.name values) quantity
                   (ChemicalFormValues.unit values)
                   (ChemicalFormValues.supplier values)
                   (ChemicalFormValues.expiryDate values)
                   (ChemicalFormValues.storageLocation values)
                   (ChemicalFormValues.remarks values))
      else None
  | None => None
  end.

(** [handleSubmit(onFormSubmit)] of the add form, wired to [addChemical]:
    nothing happens when the schema rejects the values. *)
Definition submitChemicalForm (now : Z) (values : ChemicalFormValues.t)
    (state : ChemicalInventoryState) : ChemicalInventoryState :=
  match chemicalSchema values with
  | Some chemical => addChemical now chemical state
  | None => state
  end.

Module UsageFormValues.
Record t := mk {
  chemicalId : string;
  quantityUsed : option Q;
  dateUsed : string;
  personInCharge : string;
  remarks : option string
}.
End UsageFormValues.

(** [UsageFormData], the data [usageSchema] lets through. *)
Module UsageFormData.
Record t := mk {
  chemicalId : string;
  quantityUsed : Q;
  dateUsed : string;
  personInCharge : string;
  remarks : option string
}.
End UsageFormData.

Definition usageSchema (values : UsageFormValues.t) : option UsageFormData.t :=
  match UsageFormValues.quantityUsed values with
  | Some quantityUsed =>
      if minLength1 (UsageFormValues.chemicalId values)
         && Number_le (1 # 100) quantityUsed
         && minLength1 (UsageFormValues.dateUsed values)
         && minLength1 (UsageFormValues.personInCharge values)
      then Some (UsageFormData.mk
                   (UsageFormValues.chemicalId values) quantityUsed
                   (UsageFormValues.dateUsed values)
                   (UsageFormValues.personInCharge values)
                   (UsageFormValues.remarks values))
      else None
  | None => None
  end.

(** [chemicals.find(c => c.id === chemicalId)]. *)
Definition findChemical (chemicals : list Chemical.t) (chemicalId : string)
    : option Chemical.t :=
  find (fun c => String.eqb (Chemical.id c) chemicalId) chemicals.

(** The usage [onFormSubmit] hands to [onSubmit]: the data with the name
    of the selected lot, [''] when there is no such lot. *)
Definition onFormSubmit (chemicals : list Chemical.t) (data : UsageFormData.t)
    : NewUsage.t :=
  let chemicalName :=
    match findChemical chemicals (UsageFormData.chemicalId data) with
    | Some c => Chemical.name c
    | None => ""
    end in
  NewUsage.mk (UsageFormData.chemicalId data) chemicalName
    (UsageFormData.quantityUsed data) (UsageFormData.dateUsed data)
    (UsageFormData.personInCharge data) (UsageFormData.remarks data).

(** The lots the usage form offers. *)
Definition availableChemicals (chemicals : list Chemical.t) : list Chemical.t :=
  filter (fun c => Number_lt 0 (Chemical.currentBalance c)) chemicals.

(** The submit button is enabled when the selected id is that of a lot
    ([!selectedChemical] disables it). *)
Definition submitEnabled (chemicals : list Chemical.t)
    (values : UsageFormValues.t) : bool :=
  match findChemical chemicals (UsageFormValues.chemicalId values) with
  | Some _ => true
  | None => false
  end.

(** [handleSubmit(onFormSubmit)] of the usage form, wired to
    [updateInventory]; the form is rendered with the lots of the state. *)
Definition submitUsageForm (now : Z) (values : UsageFormValues.t)
    (state : ChemicalInventoryState) : ChemicalInventoryState :=
  match usageSchema values with
  | Some data =>
      updateInventory now (onFormSubmit (chemicals state) data) state
  | None => state
  end.

(** One submission of a form, with the clock reading it saw. *)
Inductive Submission :=
| SubmitChemical (now : Z) (values : ChemicalFormValues.t)
| SubmitUsage (now : Z) (values : UsageFormValues.t).

Definition applySubmission (state : ChemicalInventoryState)
    (submission : Submission) : ChemicalInventoryState :=
  match submission with
  | SubmitChemical now values => submitChemicalForm now values state
  | SubmitUsage now values => submitUsageForm now values state
  end.

Definition runForms (submissions : list Submission)
    (state : ChemicalInventoryState) : ChemicalInventoryState :=
  fold_left applySubmission submissions state.

(** The usage events a history of operations records, in order. *)
Definition usagesOf (ops : list Operation) : list ChemicalUsage.t :=
  flat_map (fun op =>
              match op with
              | OpAdd _ _ => []
              | OpUsage now usage => [newUsage now usage]
              end) ops.

(** The lots a history of operations adds, in order, as they are added. *)
Definition lotsAddedBy (ops : list Operation) : list Chemical.t :=
  flat_map (fun op =>
              match op with
              | OpAdd now chemical => [newChemical now chemical]
              | OpUsage _ _ => []
              end) ops.

(** Two lots that the sort key does not tell apart. *)
Definition sameKey (sortBy : SortKey) (a b : Chemical.t) : bool :=
  negb (fieldLt sortBy a b) && negb (fieldLt sortBy b a).

(** [a] is not placed after [b] by the comparison function. *)
Definition notAfter (sortBy : SortKey) (sortOrder : SortOrder)
    (a b : Chemical.t) : Prop :=
  (compareChemicals sortBy sortOrder a b <= 0)%Z.

(** The sort key tells any two lots at different positions apart. *)
Definition noTies (sortBy : SortKey) (l : list Chemical.t) : Prop :=
  ForallOrdPairs
    (fun a b => fieldLt sortBy a b = true \/ fieldLt sortBy b a = true) l.

(** No character of the text is a line feed. *)
Fixpoint noLineFeed (s : string) : bool :=
  match s with
  | EmptyString => true
  | String c s' => negb (Ascii.eqb c "010"%char) && noLineFeed s'
  end.

(** The texts of a lot that the export prints are free of line feeds. *)
Definition lotOnOneLine (c : Chemical.t) : bool :=
  noLineFeed (Chemical.name c) && noLineFeed (Chemical.supplier c)
  && noLineFeed (Chemical.dateReceived c) && noLineFeed (Chemical.expiryDate c)
  && noLineFeed (Chemical.storageLocation c)
  && noLineFeed (orEmpty (Chemical.remarks c)).

Definition usageOnOneLine (u : ChemicalUsage.t) : bool :=
  noLineFeed (ChemicalUsage.chemicalName u)
  && noLineFeed (ChemicalUsage.dateUsed u)
  && noLineFeed (ChemicalUsage.personInCharge u)
  && noLineFeed (orEmpty (ChemicalUsage.remarks u)).

(** What a lot of the state has become in a later state: it sits at the
    same position and differs at most in its balance. *)
Definition keptUpToBalance (before after : list Chemical.t) : Prop :=
  forall i c, nth_error before i = Some c ->
    exists c', nth_error after i = Some c'
      /\ withBalance c' (Chemical.currentBalance c) = c.

(** A lot as the add form lets it in, with a balance in range. *)
Definition lotWellFormed (c : Chemical.t) : Prop :=
  balanceInRange c
  /\ (1 # 100) <= Chemical.quantity c
  /\ Chemical.name c <> ""
  /\ Chemical.dateReceived c <> ""
  /\ Chemical.supplier c <> ""
  /\ Chemical.expiryDate c <> ""
  /\ Chemical.storageLocation c <> "".

(** A usage event as the usage form lets it in. *)
Definition eventWellFormed (u : ChemicalUsage.t) : Prop :=
  (1 # 100) <= ChemicalUsage.quantityUsed u
  /\ ChemicalUsage.chemicalId u <> ""
  /\ ChemicalUsage.dateUsed u <> ""
  /\ ChemicalUsage.personInCharge u <> "".

End Inventory.

(** ** The flow calculator ([GPMCalculator.tsx]) *)

Module Flow.

Open Scope string_scope.

Record FlowReading := mkReading {
  id : string;
  timestamp : string;
  duration : float;
  gpm : float;
  operatorName : string;
  deepwell9 : float;
  deepwell10 : float;
  notes : option string
}.

(** The binary64 value nearest to an integer. *)
Definition Number_ofZ (n : Z) : float :=
  SF2Prim (binary_normalize prec emax n 0 false).

(** The binary64 value nearest to [n / 10^k], as reading a decimal literal
    with [k] fractional digits gives it. *)
Definition Number_ofDecimal (negative : bool) (n : Z) (k : nat) : float :=
  match n with
  | Z.pos m =>
      SF2Prim (SFdiv prec emax (S754_finite negative m 0)
                 (S754_finite false (Z.to_pos (10 ^ Z.of_nat k)) 0))
  | _ => SF2Prim (S754_zero negative)
  end.

(** [x.toFixed(2)] for a finite [x] below [10^21]: the hundredths nearest
    to the exact value of [x], ties upwards on the absolute value.  [None]
    stands for the cases where [toFixed] prints [x] as [toString] does
    (not a number, infinite, or at least [10^21]). *)
Definition toFixed2_hundredths (x : float) : option (bool * Z) :=
  match Prim2SF x with
  | S754_zero _ => Some (false, 0%Z)
  | S754_finite s m e =>
      let h :=
        if (0 <=? e)%Z then (100 * (Z.pos m * 2 ^ e))%Z
        else ((2 * 100 * Z.pos m + 2 ^ (- e)) / (2 * 2 ^ (- e)))%Z in
      if (100 * 10 ^ 21 <=? h)%Z then None else Some (s, h)
  | _ => None
  end.

Definition Number_toFixed2 (x : float) : option string :=
  match toFixed2_hundredths x with
  | Some (s, h) => Some (JS.fixed2 s h)
  | None => None
  end.

(** [Number(x.toFixed(2))]: reading the text back gives the binary64 value
    nearest to the printed decimal; where [toFixed] prints as [toString]
    does, reading the text back gives [x] again. *)
Definition Number_of_toFixed2 (x : float) : float :=
  match toFixed2_hundredths x with
  | Some (s, h) => Number_ofDecimal s h 2
  | None => x
  end.

(** The flow-rate effect; [time] counts the ticks of the stopwatch, in
    centiseconds. *)
Definition compute (time : N) : float :=
  if (0 <? time)%N then
    let seconds := (Number_ofZ (Z.of_N time) / 100)%float in
    let calculatedGPM := (1 / seconds * 3600 * 4.4)%float in
    Number_of_toFixed2 calculatedGPM
  else 0%float.

(** [flowLog.reduce((sum, reading) => sum + reading.gpm, 0)]. *)
Definition sumGPM (flowLog : list FlowReading) : float :=
  fold_left (fun sum reading => (sum + gpm reading)%float) flowLog 0%float.

(** The [averageGPM] field of the report sent by [sendToAdmin]. *)
Definition averageGPM (flowLog : list FlowReading) : float :=
  if (0 <? List.length flowLog)%nat
  then (sumGPM flowLog / Number_ofZ (Z.of_nat (List.length flowLog)))%float
  else 0%float.

(** The sum the report is meant to hold, written without [reduce]: the
    [gpm] of the first [n] readings of the log, added in the order of the
    log, [((0 + g0) + g1) + ... ]. *)
Fixpoint sumOfFirst (n : nat) (flowLog : list FlowReading) : float :=
  match n with
  | O => 0%float
  | S n' =>
      match nth_error flowLog n' with
      | Some reading => (sumOfFirst n' flowLog + gpm reading)%float
      | None => sumOfFirst n' flowLog
      end
  end.

(** A division that fails on a zero count, to follow where [averageGPM]
    divides. *)
Definition divideByCount (x : float) (count : nat) : option float :=
  if (count =? 0)%nat then None
  else Some (x / Number_ofZ (Z.of_nat count))%float.

(** [averageGPM] with its division replaced by [divideByCount]. *)
Definition averageGPM_checked (flowLog : list FlowReading) : option float :=
  if (0 <? List.length flowLog)%nat
  then divideByCount (sumGPM flowLog) (List.length flowLog)
  else Some 0%float.

(** *** The stopwatch display *)

Definition formatTime (centiseconds : N) : string :=
  let totalSeconds := (centiseconds / 100)%N in
  let minutes := (totalSeconds / 60)%N in
  let seconds := (totalSeconds mod 60)%N in
  let cs := (centiseconds mod 100)%N in
  JS.padStart 2 "0" (JS.Z_toString (Z.of_N minutes)) ++ ":"
  ++ JS.padStart 2 "0" (JS.Z_toString (Z.of_N seconds)) ++ "."
  ++ JS.padStart 2 "0" (JS.Z_toString (Z.of_N cs)).

(** *** Validation and logging *)

(** [isNaN(x)]. *)
Definition isNaN (x : float) : bool := is_nan x.

(** [x || 0]: zero and not-a-number count as false. *)
Definition orZero (x : float) : float :=
  if is_nan x || (x =? 0)%float then 0%float else x.

(** The check made on the text of a deepwell field; [Number] is the
    conversion of text to a number. *)
Definition deepwellRejected (Number : string -> float) (text : string) : bool :=
  negb (String.eqb text "")
  && (isNaN (Number text) || (Number text <? 0)%float).

(** [validateInputs]: the error object, as the list of its keys with
    their messages. *)
Definition validateInputs (Number : string -> float)
    (operatorName deepwell9 deepwell10 : string) : list (string * string) :=
  (if String.eqb (JS.trim operatorName) ""
   then [("operatorName", "Operator name is required")]
   else if (String.length (JS.trim operatorName) <? 2)%nat
   then [("operatorName", "Operator name must be at least 2 characters")]
   else [])
  ++ (if deepwellRejected Number deepwell9
      then [("deepwell9", "Must be a positive number")] else [])
  ++ (if deepwellRejected Number deepwell10
      then [("deepwell10", "Must be a positive number")] else []).

(** The state of the component that the stopwatch and the log read. *)
Module Stopwatch.
Record t := mk {
  time : N;
  isRunning : bool;
  gpm : float;
  notes : string;
  operatorName : string;
  deepwell9 : string;
  deepwell10 : string;
  validationErrors : list (string * string)
}.
End Stopwatch.

(** [Omit<FlowReading, 'id'>]. *)
Module NewReading.
Record t := mk {
  timestamp : string;
  duration : float;
  gpm : float;
  operatorName : string;
  deepwell9 : float;
  deepwell10 : float;
  notes : option string
}.
End NewReading.

(** One firing of the interval's callback, [setTime(time => time + 1)].
    The interval lives from the effect that follows a render with
    [isRunning] to the clean-up that follows the next change of
    [isRunning]; a firing is allowed at any moment here. *)
Definition tick (s : Stopwatch.t) : Stopwatch.t :=
  Stopwatch.mk (Stopwatch.time s + 1) (Stopwatch.isRunning s)
    (Stopwatch.gpm s)
    (Stopwatch.notes s) (Stopwatch.operatorName s)
    (Stopwatch.deepwell9 s) (Stopwatch.deepwell10 s)
    (Stopwatch.validationErrors s).

(** The effect of [time]: [setGPM] with the rate of the time rendered. *)
Definition gpmEffect (s : Stopwatch.t) : Stopwatch.t :=
  Stopwatch.mk (Stopwatch.time s) (Stopwatch.isRunning s)
    (compute (Stopwatch.time s))
    (Stopwatch.notes s) (Stopwatch.operatorName s)
    (Stopwatch.deepwell9 s) (Stopwatch.deepwell10 s)
    (Stopwatch.validationErrors s).

Definition startStopwatch (s : Stopwatch.t) : Stopwatch.t :=
  Stopwatch.mk (Stopwatch.time s) true (Stopwatch.gpm s)
    (Stopwatch.notes s) (Stopwatch.operatorName s)
    (Stopwatch.deepwell9 s) (Stopwatch.deepwell10 s)
    (Stopwatch.validationErrors s).

Definition resetStopwatch (s : Stopwatch.t) : Stopwatch.t :=
  Stopwatch.mk 0 false 0%float
    (Stopwatch.notes s) (Stopwatch.operatorName s)
    (Stopwatch.deepwell9 s) (Stopwatch.deepwell10 s)
    (Stopwatch.validationErrors s).

(** The reading [autoLogReading] hands to [addDoc], if any; [now] is
    [new Date().toISOString()]. *)
Definition autoLogReading (Number : string -> float) (now : string)
    (s : Stopwatch.t) : option NewReading.t :=
  if (Stopwatch.time s =? 0)%N then None
  else if (0 <? List.length (Stopwatch.validationErrors s))%nat then None
  else Some (NewReading.mk now
               (Number_ofZ (Z.of_N (Stopwatch.time s)) / 100)%float
               (Stopwatch.gpm s)
               (JS.trim (Stopwatch.operatorName s))
               (orZero (Number (Stopwatch.deepwell9 s)))
               (orZero (Number (Stopwatch.deepwell10 s)))
               (if String.eqb (Stopwatch.notes s) "" then None
                else Some (Stopwatch.notes s))).

(** [stopStopwatch]: the state it leaves and the reading it logs. *)
Definition stopStopwatch (Number : string -> float) (now : string)
    (s : Stopwatch.t) : Stopwatch.t * option NewReading.t :=
  (Stopwatch.mk (Stopwatch.time s) false (Stopwatch.gpm s)
     (Stopwatch.notes s) (Stopwatch.operatorName s)
     (Stopwatch.deepwell9 s) (Stopwatch.deepwell10 s)
     (Stopwatch.validationErrors s),
   if (0 <? Stopwatch.time s)%N then autoLogReading Number now s else None).

(** The fields after a reading was stored: notes and deepwell fields are
    emptied and the stopwatch is reset. *)
Definition afterLogged (s : Stopwatch.t) : Stopwatch.t :=
  resetStopwatch
    (Stopwatch.mk (Stopwatch.time s) (Stopwatch.isRunning s) (Stopwatch.gpm s)
       "" (Stopwatch.operatorName s) "" "" (Stopwatch.validationErrors s)).

(** *** Loading the log *)

(** [new Date(s).getTime()] for the text [toISOString] prints,
    [YYYY-MM-DDTHH:mm:ss.sssZ]; [None] is the invalid date. *)
Definition Date_getTime (s : string) : option Z :=
  if negb (Nat.eqb (String.length s) 24) then None
  else if negb (String.eqb (substring 10 1 s) "T"
                && String.eqb (substring 13 1 s) ":"
                && String.eqb (substring 16 1 s) ":"
                && String.eqb (substring 19 1 s) "."
                && String.eqb (substring 23 1 s) "Z") then None
  else
    match Inventory.Date_parse (substring 0 10 s),
          Inventory.digitsValue 0 (substring 11 2 s),
          Inventory.digitsValue 0 (substring 14 2 s),
          Inventory.digitsValue 0 (substring 17 2 s),
          Inventory.digitsValue 0 (substring 20 3 s) with
    | Some day, Some h, Some m, Some sec, Some ms =>
        if ((h <=? 23) && (m <=? 59) && (sec <=? 59))%Z
        then Some (day + ((h * 60 + m) * 60 + sec) * 1000 + ms)%Z
        else None
    | _, _, _, _, _ => None
    end.

(** The comparison function of [readings.sort]: the difference of the two
    times, which [sort] reads as 0 when it is not a number. *)
Definition newestFirst (a b : FlowReading) : Z :=
  match Date_getTime (timestamp b), Date_getTime (timestamp a) with
  | Some tb, Some ta => (tb - ta)%Z
  | _, _ => 0%Z
  end.

(** [loadFlowLog]: the log shown, from the documents in the order the
    store returned them. *)
Definition loadFlowLog (readings : list FlowReading) : list FlowReading :=
  Inventory.Array_sort newestFirst readings.

(** *** Reading the display back, and the life of the component *)

(** The text before and after the first occurrence of a character. *)
Fixpoint splitAtChar (c : ascii) (s : string) : option (string * string) :=
  match s with
  | EmptyString => None
  | String x s' =>
      if Ascii.eqb x c then Some (EmptyString, s')
      else
        match splitAtChar c s' with
        | Some (before, after) => Some (String x before, after)
        | None => None
        end
  end.

(** The centiseconds a display of the form [minutes:seconds.centiseconds]
    stands for. *)
Definition parseTime (text : string) : option N :=
  match splitAtChar ":" text with
  | Some (minutes, rest) =>
      match splitAtChar "." rest with
      | Some (seconds, cs) =>
          match Inventory.digitsValue 0 minutes,
                Inventory.digitsValue 0 seconds,
                Inventory.digitsValue 0 cs with
          | Some m, Some sec, Some c => Some (Z.to_N ((m * 60 + sec) * 100 + c))
          | _, _, _ => None
          end
      | None => None
      end
  | None => None
  end.

(** What happens to the component, one state change at a time: the
    interval fires, a button is pressed, a stored reading comes back, a
    field is edited, an effect runs.  The effects that follow a change
    ([setGPM] after [time], [validateInputs] after a field) are events of
    their own: a handler reads the cells of the render it was created in,
    whether or not the effects of that render have run. *)
Inductive Event :=
| Tick
| Start
| Stop (now : string)
| Logged
| Reset
| SetOperatorName (text : string)
| SetDeepwell9 (text : string)
| SetDeepwell10 (text : string)
| SetNotes (text : string)
| GpmEffect
| ValidationEffect.

(** The component after its first render and effects. *)
Definition mounted (Number : string -> float) : Stopwatch.t :=
  Stopwatch.mk 0 false 0%float "" "" "" "" (validateInputs Number "" "" "").

(** The setters of the four fields. *)
Definition editFields (s : Stopwatch.t)
    (notes operatorName deepwell9 deepwell10 : string) : Stopwatch.t :=
  Stopwatch.mk (Stopwatch.time s) (Stopwatch.isRunning s) (Stopwatch.gpm s)
    notes operatorName deepwell9 deepwell10 (Stopwatch.validationErrors s).

(** The effect of the three validated fields: [validateInputs] and its
    [setValidationErrors]. *)
Definition validationEffect (Number : string -> float) (s : Stopwatch.t)
    : Stopwatch.t :=
  Stopwatch.mk (Stopwatch.time s) (Stopwatch.isRunning s) (Stopwatch.gpm s)
    (Stopwatch.notes s) (Stopwatch.operatorName s)
    (Stopwatch.deepwell9 s) (Stopwatch.deepwell10 s)
    (validateInputs Number (Stopwatch.operatorName s)
       (Stopwatch.deepwell9 s) (Stopwatch.deepwell10 s)).

Definition step (Number : string -> float) (s : Stopwatch.t) (e : Event)
    : Stopwatch.t * option NewReading.t :=
  match e with
  | Tick => (tick s, None)
  | Start => (startStopwatch s, None)
  | Stop now => stopStopwatch Number now s
  | Logged => (afterLogged s, None)
  | Reset => (resetStopwatch s, None)
  | SetOperatorName text =>
      (editFields s (Stopwatch.notes s) text
         (Stopwatch.deepwell9 s) (Stopwatch.deepwell10 s), None)
  | SetDeepwell9 text =>
      (editFields s (Stopwatch.notes s) (Stopwatch.operatorName s)
         text (Stopwatch.deepwell10 s), None)
  | SetDeepwell10 text =>
      (editFields s (Stopwatch.notes s) (Stopwatch.operatorName s)
         (Stopwatch.deepwell9 s) text, None)
  | SetNotes text =>
      (editFields s text (Stopwatch.operatorName s)
         (Stopwatch.deepwell9 s) (Stopwatch.deepwell10 s), None)
  | GpmEffect => (gpmEffect s, None)
  | ValidationEffect => (validationEffect Number s, None)
  end.

(** The readings handed to the store along a sequence of events, each
    with the render its handler read. *)
Fixpoint readingsLogged (Number : string -> float) (s : Stopwatch.t)
    (events : list Event) : list (Stopwatch.t * NewReading.t) :=
  match events with
  | [] => []
  | e :: events' =>
      match step Number s e with
      | (s', Some reading) => (s, reading) :: readingsLogged Number s' events'
      | (s', None) => readingsLogged Number s' events'
      end
  end.

(** A conversion of the decimal texts a number field holds, for the
    examples: digits, with an optional sign and an optional fraction; the
    empty text is 0, any other text is not a number. *)
Definition Number_ofField (text : string) : float :=
  let negative := JS.startsWith text "-" in
  let body := if negative then substring 1 (String.length text) text else text in
  if String.eqb text "" then 0%float
  else
    match splitAtChar "." body with
    | Some (whole, fraction) =>
        match Inventory.digitsValue 0 (whole ++ fraction) with
        | Some n =>
            if String.eqb whole "" && String.eqb fraction "" then nan
            else Number_ofDecimal negative n (String.length fraction)
        | None => nan
        end
    | None =>
        match Inventory.digitsValue 0 body with
        | Some n => if String.eqb body "" then nan
                    else Number_ofDecimal negative n 0
        | None => nan
        end
    end.

(** The value of a run of digits, digit by digit. *)
Fixpoint uintValue (acc : Z) (d : Decimal.uint) : Z :=
  match d with
  | Decimal.Nil => acc
  | Decimal.D0 d' => uintValue (10 * acc + 0) d'
  | Decimal.D1 d' => uintValue (10 * acc + 1) d'
  | Decimal.D2 d' => uintValue (10 * acc + 2) d'
  | Decimal.D3 d' => uintValue (10 * acc + 3) d'
  | Decimal.D4 d' => uintValue (10 * acc + 4) d'
  | Decimal.D5 d' => uintValue (10 * acc + 5) d'
  | Decimal.D6 d' => uintValue (10 * acc + 6) d'
  | Decimal.D7 d' => uintValue (10 * acc + 7) d'
  | Decimal.D8 d' => uintValue (10 * acc + 8) d'
  | Decimal.D9 d' => uintValue (10 * acc + 9) d'
  end.

(** A number of the display, on two digits at least. *)
Definition pad2 (x : N) : string :=
  JS.padStart 2 "0" (JS.Z_toString (Z.of_N x)).

(** The time of a reading, 0 when its timestamp is not a date. *)
Definition timeOf (r : FlowReading) : Z :=
  match Date_getTime (timestamp r) with Some t => t | None => 0%Z end.

(** The reading's timestamp is a date. *)
Definition isDated (r : FlowReading) : bool :=
  match Date_getTime (timestamp r) with Some _ => true | None => false end.

(** Reading [a] was taken at the time of reading [b] or later. *)
Definition notOlder (a b : FlowReading) : bool :=
  match Date_getTime (timestamp a), Date_getTime (timestamp b) with
  | Some ta, Some tb => (tb <=? ta)%Z
  | _, _ => false
  end.

(** The reading was taken at time [t]. *)
Definition takenAt (t : Z) (r : FlowReading) : bool :=
  match Date_getTime (timestamp r) with
  | Some t' => (t' =? t)%Z
  | None => false
  end.

(** The text does not begin with white space. *)
Definition startsClean (s : string) : Prop :=
  match s with
  | EmptyString => True
  | String c _ => JS.isWhiteSpace c = false
  end.

(** The component's derived cells agree with the cells they follow. *)
Definition inSync (Number : string -> float) (s : Stopwatch.t) : Prop :=
  Stopwatch.gpm s = compute (Stopwatch.time s)
  /\ Stopwatch.validationErrors s
     = validateInputs Number (Stopwatch.operatorName s)
         (Stopwatch.deepwell9 s) (Stopwatch.deepwell10 s).

(** A number that is neither not-a-number nor negative. *)
Definition nonNegative (x : float) : Prop :=
  is_nan x = false /\ (0 <=? x)%float = true.

(** What a reading owes to the render its handler read, whether or not
    the effects of that render have run. *)
Definition takenFrom (Number : string -> float) (render : Stopwatch.t)
    (r : NewReading.t) : Prop :=
  Stopwatch.time render <> 0%N
  /\ Stopwatch.validationErrors render = []
  /\ NewReading.duration r
     = (Number_ofZ (Z.of_N (Stopwatch.time render)) / 100)%float
  /\ NewReading.gpm r = Stopwatch.gpm render
  /\ NewReading.operatorName r = JS.trim (Stopwatch.operatorName render)
  /\ JS.trim (NewReading.operatorName r) = NewReading.operatorName r
  /\ NewReading.deepwell9 r = orZero (Number (Stopwatch.deepwell9 render))
  /\ NewReading.deepwell10 r = orZero (Number (Stopwatch.deepwell10 render))
  /\ is_nan (NewReading.deepwell9 r) = false
  /\ is_nan (NewReading.deepwell10 r) = false
  /\ NewReading.notes r <> Some "".

(** What a reading satisfies when the cells its handler read were up to
    date. *)
Definition wellFormedReading (r : NewReading.t) : Prop :=
  exists time : N,
    time <> 0%N
    /\ NewReading.duration r = (Number_ofZ (Z.of_N time) / 100)%float
    /\ NewReading.gpm r = compute time
    /\ NewReading.gpm r
       = Number_of_toFixed2 (1 / NewReading.duration r * 3600 * 4.4)%float
    /\ (2 <= String.length (NewReading.operatorName r))%nat
    /\ JS.trim (NewReading.operatorName r) = NewReading.operatorName r
    /\ nonNegative (NewReading.deepwell9 r)
    /\ nonNegative (NewReading.deepwell10 r)
    /\ NewReading.notes r <> Some "".

End Flow.

(** ** The stock flag on the numbers of the program

    The numbers of a lot are binary64 values; [isLowStock] multiplies and
    compares them as such. *)

Module Binary64.

Module Chemical.
Record t := mk {
  id : string;
  dateReceived : string;
  name : string;
  quantity : float;
  unit : Inventory.Unit;
  supplier : string;
  expiryDate : string;
  storageLocation : string;
  remarks : option string;
  currentBalance : float
}.
End Chemical.

Definition isLowStock (chemical : Chemical.t) : bool :=
  (Chemical.currentBalance chemical <=? Chemical.quantity chemical * 0.1)%float.

(** The exact value of a finite number, counted in units of [2^-1074], the
    smallest positive binary64 value; [None] for the infinities and for
    not-a-number. *)
Definition exactSF (x : spec_float) : option Z :=
  match x with
  | S754_zero _ => Some 0%Z
  | S754_finite s m e => Some (cond_Zopp s (Z.pos m * 2 ^ (e + 1074)))%Z
  | _ => None
  end.

Definition exact (x : float) : option Z := exactSF (Prim2SF x).

End Binary64.

(** ** Sample data *)

Module Samples.

Import Inventory.
Open Scope string_scope.

Definition acetone : NewChemical.t :=
  NewChemical.mk "2024-01-15" "Acetone" 10 Liters "Labchem" "2024-03-31"
    "Shelf A" None.

Definition useAcetone (quantityUsed : Q) : NewUsage.t :=
  NewUsage.mk "500" "Acetone" quantityUsed "2024-02-01" "Ana" None.

(** Acetone added at clock reading 500, then used twice. *)
Definition acetoneHistory : list Operation :=
  [OpAdd 500 acetone; OpUsage 600 (useAcetone 3); OpUsage 700 (useAcetone 20)].

(** A lot of five litres, nothing used. *)
Definition fiveLitres : Chemical.t :=
  Chemical.mk "500" "2024-01-15" "NaOH" 5 Liters "Labchem" "2024-03-31"
    "Shelf A" None 5.

(** The same lot with half a litre left: a tenth of what was received. *)
Definition halfLitreLeft : Chemical.t := withBalance fiveLitres (1 # 2).

(** A usage that refers to no lot of the samples. *)
Definition useUnknown : NewUsage.t :=
  NewUsage.mk "777" "Ethanol" 2 "2024-02-01" "Ana" None.

Definition oneReading : Flow.FlowReading :=
  Flow.mkReading "r1" "2024-03-01T04:00:00.000Z" 3600 4.4 "Ana" 0 0 None.

(** A reading taken an hour after [oneReading]. *)
Definition laterReading : Flow.FlowReading :=
  Flow.mkReading "r2" "2024-03-01T05:00:00.000Z" 1800 8.8 "Ben" 0 0 None.

(** A reading of one second. *)
Definition fastReading : Flow.FlowReading :=
  Flow.mkReading "r4" "2024-03-01T06:00:00.000Z" 1 15840 "Ana" 0 0 None.

(** A reading whose timestamp is not a date. *)
Definition undatedReading : Flow.FlowReading :=
  Flow.mkReading "r3" "yesterday" 1800 8.8 "Cy" 0 0 None.

(** The usage form filled in for three litres of the acetone lot. *)
Definition acetoneForm : UsageFormValues.t :=
  UsageFormValues.mk "500" (Some 3) "2024-02-01" "Ana" None.

(** Five litres received, half a litre left, as binary64 numbers. *)
Definition halfLitreOfFive : Binary64.Chemical.t :=
  Binary64.Chemical.mk "500" "2024-01-15" "NaOH" 5 Inventory.Liters "Labchem"
    "2024-03-31" "Shelf B" None 0.5.

(** 0.7 received and 0.07 left, as the literals read. *)
Definition tenthOfSevenTenths : Binary64.Chemical.t :=
  Binary64.Chemical.mk "501" "2024-01-15" "NaOH" 0.7 Inventory.Liters
    "Labchem" "2024-03-31" "Shelf B" None 0.07.

(** 7 received and 6.3 used. *)
Definition sevenLessSixPointThree : Binary64.Chemical.t :=
  Binary64.Chemical.mk "502" "2024-01-15" "NaOH" 7 Inventory.Liters
    "Labchem" "2024-03-31" "Shelf B" None (7 - 6.3).

(** Noon of 2024-03-01, UTC. *)
Definition noonFirstOfMarch : Z := 1709251200000 + 12 * 60 * 60 * 1000.

End Samples.

(** ** Properties of the mutation engine *)

Module MutationFacts.

Import Inventory.

Lemma withBalance_same (c : Chemical.t) :
  withBalance c (Chemical.currentBalance c) = c.
Proof. destruct c; reflexivity. Qed.

Lemma applyUsage_match (usage : NewUsage.t) (c : Chemical.t) :
  Chemical.id c = NewUsage.chemicalId usage ->
  applyUsage usage c =
  withBalance c (Qmax 0 (Chemical.currentBalance c - NewUsage.quantityUsed usage)).
Proof.
  intros E. unfold applyUsage. rewrite E, String.eqb_refl. reflexivity.
Qed.

Lemma applyUsage_other (usage : NewUsage.t) (c : Chemical.t) :
  Chemical.id c <> NewUsage.chemicalId usage -> applyUsage usage c = c.
Proof.
  intros N. unfold applyUsage.
  destruct (String.eqb_spec (Chemical.id c) (NewUsage.chemicalId usage));
    [contradiction | reflexivity].
Qed.

Lemma applyUsage_id (usage : NewUsage.t) (c : Chemical.t) :
  Chemical.id (applyUsage usage c) = Chemical.id c.
Proof. unfold applyUsage. destruct (String.eqb _ _); reflexivity. Qed.

(** Only the balance of a lot can differ after [applyUsage]. *)
Lemma applyUsage_frame (usage : NewUsage.t) (c : Chemical.t) :
  withBalance (applyUsage usage c) (Chemical.currentBalance c) = c.
Proof.
  unfold applyUsage. destruct (String.eqb _ _); destruct c; reflexivity.
Qed.

Lemma map_applyUsage_no_match (usage : NewUsage.t) (l : list Chemical.t) :
  (forall c, In c l -> Chemical.id c <> NewUsage.chemicalId usage) ->
  map (applyUsage usage) l = l.
Proof.
  induction l as [|c l IH]; intros H; simpl.
  - reflexivity.
  - rewrite applyUsage_other by (apply H; left; reflexivity).
    rewrite IH by (intros c' Hc'; apply H; right; exact Hc').
    reflexivity.
Qed.

(** The decimal text of a clock reading determines the reading. *)
Lemma Z_toString_inj (a b : Z) : JS.Z_toString a = JS.Z_toString b -> a = b.
Proof.
  unfold JS.Z_toString. intros E.
  assert (norm_nonnil : forall z, Z.to_int z <> Decimal.Pos Decimal.Nil
                                  /\ Z.to_int z <> Decimal.Neg Decimal.Nil).
  { intros z. destruct z as [|p|p]; simpl; split; try discriminate;
      intros H; injection H as H;
      exact (DecimalPos.Unsigned.to_uint_nonnil p H). }
  apply DecimalZ.to_int_inj.
  assert (S : Some (Z.to_int a) = Some (Z.to_int b)).
  { rewrite <- (NilZero.isi (Z.to_int a)), <- (NilZero.isi (Z.to_int b)).
    - rewrite E. reflexivity.
    - apply norm_nonnil.
    - apply norm_nonnil.
    - apply norm_nonnil.
    - apply norm_nonnil. }
  injection S as S. exact S.
Qed.

Lemma nth_error_applyUsage (usage : NewUsage.t) (l : list Chemical.t)
    (i : nat) (c : Chemical.t) :
  nth_error l i = Some c ->
  nth_error (map (applyUsage usage) l) i = Some (applyUsage usage c).
Proof. intros H. rewrite nth_error_map, H. reflexivity. Qed.

(** C1, as amended.  [updateInventory] appends to the usage history one
    event carrying the text of the clock reading as identifier and the
    fields of the input; that identifier differs from the identifier of
    every recorded event stamped with another clock reading.  Every lot whose
    [id] is the usage's [chemicalId] gets the balance
    [max(0, currentBalance - quantityUsed)], the other lots stay as they
    are, and when no lot has that [id] the lot collection is unchanged. *)
Theorem updateInventory_records_usage
    (now : Z) (usage : NewUsage.t) (prev : ChemicalInventoryState) :
  let next := updateInventory now usage prev in
  usageHistory next =
    (usageHistory prev ++
     [ChemicalUsage.mk (JS.Z_toString now)
        (NewUsage.chemicalId usage) (NewUsage.chemicalName usage)
        (NewUsage.quantityUsed usage) (NewUsage.dateUsed usage)
        (NewUsage.personInCharge usage) (NewUsage.remarks usage)])%list
  /\ (forall earlier usage', earlier <> now ->
        ChemicalUsage.id (newUsage now usage)
        <> ChemicalUsage.id (newUsage earlier usage'))
  /\ List.length (chemicals next) = List.length (chemicals prev)
  /\ (forall i c, nth_error (chemicals prev) i = Some c ->
        exists c', nth_error (chemicals next) i = Some c'
          /\ (Chemical.id c = NewUsage.chemicalId usage ->
                Chemical.currentBalance c' =
                  Qmax 0 (Chemical.currentBalance c - NewUsage.quantityUsed usage))
          /\ (Chemical.id c <> NewUsage.chemicalId usage -> c' = c))
  /\ ((forall c, In c (chemicals prev) ->
         Chemical.id c <> NewUsage.chemicalId usage) ->
      chemicals next = chemicals prev).
Proof.
  cbv zeta. unfold updateInventory; simpl.
  split; [reflexivity|].
  split. { intros earlier usage' N E. apply N. symmetry.
          exact (Z_toString_inj _ _ E). }
  split. { apply length_map. }
  split.
  - intros i c H. exists (applyUsage usage c).
    split; [exact (nth_error_applyUsage usage _ i c H)|].
    split; intros E.
    + rewrite (applyUsage_match usage c E). reflexivity.
    + exact (applyUsage_other usage c E).
  - apply map_applyUsage_no_match.
Qed.

Lemma updateInventory_records_usage_witness :
  exists c',
    nth_error
      (chemicals
         (updateInventory 600 (Samples.useAcetone 3)
            (addChemical 500 Samples.acetone initialState))) 0 = Some c'
    /\ Chemical.currentBalance c' = Qmax 0 (10 - 3).
Proof.
  destruct (updateInventory_records_usage 600 (Samples.useAcetone 3)
              (addChemical 500 Samples.acetone initialState))
    as (_ & _ & _ & lots & _).
  destruct (lots 0%nat (newChemical 500 Samples.acetone) eq_refl)
    as (c' & found & matched & _).
  exists c'. split; [exact found | exact (matched eq_refl)].
Defined.

(** C1 as stated fails on the freshness of the identifier: two usages
    recorded at one clock reading carry the same identifier. *)
Lemma updateInventory_identifier_repeats :
  map ChemicalUsage.id
    (usageHistory
       (updateInventory 1000 (Samples.useAcetone 3)
          (updateInventory 1000 (Samples.useAcetone 3) initialState)))
  = ["1000"; "1000"]%string
  /\ ~ NoDup
       (map ChemicalUsage.id
          (usageHistory
             (updateInventory 1000 (Samples.useAcetone 3)
                (updateInventory 1000 (Samples.useAcetone 3) initialState)))).
Proof.
  split; [reflexivity|].
  intros H. simpl in H. inversion H as [|x l Hin _]; subst.
  apply Hin. left. reflexivity.
Qed.

(** C9.  [updateInventory] neither adds nor removes a lot: the collection
    keeps its length and its identifiers, position by position.  A lot whose
    [id] differs from the usage's [chemicalId] is unchanged, a matched lot
    differs at most in [currentBalance], the events already recorded stay in
    place with exactly one new event behind them, and the search term, the
    filter mode and the display mode of the state are untouched. *)
Theorem updateInventory_frame
    (now : Z) (usage : NewUsage.t) (prev : ChemicalInventoryState) :
  let next := updateInventory now usage prev in
  List.length (chemicals next) = List.length (chemicals prev)
  /\ map Chemical.id (chemicals next) = map Chemical.id (chemicals prev)
  /\ (forall i, nth_error (chemicals prev) i = None <->
                nth_error (chemicals next) i = None)
  /\ (forall i c, nth_error (chemicals prev) i = Some c ->
        exists c', nth_error (chemicals next) i = Some c'
          /\ (Chemical.id c <> NewUsage.chemicalId usage -> c' = c)
          /\ withBalance c' (Chemical.currentBalance c) = c)
  /\ (exists event, usageHistory next = (usageHistory prev ++ [event])%list)
  /\ (forall i event, nth_error (usageHistory prev) i = Some event ->
        nth_error (usageHistory next) i = Some event)
  /\ searchTerm next = searchTerm prev
  /\ filterBy next = filterBy prev
  /\ isDarkMode next = isDarkMode prev.
Proof.
  cbv zeta. unfold updateInventory; simpl.
  split. { apply length_map. }
  split. { rewrite map_map. apply map_ext. apply applyUsage_id. }
  split. { intros i. rewrite !nth_error_None, length_map. reflexivity. }
  split.
  - intros i c H. exists (applyUsage usage c).
    split; [exact (nth_error_applyUsage usage _ i c H)|].
    split; [apply applyUsage_other | apply applyUsage_frame].
  - split. { eexists. reflexivity. }
    split. { intros i event H. rewrite nth_error_app1; [exact H|].
             apply nth_error_Some. rewrite H. discriminate. }
    repeat split.
Qed.

Lemma updateInventory_frame_witness :
  exists c',
    nth_error
      (chemicals
         (updateInventory 600 Samples.useUnknown
            (addChemical 500 Samples.acetone initialState))) 0 = Some c'
    /\ c' = newChemical 500 Samples.acetone.
Proof.
  destruct (updateInventory_frame 600 Samples.useUnknown
              (addChemical 500 Samples.acetone initialState))
    as (_ & _ & _ & lots & _).
  destruct (lots 0%nat (newChemical 500 Samples.acetone) eq_refl)
    as (c' & found & other & _).
  exists c'. split; [exact found | apply other; discriminate].
Defined.

(** *** The balance invariant *)

Lemma Number_lt_iff (x y : Q) : Number_lt x y = true <-> x < y.
Proof. unfold Number_lt, Qlt. apply Z.ltb_lt. Qed.

Lemma Number_le_iff (x y : Q) : Number_le x y = true <-> x <= y.
Proof. apply Qle_bool_iff. Qed.

Lemma balanceInRange_new (now : Z) (chemical : NewChemical.t) :
  0 <= NewChemical.quantity chemical ->
  balanceInRange (newChemical now chemical).
Proof.
  intros H. unfold balanceInRange; simpl. split; [exact H | apply Qle_refl].
Qed.

(** A usage of a positive quantity keeps a balance between zero and the
    quantity received. *)
Lemma balanceInRange_applyUsage (usage : NewUsage.t) (c : Chemical.t) :
  0 < NewUsage.quantityUsed usage ->
  balanceInRange c -> balanceInRange (applyUsage usage c).
Proof.
  intros Hq [Hlo Hhi]. unfold applyUsage.
  destruct (String.eqb _ _); [|split; assumption].
  unfold balanceInRange; destruct c as [i dr n q u s e l r b]; simpl in *.
  split.
  - apply Q.le_max_l.
  - apply Q.max_lub.
    + apply Qle_trans with b; assumption.
    + apply Qle_trans with b; [|assumption].
      apply Qle_minus_iff.
      setoid_replace (b + - (b - NewUsage.quantityUsed usage))
        with (NewUsage.quantityUsed usage) by ring.
      apply Qlt_le_weak. exact Hq.
Qed.

(** A usage of a positive quantity never raises a balance. *)
Lemma applyUsage_decreases (usage : NewUsage.t) (c : Chemical.t) :
  0 < NewUsage.quantityUsed usage ->
  0 <= Chemical.currentBalance c ->
  Chemical.currentBalance (applyUsage usage c) <= Chemical.currentBalance c.
Proof.
  intros Hq Hlo. unfold applyUsage.
  destruct (String.eqb _ _); [|apply Qle_refl].
  destruct c as [i dr n q u s e l r b]; simpl in *.
  apply Q.max_lub; [exact Hlo|].
  apply Qle_minus_iff.
  setoid_replace (b + - (b - NewUsage.quantityUsed usage))
    with (NewUsage.quantityUsed usage) by ring.
  apply Qlt_le_weak. exact Hq.
Qed.

Lemma applyOperation_invariant (state : ChemicalInventoryState) (op : Operation) :
  validOperation op = true ->
  Forall balanceInRange (chemicals state) ->
  Forall balanceInRange (chemicals (applyOperation state op)).
Proof.
  intros Hv Hinv. destruct op as [now chemical | now usage]; simpl in *.
  - apply Forall_app. split; [exact Hinv|].
    constructor; [|constructor].
    apply balanceInRange_new. apply Number_le_iff. exact Hv.
  - apply Forall_map. apply Number_lt_iff in Hv.
    eapply Forall_impl; [|exact Hinv].
    intros c Hc. apply balanceInRange_applyUsage; assumption.
Qed.

Lemma run_invariant (ops : list Operation) :
  forall state,
    forallb validOperation ops = true ->
    Forall balanceInRange (chemicals state) ->
    Forall balanceInRange (chemicals (run ops state)).
Proof.
  induction ops as [|op ops IH]; intros state Hv Hinv; simpl in *.
  - exact Hinv.
  - apply andb_true_iff in Hv. destruct Hv as [Hop Hops].
    apply IH; [exact Hops|].
    apply applyOperation_invariant; assumption.
Qed.

(** C2.  Starting from the empty state, after any sequence of
    [addChemical] and [updateInventory] calls in which every usage has a
    positive [quantityUsed], every lot of the collection satisfies
    [0 <= currentBalance <= quantity].  The lots added are those of the
    data model, received in a quantity that is not negative (the form
    accepts no quantity below 0.01). *)
Theorem balance_stays_in_range (ops : list Operation) :
  forallb validOperation ops = true ->
  Forall balanceInRange (chemicals (run ops initialState)).
Proof.
  intros Hv. apply run_invariant; [exact Hv | constructor].
Qed.

Lemma balance_stays_in_range_witness :
  forallb validOperation Samples.acetoneHistory = true
  /\ Forall balanceInRange (chemicals (run Samples.acetoneHistory initialState)).
Proof.
  split.
  - reflexivity.
  - apply (balance_stays_in_range Samples.acetoneHistory). reflexivity.
Defined.

End MutationFacts.

(** ** Properties of the derivation engine *)

Module DerivationFacts.

Import Inventory.
Local Open Scope string_scope.

(** *** Filtering *)

Lemma startsWith_iff (s t : string) :
  JS.startsWith s t = true <-> exists after, s = t ++ after.
Proof.
  revert s. induction t as [|b t IH]; intros s; simpl.
  - split; [intros _; exists s; reflexivity | reflexivity].
  - destruct s as [|a s].
    + split; [discriminate | intros [after H]; discriminate H].
    + rewrite andb_true_iff, IH. split.
      * intros [Hab [after ->]]. apply Ascii.eqb_eq in Hab. subst.
        exists after. reflexivity.
      * intros [after H]. injection H as -> ->.
        split; [apply Ascii.eqb_refl | exists after; reflexivity].
Qed.

Lemma includes_iff (s t : string) :
  JS.includes s t = true <-> isSubstring t s.
Proof.
  unfold isSubstring. induction s as [|a s IH].
  - simpl. rewrite orb_false_r, startsWith_iff. split.
    + intros [after H]. exists "", after. exact H.
    + intros [before [after H]]. destruct before; [|discriminate H].
      exists after. exact H.
  - cbn [JS.includes]. rewrite orb_true_iff, IH, startsWith_iff. split.
    + intros [[after H] | [before [after H]]].
      * exists "", after. exact H.
      * exists (String a before), after. simpl. rewrite H. reflexivity.
    + intros [before [after H]]. destruct before as [|b before].
      * left. exists after. exact H.
      * right. simpl in H. injection H as _ H. exists before, after. exact H.
Qed.

Lemma matchesSearch_iff (searchTerm : string) (filterBy : FilterBy)
    (chemical : Chemical.t) :
  matchesSearch searchTerm filterBy chemical = true
  <-> passesFilter searchTerm filterBy chemical.
Proof.
  unfold matchesSearch, passesFilter, isSubstringIgnoringCase.
  destruct (String.eqb_spec searchTerm "") as [E|N].
  - split; [intros _; left; exact E | reflexivity].
  - destruct filterBy; rewrite ?orb_true_iff, !includes_iff; split.
    + intros H. right. split; assumption.
    + intros [E | [_ H]]; [contradiction | exact H].
    + intros H. right. split; assumption.
    + intros [E | [_ H]]; [contradiction | exact H].
    + intros H. right. split; assumption.
    + intros [E | [_ H]]; [contradiction | exact H].
Qed.

Lemma filter_all {A : Type} (f : A -> bool) (l : list A) :
  (forall x, f x = true) -> filter f l = l.
Proof.
  intros H. induction l as [|x l IH]; simpl; [reflexivity|].
  rewrite H, IH. reflexivity.
Qed.

(** C3.  With an empty search term every lot passes the filter.  Otherwise a
    lot passes exactly when: by name, the term occurs in its [name] with the
    case of letters ignored; by date, the term occurs as it is written in
    its [dateReceived] or in its [expiryDate]; by location, the term occurs
    in its [storageLocation] with the case of letters ignored.  The filtered
    collection holds the lots of the collection that pass. *)
Theorem filter_contract (chemicals : list Chemical.t) (searchTerm : string)
    (filterBy : FilterBy) (chemical : Chemical.t) :
  (matchesSearch "" filterBy chemical = true
   /\ filteredChemicals chemicals "" filterBy = chemicals)
  /\ (searchTerm <> "" ->
      (matchesSearch searchTerm FilterName chemical = true
       <-> isSubstring (JS.toLowerCase searchTerm)
             (JS.toLowerCase (Chemical.name chemical)))
      /\ (matchesSearch searchTerm FilterDate chemical = true
          <-> isSubstring searchTerm (Chemical.dateReceived chemical)
              \/ isSubstring searchTerm (Chemical.expiryDate chemical))
      /\ (matchesSearch searchTerm FilterLocation chemical = true
          <-> isSubstring (JS.toLowerCase searchTerm)
                (JS.toLowerCase (Chemical.storageLocation chemical))))
  /\ (matchesSearch searchTerm filterBy chemical = true
      <-> passesFilter searchTerm filterBy chemical)
  /\ (In chemical (filteredChemicals chemicals searchTerm filterBy)
      <-> In chemical chemicals /\ passesFilter searchTerm filterBy chemical).
Proof.
  split; [split; [reflexivity | apply filter_all; reflexivity]|].
  split.
  - intros N. unfold matchesSearch.
    destruct (String.eqb_spec searchTerm "") as [E|_]; [contradiction|].
    rewrite orb_true_iff, !includes_iff. repeat split; intros H; exact H.
  - split; [apply matchesSearch_iff|].
    unfold filteredChemicals. rewrite filter_In, matchesSearch_iff.
    reflexivity.
Qed.

Lemma filter_contract_witness :
  matchesSearch "naoh" FilterName Samples.fiveLitres = true.
Proof.
  destruct (filter_contract [Samples.fiveLitres] "naoh" FilterName
              Samples.fiveLitres) as (_ & nonEmpty & _).
  destruct (nonEmpty ltac:(discriminate)) as (byName & _).
  apply byName. exists "", "". reflexivity.
Defined.

(** *** Sorting *)

Section StableSort.

Variable A : Type.
Variable cmp : A -> A -> Z.

(** When [x] compares greater than [y], [y] does not compare greater than
    [x]. *)
Hypothesis cmp_asym : forall x y, (0 < cmp x y)%Z -> (cmp y x <= 0)%Z.

Lemma inOrder_tail (x : A) (l : list A) :
  inOrder cmp (x :: l) = true -> inOrder cmp l = true.
Proof.
  destruct l as [|y l]; [reflexivity|].
  cbn [inOrder]. intros H. apply andb_true_iff in H. apply H.
Qed.

Lemma inOrder_cons (x y : A) (l : list A) :
  inOrder cmp (x :: y :: l) = true
  <-> (cmp x y <= 0)%Z /\ inOrder cmp (y :: l) = true.
Proof.
  change (inOrder cmp (x :: y :: l))
    with (negb (0 <? cmp x y)%Z && inOrder cmp (y :: l)).
  rewrite andb_true_iff, negb_true_iff, Z.ltb_ge. reflexivity.
Qed.

Lemma sortInsert_inOrder (x : A) (l : list A) :
  inOrder cmp l = true -> inOrder cmp (sortInsert cmp x l) = true.
Proof.
  induction l as [|y l IH]; intros H; [reflexivity|].
  cbn [sortInsert]. destruct (Z.ltb_spec 0 (cmp x y)) as [Hgt|Hle].
  - specialize (IH (inOrder_tail _ _ H)).
    destruct l as [|z l]; cbn [sortInsert] in *.
    + apply inOrder_cons. split; [apply cmp_asym; exact Hgt | reflexivity].
    + apply inOrder_cons in H. destruct H as [Hyz _].
      destruct (0 <? cmp x z)%Z; apply inOrder_cons; split;
        try exact IH; [exact Hyz | apply cmp_asym; exact Hgt].
  - apply inOrder_cons. split; assumption.
Qed.

Lemma Array_sort_inOrder (l : list A) : inOrder cmp (Array_sort cmp l) = true.
Proof.
  induction l as [|x l IH]; [reflexivity|].
  simpl. apply sortInsert_inOrder. exact IH.
Qed.

(** Sorting a list that is in order returns it. *)
Lemma Array_sort_fixed (l : list A) :
  inOrder cmp l = true -> Array_sort cmp l = l.
Proof.
  induction l as [|x l IH]; intros H; [reflexivity|].
  simpl. rewrite (IH (inOrder_tail _ _ H)).
  destruct l as [|y l]; [reflexivity|].
  apply inOrder_cons in H. destruct H as [Hxy _].
  cbn [sortInsert]. destruct (Z.ltb_spec 0 (cmp x y)); [lia | reflexivity].
Qed.

Lemma Array_sort_idempotent (l : list A) :
  Array_sort cmp (Array_sort cmp l) = Array_sort cmp l.
Proof. apply Array_sort_fixed, Array_sort_inOrder. Qed.

End StableSort.

(** The sort keeps the elements: it only rearranges them. *)
Lemma sortInsert_In {A : Type} (cmp : A -> A -> Z) (x y : A) (l : list A) :
  In y (sortInsert cmp x l) <-> y = x \/ In y l.
Proof.
  induction l as [|z l IH]; simpl.
  - intuition.
  - destruct (0 <? cmp x z)%Z; simpl; rewrite ?IH; intuition.
Qed.

Lemma Array_sort_In {A : Type} (cmp : A -> A -> Z) (y : A) (l : list A) :
  In y (Array_sort cmp l) <-> In y l.
Proof.
  induction l as [|x l IH]; simpl; [reflexivity|].
  rewrite sortInsert_In, IH. intuition.
Qed.

Lemma Array_sort_length {A : Type} (cmp : A -> A -> Z) (l : list A) :
  List.length (Array_sort cmp l) = List.length l.
Proof.
  induction l as [|x l IH]; simpl; [reflexivity|].
  rewrite <- IH. generalize (Array_sort cmp l) as m.
  induction m as [|z m IHm]; simpl; [reflexivity|].
  destruct (0 <? cmp x z)%Z; simpl; [rewrite IHm|]; reflexivity.
Qed.

Lemma sortInsert_Permutation {A : Type} (cmp : A -> A -> Z) (x : A)
    (l : list A) :
  Permutation (sortInsert cmp x l) (x :: l).
Proof.
  induction l as [|y l IH]; simpl; [apply Permutation_refl|].
  destruct (0 <? cmp x y)%Z; [|apply Permutation_refl].
  apply Permutation_trans with (y :: x :: l).
  - apply perm_skip. exact IH.
  - apply perm_swap.
Qed.

Lemma Array_sort_Permutation {A : Type} (cmp : A -> A -> Z) (l : list A) :
  Permutation (Array_sort cmp l) l.
Proof.
  induction l as [|x l IH]; simpl; [apply perm_nil|].
  apply Permutation_trans with (x :: Array_sort cmp l).
  - apply sortInsert_Permutation.
  - apply perm_skip. exact IH.
Qed.

Lemma String_ltb_asym (s t : string) :
  String.ltb s t = true -> String.ltb t s = false.
Proof.
  unfold String.ltb. rewrite (String.compare_antisym t s).
  destruct (String.compare s t); simpl; intros H;
    [discriminate H | reflexivity | discriminate H].
Qed.

Lemma Number_lt_asym (x y : Q) :
  Number_lt x y = true -> Number_lt y x = false.
Proof. unfold Number_lt. rewrite Z.ltb_lt, Z.ltb_ge. lia. Qed.

Lemma fieldLt_asym (sortBy : SortKey) (a b : Chemical.t) :
  fieldLt sortBy a b = true -> fieldLt sortBy b a = false.
Proof.
  destruct sortBy; simpl;
    try apply String_ltb_asym; try apply Number_lt_asym.
  destruct (Chemical.remarks a), (Chemical.remarks b);
    try discriminate. apply String_ltb_asym.
Qed.

Lemma compareChemicals_asym (sortBy : SortKey) (sortOrder : SortOrder)
    (a b : Chemical.t) :
  (0 < compareChemicals sortBy sortOrder a b)%Z ->
  (compareChemicals sortBy sortOrder b a <= 0)%Z.
Proof.
  unfold compareChemicals.
  destruct (fieldLt sortBy a b) eqn:Eab.
  - rewrite (fieldLt_asym _ _ _ Eab). destruct sortOrder; lia.
  - destruct (fieldLt sortBy b a); destruct sortOrder; lia.
Qed.

(** C8.  For every lot list, sort key and sort direction, sorting the
    sorted list again by the same key and direction gives the same
    sequence; more generally the sort returns unchanged any list in which no
    lot compares greater than its successor. *)
Theorem sort_idempotent (sortBy : SortKey) (sortOrder : SortOrder)
    (l : list Chemical.t) :
  sortList sortBy sortOrder (sortList sortBy sortOrder l)
  = sortList sortBy sortOrder l
  /\ (inOrder (compareChemicals sortBy sortOrder) l = true ->
      sortList sortBy sortOrder l = l).
Proof.
  unfold sortList. split.
  - apply Array_sort_idempotent. apply compareChemicals_asym.
  - apply Array_sort_fixed.
Qed.

Lemma sort_idempotent_witness :
  sortList KeyCurrentBalance Asc [Samples.halfLitreLeft; Samples.fiveLitres]
  = [Samples.halfLitreLeft; Samples.fiveLitres].
Proof.
  apply (proj2 (sort_idempotent KeyCurrentBalance Asc
                  [Samples.halfLitreLeft; Samples.fiveLitres])).
  reflexivity.
Defined.

(** The table shows the same rows when its own output is filtered and
    sorted again with the same settings. *)
Lemma sortedChemicals_idempotent (chemicals : list Chemical.t)
    (searchTerm : string) (filterBy : FilterBy)
    (sortBy : SortKey) (sortOrder : SortOrder) :
  sortedChemicals
    (sortedChemicals chemicals searchTerm filterBy sortBy sortOrder)
    searchTerm filterBy sortBy sortOrder
  = sortedChemicals chemicals searchTerm filterBy sortBy sortOrder.
Proof.
  unfold sortedChemicals, sortList, filteredChemicals.
  rewrite forallb_filter_id.
  - apply Array_sort_idempotent. apply compareChemicals_asym.
  - apply forallb_forall. intros c Hc.
    apply Array_sort_In, filter_In in Hc. apply Hc.
Qed.

(** *** Status flags *)

Lemma isNearExpiry_parsed (today : Z) (chemical : Chemical.t) (expiry : Z) :
  Date_parse (Chemical.expiryDate chemical) = Some expiry ->
  isNearExpiry today chemical = (expiry <=? today + 30 * msPerDay)%Z.
Proof. intros H. unfold isNearExpiry. rewrite H. reflexivity. Qed.

(** C5.  For a lot whose expiry date reads as the instant [expiry], and the
    current instant [today]: the lot is flagged exactly when
    [expiry <= today + 30 days]; it is flagged when it expires exactly 30
    days after [today] and not flagged when it expires 31 days after.  In
    calendar days: when [today] falls on the day numbered [day] (days
    counted from midnight UTC), a lot expiring on day [day + 30] is flagged
    and a lot expiring on day [day + 31] is not. *)
Theorem nearExpiry_boundary (today : Z) (chemical : Chemical.t) (expiry : Z) :
  Date_parse (Chemical.expiryDate chemical) = Some expiry ->
  (isNearExpiry today chemical = true <-> expiry <= today + 30 * msPerDay)%Z
  /\ (expiry = today + 30 * msPerDay -> isNearExpiry today chemical = true)%Z
  /\ (expiry = today + 31 * msPerDay -> isNearExpiry today chemical = false)%Z
  /\ (forall day,
        (day * msPerDay <= today < (day + 1) * msPerDay)%Z ->
        (expiry = (day + 30) * msPerDay -> isNearExpiry today chemical = true)%Z
        /\ (expiry = (day + 31) * msPerDay ->
            isNearExpiry today chemical = false)%Z).
Proof.
  intros H. rewrite (isNearExpiry_parsed today chemical expiry H).
  unfold msPerDay.
  split; [apply Z.leb_le|].
  split; [intros ->; apply Z.leb_le; lia|].
  split; [intros ->; apply Z.leb_gt; lia|].
  intros day Hday. split; intros ->; [apply Z.leb_le | apply Z.leb_gt]; lia.
Qed.

Lemma nearExpiry_boundary_witness :
  Date_parse (Chemical.expiryDate Samples.fiveLitres) = Some 1711843200000%Z
  /\ isNearExpiry Samples.noonFirstOfMarch Samples.fiveLitres = true.
Proof.
  split; [reflexivity|].
  destruct (nearExpiry_boundary Samples.noonFirstOfMarch Samples.fiveLitres
              1711843200000%Z eq_refl) as (_ & _ & _ & calendar).
  apply (calendar 19783%Z).
  - unfold msPerDay, Samples.noonFirstOfMarch. lia.
  - reflexivity.
Defined.

(** The alerts of a lot are its expiry alert, when it is near expiry,
    followed by its low-stock alert, when it is low in stock. *)
Lemma alertsOf_flags (today : Z) (chemical : Chemical.t) :
  alertsOf today chemical =
  List.app
    (if isNearExpiry today chemical
     then [Chemical.name chemical ++ " expires on "
             ++ Chemical.expiryDate chemical]
     else [])
    (if isLowStock chemical
     then [Chemical.name chemical ++ " is low in stock ("
             ++ JS.Number_toString (Chemical.currentBalance chemical) ++ " "
             ++ Unit_toString (Chemical.unit chemical) ++ ")"]
     else []).
Proof.
  unfold alertsOf, isNearExpiry, isLowStock.
  destruct (Date_parse (Chemical.expiryDate chemical)); reflexivity.
Qed.

End DerivationFacts.

(** ** Properties of the export formatter *)

Module ExportFacts.

Import Inventory.
Local Open Scope string_scope.

Lemma append_assoc (a b c : string) : (a ++ b) ++ c = a ++ b ++ c.
Proof. induction a as [|x a IH]; simpl; [|rewrite IH]; reflexivity. Qed.

Lemma join_cons (sep x y : string) (l : list string) :
  JS.join sep (x :: y :: l) = x ++ sep ++ JS.join sep (y :: l).
Proof. reflexivity. Qed.

(** Joining a list one of whose elements is itself a joined, non-empty
    list gives the text of the flattened list. *)
Lemma join_flatten (sep x : string) (inner before after : list string) :
  JS.join sep (before ++ [JS.join sep (x :: inner)] ++ after)%list
  = JS.join sep (before ++ (x :: inner) ++ after)%list.
Proof.
  induction before as [|b before IH].
  - cbn [List.app]. destruct after as [|a after].
    + rewrite app_nil_r. reflexivity.
    + rewrite join_cons. revert x.
      induction inner as [|y inner IHi]; intros x.
      * reflexivity.
      * cbn [List.app] in *. rewrite !join_cons, <- IHi, !append_assoc.
        reflexivity.
  - destruct before as [|b' before].
    + cbn [List.app] in *. rewrite !join_cons, IH. reflexivity.
    + cbn [List.app] in *. rewrite !join_cons, IH. reflexivity.
Qed.

Lemma map_chemicalLine (l : list Chemical.t) :
  map csvLine (map chemicalRow l) = map chemicalLine l.
Proof. rewrite map_map. reflexivity. Qed.

Lemma map_usageLine (l : list ChemicalUsage.t) :
  map csvLine (map usageRow l) = map usageLine l.
Proof. rewrite map_map. reflexivity. Qed.

(** C4, as amended.  The exported text is the lines of the report joined by
    line feeds: the title, the generation time, an empty line, the inventory
    section header and the column names, then one row per lot in the order of
    the collection, then the usage section.  The row of a lot holds, in
    order, name, current balance, unit, original quantity, supplier, date
    received, expiry date, storage location and remark, every value between
    double quotes and separated by commas; both numbers are printed by
    [toString], not with a fixed number of decimals. *)
Theorem export_layout (chemicals : list Chemical.t)
    (usageHistory : list ChemicalUsage.t) (generatedOn : string) :
  exportToExcel chemicals usageHistory generatedOn
  = JS.join newline (reportLines chemicalLine chemicals usageHistory generatedOn)
  /\ (forall i chemical,
        nth_error chemicals i = Some chemical ->
        nth_error (reportLines chemicalLine chemicals usageHistory generatedOn)
          (5 + i)
        = Some (chemicalLine chemical))
  /\ (forall chemical,
        chemicalLine chemical =
        JS.join ","
          [dquote ++ Chemical.name chemical ++ dquote;
           dquote ++ JS.Number_toString (Chemical.currentBalance chemical)
             ++ dquote;
           dquote ++ Unit_toString (Chemical.unit chemical) ++ dquote;
           dquote ++ JS.Number_toString (Chemical.quantity chemical) ++ dquote;
           dquote ++ Chemical.supplier chemical ++ dquote;
           dquote ++ Chemical.dateReceived chemical ++ dquote;
           dquote ++ Chemical.expiryDate chemical ++ dquote;
           dquote ++ Chemical.storageLocation chemical ++ dquote;
           dquote ++ orEmpty (Chemical.remarks chemical) ++ dquote]).
Proof.
  split; [|split].
  - unfold exportToExcel, reportLines. cbv zeta.
    rewrite map_chemicalLine, map_usageLine.
    set (front := ["CHEMICAL INVENTORY REPORT";
                   "Generated on: " ++ generatedOn; ""; "CURRENT INVENTORY:"]).
    set (lots := JS.join "," chemicalHeaders :: map chemicalLine chemicals).
    set (usages := JS.join "," usageHeaders :: map usageLine usageHistory).
    transitivity
      (JS.join newline
         (front ++ [JS.join newline lots]
          ++ [""; "USAGE HISTORY:"; JS.join newline usages])%list);
      [reflexivity|].
    unfold lots at 1. rewrite join_flatten. fold lots.
    transitivity
      (JS.join newline
         ((front ++ lots ++ [""; "USAGE HISTORY:"])
          ++ [JS.join newline usages] ++ [])%list).
    { f_equal. rewrite <- !app_assoc. reflexivity. }
    unfold usages at 1. rewrite join_flatten. fold usages.
    f_equal. rewrite app_nil_r, <- !app_assoc. reflexivity.
  - intros i chemical H. unfold reportLines.
    change (5 + i)%nat with (S (S (S (S (S i))))). cbn [List.app nth_error].
    rewrite nth_error_app1.
    + rewrite nth_error_map, H. reflexivity.
    + rewrite length_map. apply nth_error_Some. rewrite H. discriminate.
  - reflexivity.
Qed.

Lemma export_layout_witness :
  nth_error (reportLines chemicalLine [Samples.fiveLitres] [] "now") 5
  = Some (chemicalLine Samples.fiveLitres).
Proof.
  destruct (export_layout [Samples.fiveLitres] [] "now") as (_ & rows & _).
  exact (rows 0%nat Samples.fiveLitres eq_refl).
Defined.

(** C4 as stated fails on the balance: a balance of five litres is
    exported as 5, where two decimals would give 5.00. *)
Lemma export_balance_not_two_decimals :
  nth_error (splitLines "" (exportToExcel [Samples.fiveLitres] [] "now")) 5
  = Some (csvLine ["NaOH"; "5"; "Liters"; "5"; "Labchem"; "2024-01-15";
                   "2024-03-31"; "Shelf A"; ""])
  /\ chemicalLineTwoDecimals Samples.fiveLitres
     = csvLine ["NaOH"; "5.00"; "Liters"; "5"; "Labchem"; "2024-01-15";
                "2024-03-31"; "Shelf A"; ""]
  /\ exportToExcel [Samples.fiveLitres] [] "now"
     <> JS.join newline
          (reportLines chemicalLineTwoDecimals [Samples.fiveLitres] [] "now").
Proof.
  split; [reflexivity|]. split; [reflexivity|].
  vm_compute. discriminate.
Qed.

End ExportFacts.

(** ** Properties of the flow calculator *)

Module FlowFacts.

Import Flow.

(** C7.  The flow rate of a stopped timer is 0; an hour (360000
    centiseconds) gives 4.4 and a second (100 centiseconds) gives 15840.
    For every elapsed time other than zero the rate is
    [(1 / (time / 100)) * 3600 * 4.4] rounded to two decimals, which is the
    number read back from [toFixed(2)]. *)
Theorem compute_values :
  compute 0 = 0%float
  /\ compute 360000 = 4.4%float
  /\ compute 100 = 15840%float
  /\ (forall time : N,
        time <> 0%N ->
        compute time
        = Number_of_toFixed2
            (1 / (Number_ofZ (Z.of_N time) / 100) * 3600 * 4.4)%float)
  /\ Number_toFixed2 (1 / (Number_ofZ 360000 / 100) * 3600 * 4.4)%float
     = Some "4.40"%string
  /\ Number_toFixed2 (1 / (Number_ofZ 100 / 100) * 3600 * 4.4)%float
     = Some "15840.00"%string.
Proof.
  split; [reflexivity|].
  split; [vm_compute; reflexivity|].
  split; [vm_compute; reflexivity|].
  split; [|split; vm_compute; reflexivity].
  intros time H. unfold compute.
  destruct (N.ltb_spec 0 time) as [_|Hle]; [reflexivity|].
  exfalso. apply H. apply N.le_0_r. exact Hle.
Qed.

Lemma compute_values_witness : compute 7 = 226285.71%float.
Proof.
  destruct compute_values as (_ & _ & _ & formula & _).
  rewrite (formula 7%N ltac:(discriminate)).
  vm_compute. reflexivity.
Defined.

Lemma sumGPM_snoc (flowLog : list FlowReading) (reading : FlowReading) :
  sumGPM (flowLog ++ [reading]) = (sumGPM flowLog + gpm reading)%float.
Proof. unfold sumGPM. rewrite fold_left_app. reflexivity. Qed.

Lemma sumOfFirst_app (n : nat) (flowLog rest : list FlowReading) :
  (n <= List.length flowLog)%nat ->
  sumOfFirst n (flowLog ++ rest) = sumOfFirst n flowLog.
Proof.
  induction n as [|n IH]; intros H; [reflexivity|].
  cbn [sumOfFirst].
  rewrite nth_error_app1 by lia. rewrite IH by lia. reflexivity.
Qed.

Lemma sumGPM_sumOfFirst (flowLog : list FlowReading) :
  sumGPM flowLog = sumOfFirst (List.length flowLog) flowLog.
Proof.
  induction flowLog as [|reading flowLog IH] using rev_ind; [reflexivity|].
  rewrite sumGPM_snoc, IH, length_app. cbn [List.length].
  replace (List.length flowLog + 1)%nat with (S (List.length flowLog)) by lia.
  cbn [sumOfFirst].
  rewrite nth_error_app2 by lia. rewrite Nat.sub_diag. cbn [nth_error].
  rewrite sumOfFirst_app by lia. reflexivity.
Qed.

(** C10.  The mean flow rate of the admin report is 0 for an empty log;
    for a log that is not empty it is the sum of the [gpm] values of all its
    readings, added in the order of the log, divided by the number of
    readings.  The division is reached only with a count that is not zero:
    the evaluation that fails on a division by a zero count always
    succeeds, with the same value; without the guard the quotient of the
    empty log would not be a number. *)
Theorem averageGPM_guarded (flowLog : list FlowReading) :
  (flowLog = [] -> averageGPM flowLog = 0%float)
  /\ (flowLog <> [] ->
      List.length flowLog <> 0%nat
      /\ averageGPM flowLog
         = (sumOfFirst (List.length flowLog) flowLog
            / Number_ofZ (Z.of_nat (List.length flowLog)))%float)
  /\ (forall first second,
        flowLog = [first; second] ->
        averageGPM flowLog = ((0 + gpm first + gpm second) / 2)%float)
  /\ averageGPM_checked flowLog = Some (averageGPM flowLog)
  /\ (flowLog = [] ->
      is_nan (sumGPM flowLog
              / Number_ofZ (Z.of_nat (List.length flowLog)))%float = true).
Proof.
  split; [intros ->; reflexivity|].
  split.
  { intros H. split.
    - intros E. apply H. apply length_zero_iff_nil. exact E.
    - unfold averageGPM. rewrite sumGPM_sumOfFirst.
      destruct flowLog as [|reading flowLog]; [contradiction|reflexivity]. }
  split; [intros first second ->; vm_compute; reflexivity|].
  split.
  - unfold averageGPM_checked, averageGPM, divideByCount.
    destruct flowLog as [|reading flowLog]; reflexivity.
  - intros ->. vm_compute. reflexivity.
Qed.

Lemma averageGPM_guarded_witness :
  averageGPM [Samples.oneReading; Samples.laterReading; Samples.fastReading]
  = ((0 + 4.4 + 8.8 + 15840) / 3)%float.
Proof.
  destruct (averageGPM_guarded
              [Samples.oneReading; Samples.laterReading; Samples.fastReading])
    as (_ & nonEmpty & _).
  destruct (nonEmpty ltac:(discriminate)) as (_ & mean).
  rewrite mean. vm_compute. reflexivity.
Defined.

End FlowFacts.

(** ** The stock flag on binary64 numbers *)

Module Binary64Facts.

Import Binary64.

Local Open Scope Z_scope.

Lemma digits2_pos_bounds (m : positive) :
  (2 ^ (Z.pos (digits2_pos m) - 1) <= Z.pos m < 2 ^ Z.pos (digits2_pos m))%Z.
Proof.
  induction m as [m IH|m IH|]; cbn [digits2_pos].
  - rewrite Pos2Z.inj_succ.
    replace (Z.succ (Z.pos (digits2_pos m)) - 1)%Z
      with (Z.succ (Z.pos (digits2_pos m) - 1))%Z by lia.
    rewrite !Z.pow_succ_r by lia. lia.
  - rewrite Pos2Z.inj_succ.
    replace (Z.succ (Z.pos (digits2_pos m)) - 1)%Z
      with (Z.succ (Z.pos (digits2_pos m) - 1))%Z by lia.
    rewrite !Z.pow_succ_r by lia. lia.
  - simpl. lia.
Qed.

(** What validity says of a finite binary64 number. *)
Lemma bounded_canonical (m : positive) (e : Z) :
  bounded prec emax m e = true ->
  (-1074 <= e)%Z
  /\ (Z.pos m < 2 ^ 53)%Z
  /\ (-1074 < e -> 2 ^ 52 <= Z.pos m)%Z.
Proof.
  unfold bounded, canonical_mantissa, fexp, emin, prec, emax.
  intros H. apply andb_true_iff in H. destruct H as [H _].
  apply Z.eqb_eq in H.
  pose proof (digits2_pos_bounds m) as [Hlo Hhi].
  assert (D : (Z.pos (digits2_pos m) <= 53)%Z) by lia.
  split; [lia|]. split.
  - apply Z.lt_le_trans with (1 := Hhi).
    apply Z.pow_le_mono_r; lia.
  - intros He. assert (Z.pos (digits2_pos m) = 53)%Z by lia.
    replace 52%Z with (Z.pos (digits2_pos m) - 1)%Z by lia. exact Hlo.
Qed.

(** Of two valid finite numbers, the one with the smaller exponent has the
    smaller magnitude. *)
Lemma finite_order (m1 m2 : positive) (e1 e2 : Z) :
  bounded prec emax m1 e1 = true ->
  bounded prec emax m2 e2 = true ->
  (e1 < e2)%Z ->
  (Z.pos m1 * 2 ^ (e1 + 1074) < Z.pos m2 * 2 ^ (e2 + 1074))%Z.
Proof.
  intros H1 H2 He.
  apply bounded_canonical in H1, H2.
  destruct H1 as (L1 & U1 & _), H2 as (L2 & _ & N2).
  assert (N2' : (2 ^ 52 <= Z.pos m2)%Z) by (apply N2; lia). clear N2.
  replace (e2 + 1074)%Z with ((e2 - e1 - 1) + 1 + (e1 + 1074))%Z by lia.
  rewrite (Z.pow_add_r 2 (e2 - e1 - 1 + 1) (e1 + 1074)) by lia.
  rewrite (Z.pow_add_r 2 (e2 - e1 - 1) 1) by lia.
  assert (P : (0 < 2 ^ (e1 + 1074))%Z) by (apply Z.pow_pos_nonneg; lia).
  assert (Q : (1 <= 2 ^ (e2 - e1 - 1))%Z)
    by (apply (Z.pow_le_mono_r 2 0); lia).
  change (2 ^ 1)%Z with 2%Z.
  change (2 ^ 53)%Z with (2 * 2 ^ 52)%Z in U1.
  remember (2 ^ (e1 + 1074))%Z as p. remember (2 ^ (e2 - e1 - 1))%Z as q.
  remember (2 ^ 52)%Z as h.
  apply Z.lt_le_trans with (2 * h * p)%Z.
  - apply Z.mul_lt_mono_pos_r; assumption.
  - rewrite Z.mul_assoc. apply Z.mul_le_mono_nonneg_r; [lia|].
    assert (0 <= h)%Z by (subst h; apply Z.pow_nonneg; lia).
    nia.
Qed.

Lemma finite_positive (m : positive) (e : Z) :
  bounded prec emax m e = true -> (0 < Z.pos m * 2 ^ (e + 1074))%Z.
Proof.
  intros V. apply bounded_canonical in V. apply Z.mul_pos_pos; [lia|].
  apply Z.pow_pos_nonneg; lia.
Qed.

(** Comparing valid finite numbers compares their exact values. *)
Lemma SFcompare_exact (x y : spec_float) (a b : Z) :
  valid_binary x = true ->
  valid_binary y = true ->
  exactSF x = Some a ->
  exactSF y = Some b ->
  SFcompare x y = Some (a ?= b)%Z.
Proof.
  intros Vx Vy Hx Hy.
  destruct x as [?|?| |sx mx ex], y as [?|?| |sy my ey];
    try discriminate;
    cbv [valid_binary SpecFloat.valid_binary] in Vx, Vy;
    cbn [exactSF] in Hx, Hy;
    assert (Ea := f_equal (fun o => match o with Some v => v | None => 0%Z end) Hx);
    assert (Eb := f_equal (fun o => match o with Some v => v | None => 0%Z end) Hy);
    cbv beta iota in Ea, Eb; subst a b; clear Hx Hy;
    cbn [SFcompare].
  - reflexivity.
  - pose proof (finite_positive my ey Vy).
    destruct sy; cbn [cond_Zopp]; f_equal; symmetry;
      [apply Z.compare_gt_iff | apply Z.compare_lt_iff]; lia.
  - pose proof (finite_positive mx ex Vx).
    destruct sx; cbn [cond_Zopp]; f_equal; symmetry;
      [apply Z.compare_lt_iff | apply Z.compare_gt_iff]; lia.
  - pose proof (finite_positive mx ex Vx) as Px.
    pose proof (finite_positive my ey Vy) as Py.
    assert (M : match (ex ?= ey)%Z with
                | Eq => Pos.compare_cont Eq mx my
                | Lt => Lt
                | Gt => Gt
                end
                = (Z.pos mx * 2 ^ (ex + 1074) ?= Z.pos my * 2 ^ (ey + 1074))%Z).
    { destruct (Z.compare_spec ex ey) as [E|L|G].
      - subst ey.
        change (Pos.compare_cont Eq mx my) with (Z.pos mx ?= Z.pos my)%Z.
        apply Zmult_compare_compat_r. apply Z.lt_gt.
        apply Z.pow_pos_nonneg; [lia|]. apply bounded_canonical in Vx. lia.
      - symmetry. apply Z.compare_lt_iff. apply finite_order; assumption.
      - symmetry. apply Z.compare_gt_iff. apply finite_order; assumption. }
    f_equal. destruct sx, sy; cbn [cond_Zopp].
    + rewrite Z.compare_opp. rewrite (Z.compare_antisym (Z.pos mx * _)).
      rewrite <- M. destruct (ex ?= ey)%Z; reflexivity.
    + symmetry. apply Z.compare_lt_iff. lia.
    + symmetry. apply Z.compare_gt_iff. lia.
    + exact M.
Qed.

Lemma leb_exact (x y : float) (a b : Z) :
  exact x = Some a -> exact y = Some b ->
  (x <=? y)%float = (a <=? b)%Z.
Proof.
  intros Hx Hy. rewrite leb_spec. unfold SFleb.
  rewrite (SFcompare_exact _ _ a b (Prim2SF_valid x) (Prim2SF_valid y) Hx Hy).
  unfold Z.leb. destruct (a ?= b)%Z; reflexivity.
Qed.

Lemma SFcompare_refl (x : spec_float) :
  SFcompare x x = match x with S754_nan => None | _ => Some Eq end.
Proof.
  destruct x as [s|s| |s m e]; cbn [SFcompare]; try reflexivity.
  - destruct s; reflexivity.
  - rewrite Z.compare_refl, Pos.compare_cont_refl. destruct s; reflexivity.
Qed.

Lemma SFcompare_antisym (x y : spec_float) :
  SFcompare y x = option_map CompOpp (SFcompare x y).
Proof.
  destruct x as [sx|sx| |sx mx ex], y as [sy|sy| |sy my ey];
    cbn [SFcompare option_map]; try reflexivity;
    try (destruct sx; reflexivity); try (destruct sy; reflexivity);
    try (destruct sx, sy; reflexivity).
  f_equal. rewrite (Z.compare_antisym ey ex).
  change (Pos.compare_cont Eq my mx) with (my ?= mx)%positive.
  change (Pos.compare_cont Eq mx my) with (mx ?= my)%positive.
  rewrite (Pos.compare_antisym my mx).
  destruct sx, sy, (ey ?= ex)%Z, (my ?= mx)%positive; reflexivity.
Qed.

Lemma SFcompare_None (x y : spec_float) :
  SFcompare x y = None <-> x = S754_nan \/ y = S754_nan.
Proof.
  destruct x as [sx|sx| |sx mx ex], y as [sy|sy| |sy my ey];
    cbn [SFcompare]; split; intros H;
    try discriminate; try (left; reflexivity); try (right; reflexivity);
    try reflexivity; destruct H; discriminate.
Qed.

Lemma is_nan_spec (x : float) : is_nan x = true <-> Prim2SF x = S754_nan.
Proof.
  unfold is_nan. rewrite eqb_spec. unfold SFeqb. rewrite SFcompare_refl.
  destruct (Prim2SF x); split; intros H; try discriminate; reflexivity.
Qed.

Lemma leb_false (x y : float) :
  (x <=? y)%float = false
  <-> is_nan x = true \/ is_nan y = true \/ (y <? x)%float = true.
Proof.
  rewrite leb_spec, ltb_spec, !is_nan_spec. unfold SFleb, SFltb.
  rewrite (SFcompare_antisym (Prim2SF x) (Prim2SF y)).
  pose proof (SFcompare_None (Prim2SF x) (Prim2SF y)) as N.
  destruct (SFcompare (Prim2SF x) (Prim2SF y)) as [[| |]|]; cbn [option_map CompOpp];
    split; intros H; try discriminate; try reflexivity.
  - destruct H as [H | [H | H]]; try discriminate;
      (assert (Some Eq = None :> option comparison) by (apply N; auto); discriminate).
  - destruct H as [H | [H | H]]; try discriminate;
      (assert (Some Lt = None :> option comparison) by (apply N; auto); discriminate).
  - right. right. reflexivity.
  - destruct (proj1 N eq_refl); auto.
Qed.

(** C6.  [isLowStock] is the comparison [currentBalance <= quantity * 0.1]
    of the program's numbers, and it is inclusive: a balance equal to the
    product is low in stock, and so is a balance below it.  A lot is not
    low in stock exactly when the product is below the balance or one of
    the two is not a number.  On finite numbers the comparison is that of
    the exact values: the lot is low in stock exactly when the exact value
    of the balance is at most the exact value of the product. *)
Theorem lowStock_inclusive (chemical : Chemical.t) :
  ((Chemical.currentBalance chemical
    =? Chemical.quantity chemical * 0.1)%float = true ->
   isLowStock chemical = true)
  /\ ((Chemical.currentBalance chemical
       <? Chemical.quantity chemical * 0.1)%float = true ->
      isLowStock chemical = true)
  /\ (isLowStock chemical = false
      <-> is_nan (Chemical.currentBalance chemical) = true
          \/ is_nan (Chemical.quantity chemical * 0.1)%float = true
          \/ (Chemical.quantity chemical * 0.1
              <? Chemical.currentBalance chemical)%float = true)
  /\ (forall balance tenth : Z,
        exact (Chemical.currentBalance chemical) = Some balance ->
        exact (Chemical.quantity chemical * 0.1)%float = Some tenth ->
        (isLowStock chemical = true <-> balance <= tenth)).
Proof.
  unfold isLowStock. split; [|split; [|split]].
  - rewrite eqb_spec, leb_spec. unfold SFeqb, SFleb.
    destruct (SFcompare _ _) as [[| |]|]; intros H; discriminate || reflexivity.
  - rewrite ltb_spec, leb_spec. unfold SFltb, SFleb.
    destruct (SFcompare _ _) as [[| |]|]; intros H; discriminate || reflexivity.
  - apply leb_false.
  - intros balance tenth Hb Ht. rewrite (leb_exact _ _ _ _ Hb Ht).
    apply Z.leb_le.
Qed.

Lemma lowStock_inclusive_witness :
  isLowStock Samples.halfLitreOfFive = true.
Proof.
  apply (proj1 (lowStock_inclusive Samples.halfLitreOfFive)).
  vm_compute. reflexivity.
Defined.

(** The product is the binary64 product, and the balance the binary64
    number stored.  The literal 0.07 reads as a number above the product
    [0.7 * 0.1], and the difference [7 - 6.3] is above the product
    [7 * 0.1]: neither lot is low in stock. *)
Lemma decimal_tenth_is_above_the_product :
  isLowStock Samples.tenthOfSevenTenths = false
  /\ (0.7 * 0.1 <? 0.07)%float = true
  /\ isLowStock Samples.sevenLessSixPointThree = false
  /\ (7 * 0.1 <? 7 - 6.3)%float = true.
Proof. repeat split; vm_compute; reflexivity. Qed.

End Binary64Facts.

(** ** Further properties of the mutation engine *)

Module HistoryFacts.

Import Inventory.

Lemma withBalance_withBalance (c : Chemical.t) (a b : Q) :
  withBalance (withBalance c a) b = withBalance c b.
Proof. reflexivity. Qed.

Lemma findChemical_app (l1 l2 : list Chemical.t) (chemicalId : string) :
  findChemical (l1 ++ l2) chemicalId =
  match findChemical l1 chemicalId with
  | Some c => Some c
  | None => findChemical l2 chemicalId
  end.
Proof.
  unfold findChemical. induction l1 as [|c l1 IH]; simpl; [reflexivity|].
  destruct (String.eqb (Chemical.id c) chemicalId); [reflexivity | exact IH].
Qed.

Lemma findChemical_None (l : list Chemical.t) (chemicalId : string) :
  findChemical l chemicalId = None
  <-> forall c, In c l -> Chemical.id c <> chemicalId.
Proof.
  unfold findChemical. split.
  - intros H c Hc E. apply (find_none _ _ H) in Hc.
    rewrite E, String.eqb_refl in Hc. discriminate Hc.
  - intros H. induction l as [|c l IH]; simpl; [reflexivity|].
    destruct (String.eqb_spec (Chemical.id c) chemicalId) as [E|_].
    + exfalso. exact (H c (or_introl eq_refl) E).
    + apply IH. intros c' Hc'. apply H. right. exact Hc'.
Qed.

Lemma findChemical_Some (l : list Chemical.t) (chemicalId : string)
    (c : Chemical.t) :
  findChemical l chemicalId = Some c ->
  In c l /\ Chemical.id c = chemicalId.
Proof.
  unfold findChemical. intros H. apply find_some in H.
  destruct H as [Hin E]. split; [exact Hin | apply String.eqb_eq; exact E].
Qed.

Lemma findChemical_map_applyUsage (usage : NewUsage.t) (l : list Chemical.t)
    (chemicalId : string) :
  findChemical (map (applyUsage usage) l) chemicalId
  = option_map (applyUsage usage) (findChemical l chemicalId).
Proof.
  unfold findChemical. induction l as [|c l IH]; simpl; [reflexivity|].
  rewrite MutationFacts.applyUsage_id.
  destruct (String.eqb (Chemical.id c) chemicalId); [reflexivity | exact IH].
Qed.

(** X1.  Looking a lot up after it was added: when no lot of the state
    carries the identifier of the clock reading, [find] by that identifier
    returns the new lot, whose balance is the quantity received; an older
    lot with the same identifier hides the new one; the lookup of any other
    identifier is as before. *)
Theorem find_after_add (now : Z) (chemical : NewChemical.t)
    (prev : ChemicalInventoryState) (chemicalId : string) :
  (findChemical (chemicals prev) (clockId now) = None ->
   findChemical (chemicals (addChemical now chemical prev)) (clockId now)
   = Some (newChemical now chemical)
   /\ Chemical.currentBalance (newChemical now chemical)
      = NewChemical.quantity chemical)
  /\ (forall older,
        findChemical (chemicals prev) (clockId now) = Some older ->
        findChemical (chemicals (addChemical now chemical prev)) (clockId now)
        = Some older)
  /\ (chemicalId <> clockId now ->
      findChemical (chemicals (addChemical now chemical prev)) chemicalId
      = findChemical (chemicals prev) chemicalId).
Proof.
  unfold addChemical; simpl. rewrite !findChemical_app.
  split; [|split].
  - intros ->. split; [|reflexivity].
    unfold findChemical; simpl. rewrite String.eqb_refl. reflexivity.
  - intros older ->. reflexivity.
  - intros N. destruct (findChemical (chemicals prev) chemicalId);
      [reflexivity|].
    unfold findChemical; simpl.
    destruct (String.eqb_spec (clockId now) chemicalId) as [E|_];
      [symmetry in E; contradiction | reflexivity].
Qed.

Lemma find_after_add_witness :
  findChemical
    (chemicals (addChemical 500 Samples.acetone initialState)) "500"%string
  = Some (newChemical 500 Samples.acetone).
Proof.
  destruct (find_after_add 500 Samples.acetone initialState "500"%string)
    as (fresh & _).
  exact (proj1 (fresh eq_refl)).
Defined.

(** X2.  Looking a lot up commutes with recording a usage: the lot found
    under an identifier after [updateInventory] is the lot found before,
    with the usage applied to it; in particular a usage never makes an
    identifier appear or disappear. *)
Theorem find_after_usage (now : Z) (usage : NewUsage.t)
    (prev : ChemicalInventoryState) (chemicalId : string) :
  findChemical (chemicals (updateInventory now usage prev)) chemicalId
  = option_map (applyUsage usage) (findChemical (chemicals prev) chemicalId)
  /\ getChemicalUnit (updateInventory now usage prev) chemicalId
     = getChemicalUnit prev chemicalId.
Proof.
  unfold getChemicalUnit. fold (findChemical (chemicals prev) chemicalId).
  fold (findChemical (chemicals (updateInventory now usage prev)) chemicalId).
  unfold updateInventory; simpl. rewrite findChemical_map_applyUsage.
  split; [reflexivity|].
  destruct (findChemical (chemicals prev) chemicalId) as [c|]; simpl;
    [|reflexivity].
  unfold applyUsage. destruct (String.eqb _ _); reflexivity.
Qed.

(** X3.  [getChemicalUnit] returns the empty text exactly when no lot of
    the state has the identifier; otherwise it returns the unit of the
    first lot that has it, which is ["Liters"] or ["Kilograms"]. *)
Theorem getChemicalUnit_missing (state : ChemicalInventoryState)
    (chemicalId : string) :
  (getChemicalUnit state chemicalId = ""%string
   <-> forall c, In c (chemicals state) -> Chemical.id c <> chemicalId)
  /\ (forall c,
        findChemical (chemicals state) chemicalId = Some c ->
        In c (chemicals state) /\ Chemical.id c = chemicalId
        /\ getChemicalUnit state chemicalId = Unit_toString (Chemical.unit c)).
Proof.
  unfold getChemicalUnit. fold (findChemical (chemicals state) chemicalId).
  split.
  - rewrite <- findChemical_None.
    destruct (findChemical (chemicals state) chemicalId) as [c|].
    + split; [|discriminate]. destruct (Chemical.unit c); discriminate.
    + split; reflexivity.
  - intros c H. destruct (findChemical_Some _ _ _ H) as [Hin E].
    rewrite H. repeat split; assumption.
Qed.

Lemma getChemicalUnit_missing_witness :
  getChemicalUnit (addChemical 500 Samples.acetone initialState) "777"%string
  = ""%string.
Proof.
  apply (proj1 (getChemicalUnit_missing
                  (addChemical 500 Samples.acetone initialState) "777"%string)).
  intros c [<- | []]. discriminate.
Defined.

(** *** Whole histories *)

Lemma keptUpToBalance_refl (l : list Chemical.t) : keptUpToBalance l l.
Proof.
  intros i c H. exists c. split; [exact H | apply MutationFacts.withBalance_same].
Qed.

Lemma keptUpToBalance_trans (l1 l2 l3 : list Chemical.t) :
  keptUpToBalance l1 l2 -> keptUpToBalance l2 l3 -> keptUpToBalance l1 l3.
Proof.
  intros H12 H23 i c H.
  destruct (H12 i c H) as (c2 & H2 & E2).
  destruct (H23 i c2 H2) as (c3 & H3 & E3).
  exists c3. split; [exact H3|].
  rewrite <- E2 at 2. rewrite <- E3. reflexivity.
Qed.

Lemma keptUpToBalance_step (state : ChemicalInventoryState) (op : Operation) :
  keptUpToBalance (chemicals state) (chemicals (applyOperation state op)).
Proof.
  intros i c H. destruct op as [now chemical | now usage]; simpl.
  - exists c. split; [|apply MutationFacts.withBalance_same].
    rewrite nth_error_app1; [exact H|].
    apply nth_error_Some. rewrite H. discriminate.
  - exists (applyUsage usage c).
    split; [exact (MutationFacts.nth_error_applyUsage usage _ i c H)|].
    apply MutationFacts.applyUsage_frame.
Qed.

Lemma run_app (ops1 ops2 : list Operation) (state : ChemicalInventoryState) :
  run (ops1 ++ ops2) state = run ops2 (run ops1 state).
Proof. unfold run. apply fold_left_app. Qed.

(** X4.  Whatever the operations, nothing is ever deleted or moved: after
    a history, every lot of the starting state is still at its position and
    differs at most in its balance, the collection has grown by exactly the
    lots added, and the usage history is the old one followed by the events
    of the usages of the history, in the order they were recorded. *)
Theorem history_only_grows (ops : list Operation)
    (state : ChemicalInventoryState) :
  keptUpToBalance (chemicals state) (chemicals (run ops state))
  /\ List.length (chemicals (run ops state))
     = (List.length (chemicals state) + List.length (lotsAddedBy ops))%nat
  /\ map Chemical.id (chemicals (run ops state))
     = (map Chemical.id (chemicals state)
        ++ map Chemical.id (lotsAddedBy ops))%list
  /\ usageHistory (run ops state)
     = (usageHistory state ++ usagesOf ops)%list.
Proof.
  revert state. induction ops as [|op ops IH]; intros state.
  - simpl. rewrite !app_nil_r, Nat.add_0_r.
    repeat split. apply keptUpToBalance_refl.
  - change (run (op :: ops) state) with (run ops (applyOperation state op)).
    destruct (IH (applyOperation state op)) as (K & L & I & U).
    split; [|split; [|split]].
    + eapply keptUpToBalance_trans; [apply keptUpToBalance_step | exact K].
    + rewrite L. destruct op as [now chemical | now usage]; simpl.
      * rewrite length_app. simpl. lia.
      * rewrite length_map. reflexivity.
    + rewrite I. destruct op as [now chemical | now usage]; simpl.
      * rewrite map_app, <- app_assoc. reflexivity.
      * rewrite map_map. f_equal. apply map_ext.
        apply MutationFacts.applyUsage_id.
    + rewrite U. destruct op as [now chemical | now usage]; simpl.
      * reflexivity.
      * rewrite <- app_assoc. reflexivity.
Qed.

Lemma balance_step_decreases (state : ChemicalInventoryState) (op : Operation)
    (i : nat) (c : Chemical.t) :
  validOperation op = true ->
  0 <= Chemical.currentBalance c ->
  nth_error (chemicals state) i = Some c ->
  exists c', nth_error (chemicals (applyOperation state op)) i = Some c'
    /\ 0 <= Chemical.currentBalance c'
    /\ Chemical.currentBalance c' <= Chemical.currentBalance c.
Proof.
  intros Hv Hlo H. destruct op as [now chemical | now usage]; simpl in *.
  - exists c. split; [|split; [exact Hlo | apply Qle_refl]].
    rewrite nth_error_app1; [exact H|].
    apply nth_error_Some. rewrite H. discriminate.
  - exists (applyUsage usage c).
    split; [exact (MutationFacts.nth_error_applyUsage usage _ i c H)|].
    apply MutationFacts.Number_lt_iff in Hv. split.
    + unfold applyUsage. destruct (String.eqb _ _); [|exact Hlo].
      destruct c; simpl. apply Q.le_max_l.
    + apply MutationFacts.applyUsage_decreases; assumption.
Qed.

(** X5.  Along a history in which every usage has a positive quantity and
    no lot is added with a negative quantity, the balance of a lot never
    rises: a lot with a balance that is not negative keeps its position and
    ends with a balance between zero and the balance it had. *)
Theorem balance_never_rises (ops : list Operation) :
  forall (state : ChemicalInventoryState) (i : nat) (c : Chemical.t),
    forallb validOperation ops = true ->
    0 <= Chemical.currentBalance c ->
    nth_error (chemicals state) i = Some c ->
    exists c', nth_error (chemicals (run ops state)) i = Some c'
      /\ 0 <= Chemical.currentBalance c'
      /\ Chemical.currentBalance c' <= Chemical.currentBalance c.
Proof.
  induction ops as [|op ops IH]; intros state i c Hv Hlo H.
  - exists c. split; [exact H | split; [exact Hlo | apply Qle_refl]].
  - simpl in Hv. apply andb_true_iff in Hv. destruct Hv as [Hop Hops].
    destruct (balance_step_decreases state op i c Hop Hlo H)
      as (c1 & H1 & Hlo1 & Hle1).
    destruct (IH (applyOperation state op) i c1 Hops Hlo1 H1)
      as (c2 & H2 & Hlo2 & Hle2).
    exists c2. split; [exact H2 | split; [exact Hlo2|]].
    apply Qle_trans with (Chemical.currentBalance c1); assumption.
Qed.

Lemma balance_never_rises_witness :
  exists c',
    nth_error
      (chemicals
         (run [OpUsage 600 (Samples.useAcetone 3);
               OpUsage 700 (Samples.useAcetone 20)]
            (addChemical 500 Samples.acetone initialState))) 0 = Some c'
    /\ 0 <= Chemical.currentBalance c'
    /\ Chemical.currentBalance c' <= 10.
Proof.
  apply (balance_never_rises
           [OpUsage 600 (Samples.useAcetone 3);
            OpUsage 700 (Samples.useAcetone 20)]
           (addChemical 500 Samples.acetone initialState) 0%nat
           (newChemical 500 Samples.acetone)).
  - reflexivity.
  - discriminate.
  - reflexivity.
Defined.

(** X6.  Usages that refer to different identifiers commute: recording
    them in either order leaves the same lot collection. *)
Theorem usages_of_different_lots_commute (now1 now2 : Z)
    (usage1 usage2 : NewUsage.t) (state : ChemicalInventoryState) :
  NewUsage.chemicalId usage1 <> NewUsage.chemicalId usage2 ->
  chemicals (updateInventory now2 usage2 (updateInventory now1 usage1 state))
  = chemicals (updateInventory now1 usage1 (updateInventory now2 usage2 state)).
Proof.
  intros N. unfold updateInventory; simpl. rewrite !map_map.
  apply map_ext. intros c.
  destruct (String.eqb_spec (Chemical.id c) (NewUsage.chemicalId usage1))
    as [E1|N1].
  - assert (N2 : Chemical.id c <> NewUsage.chemicalId usage2)
      by (rewrite E1; exact N).
    rewrite (MutationFacts.applyUsage_other usage2 c N2).
    apply MutationFacts.applyUsage_other.
    rewrite MutationFacts.applyUsage_id. exact N2.
  - rewrite (MutationFacts.applyUsage_other usage1 c N1).
    symmetry. apply MutationFacts.applyUsage_other.
    rewrite MutationFacts.applyUsage_id. exact N1.
Qed.

Lemma usages_of_different_lots_commute_witness :
  chemicals
    (updateInventory 700 Samples.useUnknown
       (updateInventory 600 (Samples.useAcetone 3)
          (addChemical 500 Samples.acetone initialState)))
  = chemicals
      (updateInventory 600 (Samples.useAcetone 3)
         (updateInventory 700 Samples.useUnknown
            (addChemical 500 Samples.acetone initialState))).
Proof.
  apply (usages_of_different_lots_commute 600 700 (Samples.useAcetone 3)
           Samples.useUnknown).
  discriminate.
Defined.

End HistoryFacts.

(** ** Properties of the forms *)

Module FormFacts.

Import Inventory.
Local Open Scope string_scope.

Lemma minLength1_iff (s : string) : minLength1 s = true <-> s <> "".
Proof.
  unfold minLength1. destruct s; simpl; split;
    try discriminate; try reflexivity; intros H; contradiction H; reflexivity.
Qed.

Lemma chemicalSchema_Some (values : ChemicalFormValues.t) (c : NewChemical.t) :
  chemicalSchema values = Some c ->
  ChemicalFormValues.quantity values = Some (NewChemical.quantity c)
  /\ (1 # 100) <= NewChemical.quantity c
  /\ NewChemical.name c <> ""
  /\ NewChemical.dateReceived c <> ""
  /\ NewChemical.supplier c <> ""
  /\ NewChemical.expiryDate c <> ""
  /\ NewChemical.storageLocation c <> "".
Proof.
  unfold chemicalSchema.
  destruct (ChemicalFormValues.quantity values) as [q|]; [|discriminate].
  destruct (_ && _) eqn:E; [|discriminate].
  intros H. injection H as <-. simpl.
  repeat (apply andb_true_iff in E; destruct E as [E ?]).
  repeat split; try (apply minLength1_iff; assumption).
  apply MutationFacts.Number_le_iff. assumption.
Qed.

Lemma usageSchema_Some (values : UsageFormValues.t) (data : UsageFormData.t) :
  usageSchema values = Some data ->
  UsageFormValues.quantityUsed values = Some (UsageFormData.quantityUsed data)
  /\ UsageFormData.chemicalId data = UsageFormValues.chemicalId values
  /\ (1 # 100) <= UsageFormData.quantityUsed data
  /\ UsageFormData.chemicalId data <> ""
  /\ UsageFormData.dateUsed data <> ""
  /\ UsageFormData.personInCharge data <> "".
Proof.
  unfold usageSchema.
  destruct (UsageFormValues.quantityUsed values) as [q|]; [|discriminate].
  destruct (_ && _) eqn:E; [|discriminate].
  intros H. injection H as <-. simpl.
  repeat (apply andb_true_iff in E; destruct E as [E ?]).
  repeat split; try (apply minLength1_iff; assumption).
  apply MutationFacts.Number_le_iff. assumption.
Qed.

Lemma lotWellFormed_applyUsage (usage : NewUsage.t) (c : Chemical.t) :
  0 < NewUsage.quantityUsed usage ->
  lotWellFormed c -> lotWellFormed (applyUsage usage c).
Proof.
  intros Hq (R & F). split.
  - apply MutationFacts.balanceInRange_applyUsage; assumption.
  - unfold applyUsage. destruct (String.eqb _ _); [|exact F].
    destruct c; exact F.
Qed.

Lemma applySubmission_well_formed (state : ChemicalInventoryState)
    (submission : Submission) :
  Forall lotWellFormed (chemicals state)
  /\ Forall eventWellFormed (usageHistory state) ->
  Forall lotWellFormed (chemicals (applySubmission state submission))
  /\ Forall eventWellFormed (usageHistory (applySubmission state submission)).
Proof.
  intros [HL HE]. destruct submission as [now values | now values]; simpl.
  - unfold submitChemicalForm.
    destruct (chemicalSchema values) as [c|] eqn:S; [|split; assumption].
    apply chemicalSchema_Some in S. destruct S as (_ & Q1 & F).
    simpl. split; [|exact HE].
    apply Forall_app. split; [exact HL|].
    constructor; [|constructor].
    split; [|split; [exact Q1 | exact F]].
    apply MutationFacts.balanceInRange_new.
    apply Qle_trans with (1 # 100); [discriminate | exact Q1].
  - unfold submitUsageForm.
    destruct (usageSchema values) as [data|] eqn:S; [|split; assumption].
    apply usageSchema_Some in S. destruct S as (_ & _ & Q1 & F).
    simpl. split.
    + apply Forall_map. eapply Forall_impl; [|exact HL].
      intros c Hc. apply lotWellFormed_applyUsage; [|exact Hc].
      simpl. apply Qlt_le_trans with (1 # 100); [reflexivity | exact Q1].
    + apply Forall_app. split; [exact HE|].
      constructor; [|constructor].
      split; [exact Q1 | exact F].
Qed.

Lemma runForms_well_formed (submissions : list Submission) :
  forall state,
    Forall lotWellFormed (chemicals state)
    /\ Forall eventWellFormed (usageHistory state) ->
    Forall lotWellFormed (chemicals (runForms submissions state))
    /\ Forall eventWellFormed (usageHistory (runForms submissions state)).
Proof.
  induction submissions as [|x submissions IH]; intros state H; simpl.
  - exact H.
  - apply IH, applySubmission_well_formed, H.
Qed.

(** X7.  Whatever is typed into the two forms, and in whatever order they
    are submitted, the state reached from the empty inventory is well
    formed: every lot has a quantity of at least 0.01, a balance between
    zero and that quantity, and a name, dates, supplier and location that
    are not empty; every recorded usage has a quantity of at least 0.01 and
    a lot identifier, date and person in charge that are not empty. *)
Theorem forms_keep_inventory_well_formed (submissions : list Submission) :
  Forall lotWellFormed (chemicals (runForms submissions initialState))
  /\ Forall eventWellFormed
       (usageHistory (runForms submissions initialState)).
Proof.
  apply runForms_well_formed. split; constructor.
Qed.

(** X8.  A usage submitted with the button enabled and accepted by the
    schema refers to a lot of the inventory: the event appended carries the
    identifier and the name of the first lot with the selected identifier
    and the quantity typed, and that lot ends with the balance
    [max(0, currentBalance - quantityUsed)] at its position. *)
Theorem form_usage_names_its_lot (now : Z) (values : UsageFormValues.t)
    (data : UsageFormData.t) (state : ChemicalInventoryState) :
  usageSchema values = Some data ->
  submitEnabled (chemicals state) values = true ->
  exists c i,
    findChemical (chemicals state) (UsageFormValues.chemicalId values) = Some c
    /\ nth_error (chemicals state) i = Some c
    /\ nth_error (chemicals (submitUsageForm now values state)) i
       = Some (withBalance c
                 (Qmax 0 (Chemical.currentBalance c
                          - UsageFormData.quantityUsed data)))
    /\ usageHistory (submitUsageForm now values state)
       = (usageHistory state
          ++ [ChemicalUsage.mk (clockId now) (Chemical.id c) (Chemical.name c)
                (UsageFormData.quantityUsed data)
                (UsageFormData.dateUsed data)
                (UsageFormData.personInCharge data)
                (UsageFormData.remarks data)])%list.
Proof.
  intros S E. unfold submitEnabled in E.
  destruct (findChemical (chemicals state) (UsageFormValues.chemicalId values))
    as [c|] eqn:F; [|discriminate].
  destruct (usageSchema_Some _ _ S) as (_ & Eid & _).
  destruct (HistoryFacts.findChemical_Some _ _ _ F) as [Hin Hid].
  destruct (In_nth_error _ _ Hin) as [i Hi].
  exists c, i. split; [reflexivity|]. split; [exact Hi|].
  unfold submitUsageForm. rewrite S. unfold updateInventory; simpl.
  split.
  - rewrite (MutationFacts.nth_error_applyUsage _ _ i c Hi).
    rewrite MutationFacts.applyUsage_match; [reflexivity|].
    simpl. rewrite Eid. exact Hid.
  - unfold newUsage, onFormSubmit; simpl. rewrite Eid, F, Hid. reflexivity.
Qed.

Lemma form_usage_names_its_lot_witness :
  exists c i,
    findChemical (chemicals (addChemical 500 Samples.acetone initialState))
      "500" = Some c
    /\ nth_error (chemicals (addChemical 500 Samples.acetone initialState)) i
       = Some c
    /\ nth_error
         (chemicals
            (submitUsageForm 600 Samples.acetoneForm
               (addChemical 500 Samples.acetone initialState))) i
       = Some (withBalance c (Qmax 0 (Chemical.currentBalance c - 3)))
    /\ usageHistory
         (submitUsageForm 600 Samples.acetoneForm
            (addChemical 500 Samples.acetone initialState))
       = [ChemicalUsage.mk (clockId 600) (Chemical.id c) (Chemical.name c)
            3 "2024-02-01" "Ana" None].
Proof.
  exact (form_usage_names_its_lot 600 Samples.acetoneForm
           (UsageFormData.mk "500" 3 "2024-02-01" "Ana" None)
           (addChemical 500 Samples.acetone initialState) eq_refl eq_refl).
Defined.

(** *** The lots offered by the usage form *)

Lemma balance_after_usage_positive (usage : NewUsage.t) (c : Chemical.t) :
  Chemical.id c = NewUsage.chemicalId usage ->
  (0 < Chemical.currentBalance (applyUsage usage c)
   <-> NewUsage.quantityUsed usage < Chemical.currentBalance c).
Proof.
  intros E. rewrite (MutationFacts.applyUsage_match usage c E).
  destruct c as [i dr n q u s e l r b]; simpl.
  rewrite Q.max_lt_iff. split.
  - intros [H | H]; [discriminate H|].
    apply Qlt_minus_iff. exact H.
  - intros H. right. apply -> Qlt_minus_iff. exact H.
Qed.

(** X9.  The usage form offers exactly the lots with a positive balance.
    After a usage is recorded, a lot it refers to is still offered exactly
    when less than its balance was used (a usage of the whole balance or
    more takes the lot off the list), and the other lots are offered as
    before. *)
Theorem available_after_usage (now : Z) (usage : NewUsage.t)
    (state : ChemicalInventoryState) (c' : Chemical.t) :
  (In c' (availableChemicals (chemicals state))
   <-> In c' (chemicals state) /\ 0 < Chemical.currentBalance c')
  /\ (In c' (availableChemicals (chemicals (updateInventory now usage state)))
      <-> exists c,
            In c (chemicals state) /\ c' = applyUsage usage c
            /\ (Chemical.id c = NewUsage.chemicalId usage ->
                NewUsage.quantityUsed usage < Chemical.currentBalance c)
            /\ (Chemical.id c <> NewUsage.chemicalId usage ->
                0 < Chemical.currentBalance c)).
Proof.
  unfold availableChemicals. rewrite !filter_In, !MutationFacts.Number_lt_iff.
  split; [reflexivity|].
  unfold updateInventory; simpl. rewrite in_map_iff. split.
  - intros [(c & <- & Hin) Hpos]. exists c.
    split; [exact Hin|]. split; [reflexivity|]. split; intros E.
    + apply (balance_after_usage_positive usage c E). exact Hpos.
    + rewrite (MutationFacts.applyUsage_other usage c E) in Hpos. exact Hpos.
  - intros (c & Hin & -> & Hm & Ho). split; [exists c; split; trivial|].
    destruct (string_dec (Chemical.id c) (NewUsage.chemicalId usage)) as [E|E].
    + apply (balance_after_usage_positive usage c E). exact (Hm E).
    + rewrite (MutationFacts.applyUsage_other usage c E). exact (Ho E).
Qed.

Lemma available_after_usage_witness :
  ~ In (applyUsage (Samples.useAcetone 20) (newChemical 500 Samples.acetone))
      (availableChemicals
         (chemicals
            (updateInventory 600 (Samples.useAcetone 20)
               (addChemical 500 Samples.acetone initialState)))).
Proof.
  intros H.
  apply (proj2 (available_after_usage 600 (Samples.useAcetone 20)
                  (addChemical 500 Samples.acetone initialState) _)) in H.
  destruct H as (c & [<- | []] & _ & used & _).
  specialize (used eq_refl). revert used. vm_compute. discriminate.
Defined.

End FormFacts.

(** ** Properties of the table *)

Module TableFacts.

Import Inventory.
Local Open Scope string_scope.

(** *** The comparison function *)

Lemma String_compare_OT (a b : string) :
  String.compare a b = String_as_OT.compare a b.
Proof.
  revert b. induction a as [|x a IH]; intros [|y b]; reflexivity.
Qed.

Lemma String_ltb_lt (a b : string) :
  String.ltb a b = true <-> String_as_OT.lt a b.
Proof.
  unfold String.ltb, String_as_OT.lt. rewrite String_compare_OT.
  destruct (String_as_OT.compare a b); split; congruence.
Qed.

Lemma String_ltb_trans (a b c : string) :
  String.ltb a b = true -> String.ltb b c = true -> String.ltb a c = true.
Proof.
  rewrite !String_ltb_lt. apply String_as_OT.lt_strorder.
Qed.

(** When [a] is before [c], any [b] is after [a] or before [c]. *)
Lemma String_ltb_cotrans (a b c : string) :
  String.ltb a c = true -> String.ltb a b = true \/ String.ltb b c = true.
Proof.
  rewrite !String_ltb_lt. intros H.
  destruct (String_as_OT.compare_spec a b) as [E|L|G].
  - right. rewrite <- E. exact H.
  - left. exact L.
  - right. transitivity a; assumption.
Qed.

Lemma Number_lt_trans (a b c : Q) :
  Number_lt a b = true -> Number_lt b c = true -> Number_lt a c = true.
Proof. rewrite !MutationFacts.Number_lt_iff. apply Qlt_trans. Qed.

Lemma Number_lt_cotrans (a b c : Q) :
  Number_lt a c = true -> Number_lt a b = true \/ Number_lt b c = true.
Proof.
  rewrite !MutationFacts.Number_lt_iff. intros H.
  destruct (Qlt_le_dec a b) as [L|G]; [left; exact L|].
  right. apply Qle_lt_trans with a; assumption.
Qed.

Lemma fieldLt_trans (sortBy : SortKey) (a b c : Chemical.t) :
  fieldLt sortBy a b = true -> fieldLt sortBy b c = true ->
  fieldLt sortBy a c = true.
Proof.
  destruct sortBy; simpl;
    try apply String_ltb_trans; try apply Number_lt_trans.
  destruct (Chemical.remarks a), (Chemical.remarks b), (Chemical.remarks c);
    try discriminate. apply String_ltb_trans.
Qed.

Lemma fieldLt_cotrans (sortBy : SortKey) (a b c : Chemical.t) :
  sortBy <> KeyRemarks ->
  fieldLt sortBy a c = true ->
  fieldLt sortBy a b = true \/ fieldLt sortBy b c = true.
Proof.
  intros N. destruct sortBy; simpl;
    try apply String_ltb_cotrans; try apply Number_lt_cotrans.
  contradiction N. reflexivity.
Qed.

Lemma fieldLt_irrefl (sortBy : SortKey) (a : Chemical.t) :
  fieldLt sortBy a a = false.
Proof.
  destruct (fieldLt sortBy a a) eqn:E; [|reflexivity].
  rewrite (DerivationFacts.fieldLt_asym _ _ _ E) in E. discriminate E.
Qed.

(** The comparison function does not place [a] after [b] exactly when the
    key of [b] (ascending) or of [a] (descending) is not the smaller. *)
Lemma notAfter_iff (sortBy : SortKey) (sortOrder : SortOrder)
    (a b : Chemical.t) :
  notAfter sortBy sortOrder a b
  <-> match sortOrder with
      | Asc => fieldLt sortBy b a = false
      | Desc => fieldLt sortBy a b = false
      end.
Proof.
  unfold notAfter, compareChemicals.
  destruct (fieldLt sortBy a b) eqn:Eab.
  - rewrite (DerivationFacts.fieldLt_asym _ _ _ Eab).
    destruct sortOrder; split; intros H; try reflexivity; try lia;
      discriminate H.
  - destruct (fieldLt sortBy b a); destruct sortOrder; split; intros H;
      try reflexivity; try lia; discriminate H.
Qed.

Lemma compareChemicals_opp (sortBy : SortKey) (sortOrder : SortOrder)
    (a b : Chemical.t) :
  compareChemicals sortBy sortOrder b a
  = (- compareChemicals sortBy sortOrder a b)%Z.
Proof.
  unfold compareChemicals.
  destruct (fieldLt sortBy a b) eqn:Eab.
  - rewrite (DerivationFacts.fieldLt_asym _ _ _ Eab).
    destruct sortOrder; reflexivity.
  - destruct (fieldLt sortBy b a); destruct sortOrder; reflexivity.
Qed.

Lemma notAfter_trans (sortBy : SortKey) (sortOrder : SortOrder)
    (a b c : Chemical.t) :
  sortBy <> KeyRemarks ->
  notAfter sortBy sortOrder a b -> notAfter sortBy sortOrder b c ->
  notAfter sortBy sortOrder a c.
Proof.
  intros N. rewrite !notAfter_iff. destruct sortOrder; intros Hab Hbc.
  - destruct (fieldLt sortBy c a) eqn:E; [|reflexivity].
    destruct (fieldLt_cotrans sortBy c b a N E) as [H|H]; congruence.
  - destruct (fieldLt sortBy a c) eqn:E; [|reflexivity].
    destruct (fieldLt_cotrans sortBy a b c N E) as [H|H]; congruence.
Qed.

(** X10.  For every sort key but the optional [remarks], and both
    directions, the comparison function given to [sort] is a consistent
    one: it returns -1, 0 or 1, compares a lot equal to itself, returns the
    opposite number when its arguments are swapped, and "not after" is
    transitive; so the order of the rows does not depend on the sorting
    algorithm of the engine. *)
Theorem compareChemicals_consistent (sortBy : SortKey)
    (sortOrder : SortOrder) (a b c : Chemical.t) :
  sortBy <> KeyRemarks ->
  (compareChemicals sortBy sortOrder a b = -1
   \/ compareChemicals sortBy sortOrder a b = 0
   \/ compareChemicals sortBy sortOrder a b = 1)%Z
  /\ compareChemicals sortBy sortOrder a a = 0%Z
  /\ compareChemicals sortBy sortOrder b a
     = (- compareChemicals sortBy sortOrder a b)%Z
  /\ ((compareChemicals sortBy sortOrder a b <= 0)%Z ->
      (compareChemicals sortBy sortOrder b c <= 0)%Z ->
      (compareChemicals sortBy sortOrder a c <= 0)%Z).
Proof.
  intros N. split; [|split; [|split]].
  - unfold compareChemicals.
    destruct (fieldLt sortBy a b), (fieldLt sortBy b a), sortOrder; auto.
  - unfold compareChemicals. rewrite fieldLt_irrefl. reflexivity.
  - apply compareChemicals_opp.
  - apply (notAfter_trans sortBy sortOrder a b c N).
Qed.

Lemma compareChemicals_consistent_witness :
  compareChemicals KeyCurrentBalance Asc Samples.halfLitreLeft
    Samples.fiveLitres = (-1)%Z
  \/ compareChemicals KeyCurrentBalance Asc Samples.halfLitreLeft
       Samples.fiveLitres = 0%Z
  \/ compareChemicals KeyCurrentBalance Asc Samples.halfLitreLeft
       Samples.fiveLitres = 1%Z.
Proof.
  apply (compareChemicals_consistent KeyCurrentBalance Asc
           Samples.halfLitreLeft Samples.fiveLitres Samples.fiveLitres).
  discriminate.
Defined.

(** *** The rows *)

Section SortedRows.

Variable A : Type.
Variable cmp : A -> A -> Z.

Hypothesis cmp_opp : forall x y, cmp y x = (- cmp x y)%Z.
Hypothesis cmp_trans :
  forall x y z, (cmp x y <= 0)%Z -> (cmp y z <= 0)%Z -> (cmp x z <= 0)%Z.

Lemma sortInsert_StronglySorted (x : A) (l : list A) :
  StronglySorted (fun a b => (cmp a b <= 0)%Z) l ->
  StronglySorted (fun a b => (cmp a b <= 0)%Z) (Inventory.sortInsert cmp x l).
Proof.
  induction l as [|y l IH]; intros H; simpl.
  - constructor; constructor.
  - apply StronglySorted_inv in H. destruct H as [Hl Hy].
    destruct (Z.ltb_spec 0 (cmp x y)) as [Hgt|Hle].
    + constructor; [apply IH; exact Hl|].
      apply Forall_forall. intros z Hz.
      apply DerivationFacts.sortInsert_In in Hz. destruct Hz as [-> | Hz].
      * rewrite cmp_opp. lia.
      * rewrite Forall_forall in Hy. apply Hy. exact Hz.
    + constructor; [constructor; assumption|].
      constructor; [exact Hle|].
      eapply Forall_impl; [|exact Hy].
      intros z Hz. apply cmp_trans with y; assumption.
Qed.

Lemma Array_sort_StronglySorted (l : list A) :
  StronglySorted (fun a b => (cmp a b <= 0)%Z) (Inventory.Array_sort cmp l).
Proof.
  induction l as [|x l IH]; simpl; [constructor|].
  apply sortInsert_StronglySorted. exact IH.
Qed.

(** Elements that never compare greater than one another keep their
    relative order. *)
Lemma sortInsert_filter (P : A -> bool) (x : A) (l : list A) :
  (forall a b, P a = true -> P b = true -> (cmp a b <= 0)%Z) ->
  filter P (Inventory.sortInsert cmp x l) = filter P (x :: l).
Proof.
  intros HP. induction l as [|y l IH]; [reflexivity|].
  cbn [Inventory.sortInsert].
  destruct (Z.ltb_spec 0 (cmp x y)) as [Hgt|Hle]; [|reflexivity].
  cbn [filter] in *. rewrite IH.
  destruct (P x) eqn:Px, (P y) eqn:Py; try reflexivity.
  specialize (HP x y Px Py). lia.
Qed.

Lemma Array_sort_stable (P : A -> bool) (l : list A) :
  (forall a b, P a = true -> P b = true -> (cmp a b <= 0)%Z) ->
  filter P (Inventory.Array_sort cmp l) = filter P l.
Proof.
  intros HP. induction l as [|x l IH]; [reflexivity|].
  simpl. rewrite (sortInsert_filter P x _ HP). simpl. rewrite IH.
  reflexivity.
Qed.

End SortedRows.

Lemma sameKey_notAfter (sortBy : SortKey) (sortOrder : SortOrder)
    (c a b : Chemical.t) :
  sortBy <> KeyRemarks ->
  sameKey sortBy c a = true -> sameKey sortBy c b = true ->
  notAfter sortBy sortOrder a b.
Proof.
  unfold sameKey. intros N Ha Hb.
  apply andb_true_iff in Ha. apply andb_true_iff in Hb.
  destruct Ha as [Hca Hac], Hb as [Hcb Hbc].
  apply negb_true_iff in Hca, Hac, Hcb, Hbc.
  apply notAfter_iff. destruct sortOrder.
  - destruct (fieldLt sortBy b a) eqn:E; [|reflexivity].
    destruct (fieldLt_cotrans sortBy b c a N E); congruence.
  - destruct (fieldLt sortBy a b) eqn:E; [|reflexivity].
    destruct (fieldLt_cotrans sortBy a c b N E); congruence.
Qed.

(** X11.  The rows of the table are the lots that pass the filter, each as
    often as it occurs, so at most as many as the inventory holds.  For
    every sort key but the optional [remarks], no row is placed after a
    later row by the comparison function, and lots with the same key keep
    the order they have in the inventory. *)
Theorem rows_sorted_and_stable (chemicals : list Chemical.t)
    (searchTerm : string) (filterBy : FilterBy) (s : SortState) :
  Permutation (tableRows chemicals searchTerm filterBy s)
    (filteredChemicals chemicals searchTerm filterBy)
  /\ (List.length (tableRows chemicals searchTerm filterBy s)
      <= List.length chemicals)%nat
  /\ (sortBy s <> KeyRemarks ->
      StronglySorted (notAfter (sortBy s) (sortOrder s))
        (tableRows chemicals searchTerm filterBy s)
      /\ forall c,
           filter (sameKey (sortBy s) c)
             (tableRows chemicals searchTerm filterBy s)
           = filter (sameKey (sortBy s) c)
               (filteredChemicals chemicals searchTerm filterBy)).
Proof.
  unfold tableRows, sortedChemicals, sortList.
  split; [apply DerivationFacts.Array_sort_Permutation|].
  split.
  - rewrite DerivationFacts.Array_sort_length. apply filter_length_le.
  - intros N. split.
    + apply Array_sort_StronglySorted.
      * apply compareChemicals_opp.
      * intros x y z. apply (notAfter_trans _ _ x y z N).
    + intros c. apply Array_sort_stable.
      intros a b Ha Hb. exact (sameKey_notAfter _ _ c a b N Ha Hb).
Qed.

Lemma rows_sorted_and_stable_witness :
  StronglySorted (notAfter KeyCurrentBalance Desc)
    (tableRows [Samples.halfLitreLeft; Samples.fiveLitres] "" FilterName
       (mkSort KeyCurrentBalance Desc)).
Proof.
  destruct (rows_sorted_and_stable
              [Samples.halfLitreLeft; Samples.fiveLitres] "" FilterName
              (mkSort KeyCurrentBalance Desc)) as (_ & _ & sorted).
  apply sorted. discriminate.
Defined.

(** The optional [remarks] is left out above for a reason: a lot without
    remarks compares equal to every lot, so "not after" is not
    transitive. *)
Lemma remarks_key_not_transitive :
  exists a b c,
    notAfter KeyRemarks Asc a b /\ notAfter KeyRemarks Asc b c
    /\ ~ notAfter KeyRemarks Asc a c.
Proof.
  exists (Chemical.mk "1" "" "" 0 Liters "" "" "" (Some "b") 0),
         (Chemical.mk "2" "" "" 0 Liters "" "" "" None 0),
         (Chemical.mk "3" "" "" 0 Liters "" "" "" (Some "a") 0).
  unfold notAfter. repeat split; vm_compute; congruence.
Qed.

(** *** Clicking a column header *)

Lemma SortKey_eqb_eq (a b : SortKey) : SortKey_eqb a b = true <-> a = b.
Proof. destruct a, b; simpl; split; congruence. Qed.

Section StrictRows.

Variable A : Type.
Variable cmp : A -> A -> Z.

Hypothesis cmp_opp : forall x y, cmp y x = (- cmp x y)%Z.
Hypothesis before_trans :
  forall x y z, (cmp x y < 0)%Z -> (cmp y z < 0)%Z -> (cmp x z < 0)%Z.

Lemma sortInsert_strict (x : A) (l : list A) :
  (forall y, In y l -> cmp x y <> 0%Z) ->
  StronglySorted (fun a b => (cmp a b < 0)%Z) l ->
  StronglySorted (fun a b => (cmp a b < 0)%Z) (Inventory.sortInsert cmp x l).
Proof.
  induction l as [|y l IH]; intros Hx H; simpl.
  - constructor; constructor.
  - apply StronglySorted_inv in H. destruct H as [Hl Hy].
    destruct (Z.ltb_spec 0 (cmp x y)) as [Hgt|Hle].
    + constructor.
      * apply IH; [|exact Hl]. intros z Hz. apply Hx. right. exact Hz.
      * apply Forall_forall. intros z Hz.
        apply DerivationFacts.sortInsert_In in Hz. destruct Hz as [-> | Hz].
        -- rewrite cmp_opp. lia.
        -- rewrite Forall_forall in Hy. apply Hy. exact Hz.
    + assert (Hlt : (cmp x y < 0)%Z).
      { specialize (Hx y (or_introl eq_refl)). lia. }
      constructor; [constructor; assumption|].
      constructor; [exact Hlt|].
      eapply Forall_impl; [|exact Hy].
      intros z Hz. apply before_trans with y; assumption.
Qed.

Lemma Array_sort_strict (l : list A) :
  ForallOrdPairs (fun a b => cmp a b <> 0%Z) l ->
  StronglySorted (fun a b => (cmp a b < 0)%Z) (Inventory.Array_sort cmp l).
Proof.
  induction l as [|x l IH]; intros H; simpl; [constructor|].
  inversion H as [|a l' Hx Hl]; subst.
  apply sortInsert_strict; [|apply IH; exact Hl].
  intros y Hy. apply DerivationFacts.Array_sort_In in Hy.
  rewrite Forall_forall in Hx. apply Hx. exact Hy.
Qed.

End StrictRows.

Lemma StronglySorted_impl {A : Type} (R R' : A -> A -> Prop) (l : list A) :
  (forall a b, R a b -> R' a b) -> StronglySorted R l -> StronglySorted R' l.
Proof.
  intros H S. induction S as [|a l _ IH Fa]; constructor; [exact IH|].
  eapply Forall_impl; [|exact Fa]. intros b. apply H.
Qed.

Lemma StronglySorted_app {A : Type} (R : A -> A -> Prop) (l1 l2 : list A) :
  StronglySorted R l1 -> StronglySorted R l2 ->
  (forall x y, In x l1 -> In y l2 -> R x y) ->
  StronglySorted R (l1 ++ l2).
Proof.
  induction l1 as [|a l1 IH]; intros H1 H2 H; simpl; [exact H2|].
  apply StronglySorted_inv in H1. destruct H1 as [Hl Ha].
  constructor.
  - apply IH; [exact Hl | exact H2|].
    intros x y Hx Hy. apply H; [right; exact Hx | exact Hy].
  - apply Forall_app. split; [exact Ha|].
    apply Forall_forall. intros y Hy. apply H; [left; reflexivity | exact Hy].
Qed.

Lemma StronglySorted_rev {A : Type} (R : A -> A -> Prop) (l : list A) :
  StronglySorted R l -> StronglySorted (fun a b => R b a) (rev l).
Proof.
  induction l as [|a l IH]; intros H; simpl; [constructor|].
  apply StronglySorted_inv in H. destruct H as [Hl Ha].
  apply StronglySorted_app.
  - apply IH. exact Hl.
  - constructor; constructor.
  - intros x y Hx [<- | []]. apply in_rev in Hx.
    rewrite Forall_forall in Ha. apply Ha. exact Hx.
Qed.

(** Two arrangements of the same elements that are both strictly in order
    are the same list. *)
Lemma StronglySorted_unique {A : Type} (R : A -> A -> Prop) :
  (forall a b, R a b -> R b a -> False) ->
  forall l1 l2 : list A,
    Permutation l1 l2 -> StronglySorted R l1 -> StronglySorted R l2 ->
    l1 = l2.
Proof.
  intros asym. induction l1 as [|a l1 IH]; intros l2 P S1 S2.
  - apply Permutation_nil in P. symmetry. exact P.
  - destruct l2 as [|b l2].
    + apply Permutation_sym, Permutation_nil in P. discriminate P.
    + apply StronglySorted_inv in S1. destruct S1 as [S1 Fa].
      apply StronglySorted_inv in S2. destruct S2 as [S2 Fb].
      rewrite Forall_forall in Fa, Fb.
      assert (E : a = b).
      { assert (Ia : In a (b :: l2))
          by (apply (Permutation_in _ P); left; reflexivity).
        assert (Ib : In b (a :: l1))
          by (apply (Permutation_in _ (Permutation_sym P)); left; reflexivity).
        destruct Ia as [Ia | Ia]; [symmetry; exact Ia|].
        destruct Ib as [Ib | Ib]; [exact Ib|].
        exfalso. exact (asym a b (Fa b Ib) (Fb a Ia)). }
      subst b. f_equal. apply IH; [|exact S1 | exact S2].
      exact (Permutation_cons_inv P).
Qed.

Lemma compareChemicals_Desc (sortBy : SortKey) (a b : Chemical.t) :
  compareChemicals sortBy Desc a b = compareChemicals sortBy Asc b a.
Proof.
  unfold compareChemicals.
  destruct (fieldLt sortBy a b) eqn:Eab.
  - rewrite (DerivationFacts.fieldLt_asym _ _ _ Eab). reflexivity.
  - destruct (fieldLt sortBy b a); reflexivity.
Qed.

Lemma compareChemicals_flip (sortBy : SortKey) (sortOrder : SortOrder)
    (a b : Chemical.t) :
  compareChemicals sortBy
    (match sortOrder with Asc => Desc | Desc => Asc end) a b
  = compareChemicals sortBy sortOrder b a.
Proof.
  destruct sortOrder; [apply compareChemicals_Desc|].
  symmetry. apply compareChemicals_Desc.
Qed.

Lemma compareChemicals_before (sortBy : SortKey) (sortOrder : SortOrder)
    (a b : Chemical.t) :
  (compareChemicals sortBy sortOrder a b < 0)%Z
  <-> match sortOrder with
      | Asc => fieldLt sortBy a b = true
      | Desc => fieldLt sortBy b a = true
      end.
Proof.
  unfold compareChemicals.
  destruct (fieldLt sortBy a b) eqn:Eab.
  - rewrite (DerivationFacts.fieldLt_asym _ _ _ Eab).
    destruct sortOrder; split; intros H; try reflexivity; try lia;
      discriminate H.
  - destruct (fieldLt sortBy b a); destruct sortOrder; split; intros H;
      try reflexivity; try lia; discriminate H.
Qed.

Lemma compareChemicals_before_trans (sortBy : SortKey)
    (sortOrder : SortOrder) (a b c : Chemical.t) :
  (compareChemicals sortBy sortOrder a b < 0)%Z ->
  (compareChemicals sortBy sortOrder b c < 0)%Z ->
  (compareChemicals sortBy sortOrder a c < 0)%Z.
Proof.
  rewrite !compareChemicals_before. destruct sortOrder; intros H1 H2.
  - exact (fieldLt_trans _ _ _ _ H1 H2).
  - exact (fieldLt_trans _ _ _ _ H2 H1).
Qed.

Lemma noTies_compare (sortBy : SortKey) (sortOrder : SortOrder)
    (l : list Chemical.t) :
  noTies sortBy l ->
  ForallOrdPairs
    (fun a b => compareChemicals sortBy sortOrder a b <> 0%Z) l.
Proof.
  unfold noTies. intros H.
  induction H as [|a l Ha Hl IH]; constructor; [|exact IH].
  eapply Forall_impl; [|exact Ha].
  intros b [E | E]; unfold compareChemicals.
  - rewrite E. destruct sortOrder; discriminate.
  - rewrite E, (DerivationFacts.fieldLt_asym _ _ _ E).
    destruct sortOrder; discriminate.
Qed.

Lemma sortList_strict (sortBy : SortKey) (sortOrder : SortOrder)
    (l : list Chemical.t) :
  noTies sortBy l ->
  StronglySorted
    (fun a b => (compareChemicals sortBy sortOrder a b < 0)%Z)
    (sortList sortBy sortOrder l).
Proof.
  intros H. unfold sortList. apply Array_sort_strict.
  - apply compareChemicals_opp.
  - apply compareChemicals_before_trans.
  - apply noTies_compare. exact H.
Qed.

(** X12.  A click on a column header sorts by that column: on a new
    column the order is ascending, on the current column the direction is
    reversed, and a second click on it gives the sort state back.  When the
    key tells all the rows apart, reversing the direction shows the same
    rows in the reverse order. *)
Theorem handleSort_reverses (chemicals : list Chemical.t)
    (searchTerm : string) (filterBy : FilterBy) (field : SortKey)
    (s : SortState) :
  sortBy (handleSort field s) = field
  /\ (field <> sortBy s -> sortOrder (handleSort field s) = Asc)
  /\ handleSort (sortBy s) (handleSort (sortBy s) s) = s
  /\ (noTies (sortBy s) (filteredChemicals chemicals searchTerm filterBy) ->
      tableRows chemicals searchTerm filterBy (handleSort (sortBy s) s)
      = rev (tableRows chemicals searchTerm filterBy s)).
Proof.
  split; [|split; [|split]].
  - unfold handleSort.
    destruct (SortKey_eqb (sortBy s) field) eqn:E; [|reflexivity].
    apply SortKey_eqb_eq. exact E.
  - intros N. unfold handleSort.
    destruct (SortKey_eqb (sortBy s) field) eqn:E; [|reflexivity].
    apply SortKey_eqb_eq in E. symmetry in E. contradiction.
  - unfold handleSort.
    rewrite (proj2 (SortKey_eqb_eq (sortBy s) (sortBy s)) eq_refl). simpl.
    rewrite (proj2 (SortKey_eqb_eq (sortBy s) (sortBy s)) eq_refl).
    destruct s as [k []]; reflexivity.
  - intros T. unfold handleSort.
    rewrite (proj2 (SortKey_eqb_eq (sortBy s) (sortBy s)) eq_refl).
    unfold tableRows, sortedChemicals; simpl.
    set (l := filteredChemicals chemicals searchTerm filterBy) in *.
    set (flipped := match sortOrder s with Asc => Desc | Desc => Asc end).
    apply (StronglySorted_unique
             (fun a b => (compareChemicals (sortBy s) flipped a b < 0)%Z)).
    + intros a b Hab Hba.
      rewrite compareChemicals_opp in Hba. lia.
    + apply Permutation_trans with l.
      * apply DerivationFacts.Array_sort_Permutation.
      * apply Permutation_trans with (sortList (sortBy s) (sortOrder s) l).
        -- apply Permutation_sym, DerivationFacts.Array_sort_Permutation.
        -- apply Permutation_rev.
    + apply sortList_strict. exact T.
    + apply StronglySorted_impl
        with (R := fun a b =>
                     (compareChemicals (sortBy s) (sortOrder s) b a < 0)%Z).
      * intros a b Hab. unfold flipped. rewrite compareChemicals_flip.
        exact Hab.
      * apply StronglySorted_rev
          with (R := fun a b =>
                       (compareChemicals (sortBy s) (sortOrder s) a b < 0)%Z).
        apply sortList_strict. exact T.
Qed.

Lemma handleSort_reverses_witness :
  tableRows [Samples.halfLitreLeft; Samples.fiveLitres] "" FilterName
    (handleSort KeyCurrentBalance (mkSort KeyCurrentBalance Asc))
  = rev (tableRows [Samples.halfLitreLeft; Samples.fiveLitres] "" FilterName
           (mkSort KeyCurrentBalance Asc)).
Proof.
  destruct (handleSort_reverses
              [Samples.halfLitreLeft; Samples.fiveLitres] "" FilterName
              KeyCurrentBalance (mkSort KeyCurrentBalance Asc))
    as (_ & _ & _ & reversed).
  apply reversed.
  constructor; [|constructor; [constructor | constructor]].
  constructor; [left; reflexivity | constructor].
Defined.

(** *** The message of the empty table *)

Lemma tableRows_nil (chemicals : list Chemical.t) (searchTerm : string)
    (filterBy : FilterBy) (s : SortState) :
  (List.length (tableRows chemicals searchTerm filterBy s) =? 0)%nat = true
  <-> forall c, In c chemicals -> matchesSearch searchTerm filterBy c = false.
Proof.
  unfold tableRows, sortedChemicals, sortList, filteredChemicals.
  rewrite DerivationFacts.Array_sort_length, Nat.eqb_eq, length_zero_iff_nil.
  split.
  - intros H c Hc.
    destruct (matchesSearch searchTerm filterBy c) eqn:E; [|reflexivity].
    assert (Hin : In c (filter (matchesSearch searchTerm filterBy) chemicals))
      by (apply filter_In; split; assumption).
    rewrite H in Hin. destruct Hin.
  - intros H. induction chemicals as [|c l IH]; [reflexivity|].
    simpl. rewrite (H c (or_introl eq_refl)).
    apply IH. intros c' Hc'. apply H. right. exact Hc'.
Qed.

(** X13.  The table shows a message in place of its rows exactly when no
    lot passes the filter: "No chemicals in inventory" exactly when the
    inventory is empty, and the search message exactly when the inventory
    holds lots but none passes.  With an empty search term and a lot in the
    inventory there is never a message. *)
Theorem emptyTableMessage_cases (chemicals : list Chemical.t)
    (searchTerm : string) (filterBy : FilterBy) (s : SortState) :
  (emptyTableMessage chemicals searchTerm filterBy s
   = Some "No chemicals in inventory" <-> chemicals = [])
  /\ (emptyTableMessage chemicals searchTerm filterBy s
      = Some "No chemicals found matching your search"
      <-> chemicals <> []
          /\ forall c, In c chemicals ->
               matchesSearch searchTerm filterBy c = false)
  /\ (emptyTableMessage chemicals searchTerm filterBy s = None
      <-> exists c, In c chemicals
            /\ matchesSearch searchTerm filterBy c = true)
  /\ (searchTerm = "" -> chemicals <> [] ->
      emptyTableMessage chemicals searchTerm filterBy s = None).
Proof.
  assert (shown : emptyTableMessage chemicals searchTerm filterBy s = None
                  <-> exists c, In c chemicals
                        /\ matchesSearch searchTerm filterBy c = true).
  { unfold emptyTableMessage.
    destruct (List.length (tableRows chemicals searchTerm filterBy s) =? 0)%nat
      eqn:E.
    - split; [discriminate|]. intros (c & Hin & Hc).
      rewrite (proj1 (tableRows_nil _ _ _ _) E c Hin) in Hc. discriminate Hc.
    - split; [|reflexivity]. intros _.
      unfold tableRows, sortedChemicals, sortList in E.
      rewrite DerivationFacts.Array_sort_length in E.
      destruct (filteredChemicals chemicals searchTerm filterBy) as [|c l]
        eqn:F; [discriminate E|].
      exists c. apply filter_In. unfold filteredChemicals in F.
      rewrite F. left. reflexivity. }
  split; [|split; [|split]].
  - unfold emptyTableMessage.
    destruct (List.length (tableRows chemicals searchTerm filterBy s) =? 0)%nat
      eqn:E.
    + destruct chemicals as [|c l]; simpl; split; try reflexivity;
        discriminate.
    + split; [discriminate|]. intros ->. discriminate E.
  - unfold emptyTableMessage.
    destruct (List.length (tableRows chemicals searchTerm filterBy s) =? 0)%nat
      eqn:E.
    + destruct chemicals as [|c l]; simpl.
      * split; [discriminate|]. intros [N _]. contradiction N. reflexivity.
      * split; [|reflexivity]. intros _. split; [discriminate|].
        apply (proj1 (tableRows_nil _ _ _ _) E).
    + split; [discriminate|]. intros [_ H].
      apply tableRows_nil with (s := s) in H. rewrite H in E. discriminate E.
  - exact shown.
  - intros -> N. apply shown.
    destruct chemicals as [|c l]; [contradiction N; reflexivity|].
    exists c. split; [left; reflexivity | reflexivity].
Qed.

Lemma emptyTableMessage_cases_witness :
  emptyTableMessage [Samples.fiveLitres] "" FilterName initialSort = None.
Proof.
  apply (emptyTableMessage_cases [Samples.fiveLitres] "" FilterName
           initialSort); [reflexivity | discriminate].
Defined.

(** *** Refining the search *)

Lemma isSubstring_trans (a b c : string) :
  isSubstring a b -> isSubstring b c -> isSubstring a c.
Proof.
  intros (p1 & q1 & ->) (p2 & q2 & ->).
  exists (p2 ++ p1), (q1 ++ q2).
  rewrite !ExportFacts.append_assoc. reflexivity.
Qed.

(** X14.  Typing more narrows the result: when a search term that is not
    empty contains a shorter one as the filter mode compares terms (as
    typed in the date mode, after [toLowerCase] in the name and location
    modes), every lot that matches the longer term matches the shorter one
    in that mode, so every row shown for the longer term is among the lots
    that pass for the shorter one.  The proof uses [toLowerCase] only
    through the terms it returns. *)
Theorem refining_search_narrows (chemicals : list Chemical.t)
    (shorter longer : string) (filterBy : FilterBy) (c : Chemical.t) :
  longer <> "" ->
  termRefines filterBy shorter longer ->
  (matchesSearch longer filterBy c = true ->
   matchesSearch shorter filterBy c = true)
  /\ (In c (filteredChemicals chemicals longer filterBy) ->
      In c (filteredChemicals chemicals shorter filterBy)).
Proof.
  intros NE Sub.
  assert (M : matchesSearch longer filterBy c = true ->
              matchesSearch shorter filterBy c = true).
  { rewrite !DerivationFacts.matchesSearch_iff. unfold passesFilter.
    intros [E | [_ H]]; [contradiction|].
    destruct (string_dec shorter "") as [E|N']; [left; exact E|].
    right. split; [exact N'|].
    destruct filterBy; cbn [termRefines] in Sub.
    - unfold isSubstringIgnoringCase in *.
      eapply isSubstring_trans; [exact Sub | exact H].
    - destruct H as [H | H]; [left | right];
        (eapply isSubstring_trans; [exact Sub | exact H]).
    - unfold isSubstringIgnoringCase in *.
      eapply isSubstring_trans; [exact Sub | exact H]. }
  split; [exact M|].
  unfold filteredChemicals. rewrite !filter_In.
  intros [Hin Hm]. split; [exact Hin | exact (M Hm)].
Qed.

Lemma refining_search_narrows_witness :
  matchesSearch "na" FilterName Samples.fiveLitres = true.
Proof.
  apply (refining_search_narrows [Samples.fiveLitres] "na" "NAOH" FilterName
           Samples.fiveLitres).
  - discriminate.
  - exists "", "oh". reflexivity.
  - reflexivity.
Defined.

End TableFacts.

(** ** Properties of the alerts and the status flags *)

Module AlertFacts.

Import Inventory.
Local Open Scope string_scope.

Lemma alertsOf_length (today : Z) (c : Chemical.t) :
  List.length (alertsOf today c)
  = ((if isNearExpiry today c then 1 else 0)
     + (if isLowStock c then 1 else 0))%nat.
Proof.
  rewrite DerivationFacts.alertsOf_flags, length_app.
  destruct (isNearExpiry today c), (isLowStock c); reflexivity.
Qed.

Lemma getAlerts_length (today : Z) (l : list Chemical.t) :
  List.length (flat_map (alertsOf today) l)
  = (List.length (filter (isNearExpiry today) l)
     + List.length (filter isLowStock l))%nat.
Proof.
  induction l as [|c l IH]; [reflexivity|].
  cbn [flat_map filter]. rewrite length_app, alertsOf_length, IH.
  destruct (isNearExpiry today c), (isLowStock c); simpl; lia.
Qed.

(** X15.  The alert banner agrees with the flags of the table: there is
    one alert for each lot flagged near expiry and one for each lot flagged
    low in stock, so the banner is empty exactly when every lot has the
    status "Good"; the alerts follow the order of the collection. *)
Theorem alerts_agree_with_flags (today : Z) (state : ChemicalInventoryState)
    (l1 l2 : list Chemical.t) :
  List.length (getAlerts today state)
  = (List.length (filter (isNearExpiry today) (chemicals state))
     + List.length (filter isLowStock (chemicals state)))%nat
  /\ (getAlerts today state = []
      <-> forall c, In c (chemicals state) ->
            isNearExpiry today c = false /\ isLowStock c = false)
  /\ (chemicals state = (l1 ++ l2)%list ->
      getAlerts today state
      = (flat_map (alertsOf today) l1 ++ flat_map (alertsOf today) l2)%list).
Proof.
  unfold getAlerts. split; [apply getAlerts_length|]. split.
  - rewrite <- length_zero_iff_nil, getAlerts_length. split.
    + intros H c Hc.
      assert (N : List.length (filter (isNearExpiry today) (chemicals state))
                  = 0%nat) by lia.
      assert (L : List.length (filter isLowStock (chemicals state)) = 0%nat)
        by lia.
      apply length_zero_iff_nil in N, L.
      split.
      * destruct (isNearExpiry today c) eqn:E; [|reflexivity].
        assert (Hin : In c (filter (isNearExpiry today) (chemicals state)))
          by (apply filter_In; split; assumption).
        rewrite N in Hin. destruct Hin.
      * destruct (isLowStock c) eqn:E; [|reflexivity].
        assert (Hin : In c (filter isLowStock (chemicals state)))
          by (apply filter_In; split; assumption).
        rewrite L in Hin. destruct Hin.
    + intros H. induction (chemicals state) as [|c l IH]; [reflexivity|].
      simpl. destruct (H c (or_introl eq_refl)) as [-> ->].
      apply IH. intros c' Hc'. apply H. right. exact Hc'.
  - intros ->. apply flat_map_app.
Qed.

(** X16.  The expiry flag only turns on as time passes: a lot flagged at
    one instant is flagged at every later instant.  A lot whose expiry date
    is at or before the current instant is flagged, and a lot whose expiry
    date does not read as a date is never flagged. *)
Theorem nearExpiry_monotone (today later : Z) (c : Chemical.t) :
  (today <= later)%Z ->
  (isNearExpiry today c = true -> isNearExpiry later c = true)
  /\ (forall expiry,
        Date_parse (Chemical.expiryDate c) = Some expiry ->
        (expiry <= today)%Z -> isNearExpiry today c = true)
  /\ (Date_parse (Chemical.expiryDate c) = None ->
      isNearExpiry today c = false).
Proof.
  intros Hle. unfold isNearExpiry.
  destruct (Date_parse (Chemical.expiryDate c)) as [e|].
  - split; [|split].
    + rewrite !Z.leb_le. lia.
    + intros expiry H Hexp. injection H as ->. apply Z.leb_le. lia.
    + discriminate.
  - split; [discriminate|]. split; [discriminate | reflexivity].
Qed.

Lemma nearExpiry_monotone_witness :
  isNearExpiry (Samples.noonFirstOfMarch + 1) Samples.fiveLitres = true.
Proof.
  apply (nearExpiry_monotone Samples.noonFirstOfMarch
           (Samples.noonFirstOfMarch + 1) Samples.fiveLitres).
  - lia.
  - reflexivity.
Defined.

(** X17.  A lot just added with a positive quantity is not low in stock,
    and a lot with a quantity that is not negative is low in stock once a
    usage has taken its whole balance or more. *)
Theorem lowStock_after_operations (now : Z) (chemical : NewChemical.t)
    (usage : NewUsage.t) (c : Chemical.t) :
  (0 < NewChemical.quantity chemical ->
   isLowStock (newChemical now chemical) = false)
  /\ (Chemical.id c = NewUsage.chemicalId usage ->
      0 <= Chemical.quantity c ->
      Chemical.currentBalance c <= NewUsage.quantityUsed usage ->
      Chemical.currentBalance (applyUsage usage c) = 0
      /\ isLowStock (applyUsage usage c) = true).
Proof.
  split.
  - intros Hq. unfold isLowStock, Number_le; simpl.
    destruct (Qle_bool (NewChemical.quantity chemical)
                (NewChemical.quantity chemical * (1 # 10))) eqn:L;
      [|reflexivity].
    apply Qle_bool_iff in L. exfalso.
    setoid_replace (NewChemical.quantity chemical)
      with (NewChemical.quantity chemical * 1) in L at 1 by ring.
    apply (proj1 (Qmult_le_l _ _ _ Hq)) in L.
    revert L. unfold Qle; simpl. lia.
  - intros E Hq Hle. rewrite (MutationFacts.applyUsage_match usage c E).
    assert (Z0 : Qmax 0 (Chemical.currentBalance c
                         - NewUsage.quantityUsed usage) = 0).
    { unfold Qmax, GenericMinMax.gmax.
      destruct (Qcompare 0 (Chemical.currentBalance c
                            - NewUsage.quantityUsed usage))
        eqn:C; try reflexivity.
      apply Qlt_alt in C. exfalso.
      apply (Qlt_not_le _ _ C). apply Qle_minus_iff.
      setoid_replace (0 + - (Chemical.currentBalance c
                             - NewUsage.quantityUsed usage))
        with (NewUsage.quantityUsed usage + - Chemical.currentBalance c)
        by ring.
      apply -> Qle_minus_iff. exact Hle. }
    rewrite Z0. split; [destruct c; reflexivity|].
    unfold isLowStock. apply MutationFacts.Number_le_iff.
    destruct c as [i dr n q u s e l r b]; simpl in *.
    apply Qmult_le_0_compat; [exact Hq | discriminate].
Qed.

Lemma lowStock_after_operations_witness :
  isLowStock (newChemical 500 Samples.acetone) = false
  /\ isLowStock
       (applyUsage (Samples.useAcetone 20) (newChemical 500 Samples.acetone))
     = true.
Proof.
  destruct (lowStock_after_operations 500 Samples.acetone
              (Samples.useAcetone 20) (newChemical 500 Samples.acetone))
    as (added & emptied).
  split.
  - apply added. reflexivity.
  - apply emptied; [reflexivity | discriminate | discriminate].
Defined.

End AlertFacts.

(** ** Further properties of the export *)

Module ExportLines.

Import Inventory.
Local Open Scope string_scope.

Lemma noLineFeed_app (a b : string) :
  noLineFeed (a ++ b) = noLineFeed a && noLineFeed b.
Proof.
  induction a as [|x a IH]; simpl; [reflexivity|].
  rewrite IH, andb_assoc. reflexivity.
Qed.

Lemma noLineFeed_uint (d : Decimal.uint) :
  noLineFeed (NilEmpty.string_of_uint d) = true.
Proof. induction d; simpl; assumption || reflexivity. Qed.

Lemma noLineFeed_Z_toString (n : Z) : noLineFeed (JS.Z_toString n) = true.
Proof.
  unfold JS.Z_toString, NilZero.string_of_int, NilZero.string_of_uint.
  destruct (Z.to_int n) as [d|d]; destruct d; simpl;
    try reflexivity; apply noLineFeed_uint.
Qed.

Lemma noLineFeed_fracDigits (fuel : nat) (r d : Z) :
  noLineFeed (JS.fracDigits fuel r d) = true.
Proof.
  revert r. induction fuel as [|fuel IH]; intros r; simpl; [reflexivity|].
  destruct (r =? 0)%Z; [reflexivity|].
  rewrite noLineFeed_app, noLineFeed_Z_toString, IH. reflexivity.
Qed.

Lemma noLineFeed_Number_toString (q : Q) :
  noLineFeed (JS.Number_toString q) = true.
Proof.
  unfold JS.Number_toString. cbv zeta.
  rewrite !noLineFeed_app, noLineFeed_Z_toString.
  destruct (Qnum q <? 0)%Z; destruct (_ =? 0)%Z;
    rewrite ?noLineFeed_app, ?noLineFeed_fracDigits; reflexivity.
Qed.

Lemma noLineFeed_quoteCell (cell : string) :
  noLineFeed (quoteCell cell) = noLineFeed cell.
Proof.
  unfold quoteCell. rewrite !noLineFeed_app. simpl.
  rewrite andb_true_r. reflexivity.
Qed.

Lemma noLineFeed_csvLine (row : list string) :
  forallb noLineFeed row = true -> noLineFeed (csvLine row) = true.
Proof.
  unfold csvLine. induction row as [|x row IH]; intros H; [reflexivity|].
  simpl in H. apply andb_true_iff in H. destruct H as [Hx Hrow].
  destruct row as [|y row].
  - change (JS.join "," (map quoteCell [x])) with (quoteCell x).
    rewrite noLineFeed_quoteCell. exact Hx.
  - cbn [map] in *. rewrite ExportFacts.join_cons, !noLineFeed_app.
    rewrite noLineFeed_quoteCell, Hx, (IH Hrow). reflexivity.
Qed.

Lemma noLineFeed_chemicalLine (c : Chemical.t) :
  lotOnOneLine c = true -> noLineFeed (chemicalLine c) = true.
Proof.
  unfold lotOnOneLine, chemicalLine. intros H.
  repeat (apply andb_true_iff in H; destruct H as [H ?]).
  apply noLineFeed_csvLine. simpl.
  rewrite !noLineFeed_Number_toString.
  destruct (Chemical.unit c); simpl;
    repeat (apply andb_true_iff; split); assumption || reflexivity.
Qed.

Lemma noLineFeed_usageLine (u : ChemicalUsage.t) :
  usageOnOneLine u = true -> noLineFeed (usageLine u) = true.
Proof.
  unfold usageOnOneLine, usageLine. intros H.
  repeat (apply andb_true_iff in H; destruct H as [H ?]).
  apply noLineFeed_csvLine. simpl.
  rewrite !noLineFeed_Number_toString.
  repeat (apply andb_true_iff; split); assumption || reflexivity.
Qed.

Lemma append_empty_r (s : string) : s ++ "" = s.
Proof. induction s as [|x s IH]; simpl; [|rewrite IH]; reflexivity. Qed.

(** Splitting reads a text without line feeds into the line being built. *)
Lemma splitLines_line (current line rest : string) :
  noLineFeed line = true ->
  splitLines current (line ++ rest) = splitLines (current ++ line) rest.
Proof.
  revert current. induction line as [|c line IH]; intros current H; simpl.
  - rewrite append_empty_r. reflexivity.
  - simpl in H. apply andb_true_iff in H. destruct H as [Hc Hl].
    apply negb_true_iff in Hc. rewrite Hc, (IH _ Hl).
    rewrite ExportFacts.append_assoc. reflexivity.
Qed.

Lemma splitLines_newline (current rest : string) :
  splitLines current (newline ++ rest) = current :: splitLines "" rest.
Proof. reflexivity. Qed.

(** Joining lines with line feeds and splitting the text gives the lines
    back. *)
Lemma splitLines_join (line : string) (lines : list string) :
  forallb noLineFeed (line :: lines) = true ->
  splitLines "" (JS.join newline (line :: lines)) = line :: lines.
Proof.
  revert line. induction lines as [|next lines IH]; intros line H.
  - simpl in H. rewrite andb_true_r in H. simpl.
    rewrite <- (append_empty_r line) at 1.
    rewrite (splitLines_line "" line "" H). reflexivity.
  - cbn [forallb] in H. apply andb_true_iff in H. destruct H as [Hl Hrest].
    rewrite ExportFacts.join_cons, (splitLines_line "" line _ Hl).
    rewrite splitLines_newline, (IH next Hrest). reflexivity.
Qed.

Lemma exportToExcel_reportLines (chemicals : list Chemical.t)
    (usageHistory : list ChemicalUsage.t) (generatedOn : string) :
  exportToExcel chemicals usageHistory generatedOn
  = JS.join newline
      (reportLines chemicalLine chemicals usageHistory generatedOn).
Proof.
  unfold exportToExcel, reportLines. cbv zeta.
  rewrite ExportFacts.map_chemicalLine, ExportFacts.map_usageLine.
  set (front := ["CHEMICAL INVENTORY REPORT";
                 "Generated on: " ++ generatedOn; ""; "CURRENT INVENTORY:"]).
  set (lots := JS.join "," chemicalHeaders :: map chemicalLine chemicals).
  set (usages := JS.join "," usageHeaders :: map usageLine usageHistory).
  transitivity
    (JS.join newline
       (front ++ [JS.join newline lots]
        ++ [""; "USAGE HISTORY:"; JS.join newline usages])%list);
    [reflexivity|].
  unfold lots at 1. rewrite ExportFacts.join_flatten. fold lots.
  transitivity
    (JS.join newline
       ((front ++ lots ++ [""; "USAGE HISTORY:"])
        ++ [JS.join newline usages] ++ [])%list).
  { f_equal. rewrite <- !app_assoc. reflexivity. }
  unfold usages at 1. rewrite ExportFacts.join_flatten. fold usages.
  f_equal. rewrite app_nil_r, <- !app_assoc. reflexivity.
Qed.

(** X18.  When no text of a lot or of a usage event, and not the
    generation time, contains a line feed, the exported file splits at line
    feeds into exactly its report lines: eight fixed lines plus one per lot
    and one per usage event, the usage events after the lots, each on the
    line of its position, with chemical name, quantity used, date used,
    person in charge and remark between double quotes. *)
Theorem export_splits_into_lines (chemicals : list Chemical.t)
    (usageHistory : list ChemicalUsage.t) (generatedOn : string) :
  noLineFeed generatedOn = true ->
  forallb lotOnOneLine chemicals = true ->
  forallb usageOnOneLine usageHistory = true ->
  splitLines "" (exportToExcel chemicals usageHistory generatedOn)
  = reportLines chemicalLine chemicals usageHistory generatedOn
  /\ List.length
       (splitLines "" (exportToExcel chemicals usageHistory generatedOn))
     = (8 + List.length chemicals + List.length usageHistory)%nat
  /\ (forall j usage,
        nth_error usageHistory j = Some usage ->
        nth_error
          (splitLines "" (exportToExcel chemicals usageHistory generatedOn))
          (8 + List.length chemicals + j)
        = Some (JS.join ","
                  [dquote ++ ChemicalUsage.chemicalName usage ++ dquote;
                   dquote ++ JS.Number_toString
                               (ChemicalUsage.quantityUsed usage) ++ dquote;
                   dquote ++ ChemicalUsage.dateUsed usage ++ dquote;
                   dquote ++ ChemicalUsage.personInCharge usage ++ dquote;
                   dquote ++ orEmpty (ChemicalUsage.remarks usage)
                     ++ dquote])).
Proof.
  intros Hg Hc Hu.
  assert (S : splitLines "" (exportToExcel chemicals usageHistory generatedOn)
              = reportLines chemicalLine chemicals usageHistory generatedOn).
  { rewrite exportToExcel_reportLines. unfold reportLines.
    cbn [List.app]. apply splitLines_join.
    cbn [forallb]. rewrite noLineFeed_app, Hg. simpl.
    rewrite forallb_app. apply andb_true_iff. split.
    - rewrite forallb_forall in Hc. apply forallb_forall.
      intros line Hl. apply in_map_iff in Hl. destruct Hl as (c & <- & Hin).
      apply noLineFeed_chemicalLine, Hc, Hin.
    - simpl. rewrite forallb_forall in Hu. apply forallb_forall.
      intros line Hl. apply in_map_iff in Hl. destruct Hl as (u & <- & Hin).
      apply noLineFeed_usageLine, Hu, Hin. }
  rewrite S. split; [reflexivity|]. split.
  - unfold reportLines. rewrite !length_app, !length_map. simpl. lia.
  - intros j usage H. unfold reportLines.
    rewrite nth_error_app2 by (cbn [List.length]; lia).
    rewrite nth_error_app2 by (rewrite length_map; cbn [List.length]; lia).
    rewrite nth_error_app2 by (rewrite length_map; cbn [List.length]; lia).
    rewrite length_map.
    replace (8 + List.length chemicals + j
             - List.length
                 ["CHEMICAL INVENTORY REPORT"; "Generated on: " ++ generatedOn;
                  ""; "CURRENT INVENTORY:";
                  "Chemical Name,Current Balance,Unit,Original Quantity,Supplier,Date Received,Expiry Date,Storage Location,Remarks"]
             - List.length chemicals
             - List.length
                 [""; "USAGE HISTORY:";
                  "Chemical Name,Quantity Used,Date Used,Person In Charge,Remarks"])%nat
      with j by (cbn [List.length]; lia).
    rewrite nth_error_map, H. reflexivity.
Qed.

Lemma export_splits_into_lines_witness :
  splitLines "" (exportToExcel [Samples.fiveLitres] [] "now")
  = reportLines chemicalLine [Samples.fiveLitres] [] "now".
Proof.
  apply (export_splits_into_lines [Samples.fiveLitres] [] "now");
    reflexivity.
Defined.

Lemma quoteCell_comma (a b : string) :
  quoteCell (a ++ dquote ++ "," ++ dquote ++ b)
  = quoteCell a ++ "," ++ quoteCell b.
Proof.
  unfold quoteCell. rewrite !ExportFacts.append_assoc. reflexivity.
Qed.

(** X19.  The export does not escape double quotes: a value in which a
    double quote, a comma and a double quote follow one another is written
    exactly as two values would be, so the row of a lot with such a value is
    the row of a record with one more column. *)
Theorem export_does_not_escape_quotes (before after : list string)
    (a b : string) :
  csvLine (before ++ [a ++ dquote ++ "," ++ dquote ++ b] ++ after)
  = csvLine (before ++ [a; b] ++ after).
Proof.
  unfold csvLine. induction before as [|x before IH].
  - cbn [List.app map]. rewrite quoteCell_comma.
    destruct after as [|y after]; cbn [map].
    + simpl. reflexivity.
    + rewrite !ExportFacts.join_cons, !ExportFacts.append_assoc.
      reflexivity.
  - destruct before as [|x' before]; cbn [List.app map] in *.
    + rewrite !ExportFacts.join_cons. rewrite IH. reflexivity.
    + rewrite !ExportFacts.join_cons. rewrite IH. reflexivity.
Qed.

End ExportLines.

(** ** Properties of the stopwatch display *)

Module DisplayFacts.

Import Flow.
Local Open Scope string_scope.

Lemma digitsValue_uint (d : Decimal.uint) (acc : Z) :
  Inventory.digitsValue acc (NilEmpty.string_of_uint d)
  = Some (uintValue acc d).
Proof.
  revert acc. induction d; intros acc; simpl; try reflexivity; apply IHd.
Qed.

Lemma of_uint_acc_value (d : Decimal.uint) (acc : positive) :
  Z.pos (Pos.of_uint_acc d acc) = uintValue (Z.pos acc) d.
Proof.
  revert acc.
  induction d; intros acc; cbn [Pos.of_uint_acc uintValue]; try reflexivity;
    rewrite IHd; f_equal; lia.
Qed.

Lemma of_uint_value (d : Decimal.uint) :
  Z.of_N (Pos.of_uint d) = uintValue 0 d.
Proof.
  induction d; cbn [Pos.of_uint uintValue Z.of_N]; try reflexivity;
    try exact IHd; rewrite of_uint_acc_value; reflexivity.
Qed.

(** Printing a natural number in decimal and reading the digits gives the
    number back. *)
Lemma digitsValue_Z_toString (x : Z) :
  (0 <= x)%Z -> Inventory.digitsValue 0 (JS.Z_toString x) = Some x.
Proof.
  intros H. unfold JS.Z_toString. destruct x as [|p|p]; [reflexivity| |lia].
  unfold Z.to_int, NilZero.string_of_int, NilZero.string_of_uint.
  destruct (Pos.to_uint p) eqn:E;
    try (rewrite <- E, digitsValue_uint, <- of_uint_value,
           DecimalPos.Unsigned.of_to; reflexivity).
  exfalso. exact (DecimalPos.Unsigned.to_uint_nonnil p E).
Qed.

Lemma digitsValue_pad2 (x : N) :
  Inventory.digitsValue 0 (pad2 x) = Some (Z.of_N x).
Proof.
  unfold pad2, JS.padStart.
  pose proof (digitsValue_Z_toString (Z.of_N x) (N2Z.is_nonneg x)) as H.
  destruct (JS.Z_toString (Z.of_N x)) as [|a [|b t]]; simpl in *.
  - exact H.
  - destruct (Inventory.digitValue a); exact H.
  - exact H.
Qed.

Lemma splitAtChar_digits (c : ascii) (digits after : string) (acc v : Z) :
  Inventory.digitValue c = None ->
  Inventory.digitsValue acc digits = Some v ->
  splitAtChar c (digits ++ String c after) = Some (digits, after).
Proof.
  intros Hc. revert acc. induction digits as [|x digits IH]; intros acc H.
  - simpl. rewrite Ascii.eqb_refl. reflexivity.
  - simpl in *. destruct (Ascii.eqb_spec x c) as [->|_].
    + rewrite Hc in H. discriminate H.
    + destruct (Inventory.digitValue x); [|discriminate H].
      rewrite (IH _ H). reflexivity.
Qed.

Lemma formatTime_pad2 (n : N) :
  formatTime n
  = pad2 (n / 100 / 60) ++ String ":" (pad2 ((n / 100) mod 60)
      ++ String "." (pad2 (n mod 100))).
Proof. reflexivity. Qed.

Lemma parseTime_formatTime (n : N) : parseTime (formatTime n) = Some n.
Proof.
  rewrite formatTime_pad2. unfold parseTime.
  rewrite (splitAtChar_digits ":" _ _ 0 _ eq_refl (digitsValue_pad2 _)).
  rewrite (splitAtChar_digits "." _ _ 0 _ eq_refl (digitsValue_pad2 _)).
  rewrite !digitsValue_pad2. f_equal.
  pose proof (N.div_mod' n 100) as H1.
  pose proof (N.div_mod' (n / 100) 60) as H2.
  lia.
Qed.

Lemma length_append (a b : string) :
  String.length (a ++ b) = (String.length a + String.length b)%nat.
Proof. induction a as [|x a IH]; simpl; [|rewrite IH]; reflexivity. Qed.

Lemma pad2_length_table :
  forallb (fun k => (String.length (pad2 (N.of_nat k)) =? 2)%nat) (seq 0 100)
  = true.
Proof. vm_compute. reflexivity. Qed.

Lemma pad2_length (x : N) : (x < 100)%N -> String.length (pad2 x) = 2%nat.
Proof.
  intros H. pose proof pad2_length_table as T.
  rewrite forallb_forall in T.
  specialize (T (N.to_nat x)). rewrite N2Nat.id in T.
  apply Nat.eqb_eq, T, in_seq. lia.
Qed.

(** X20.  The stopwatch display is lossless: reading minutes, seconds and
    centiseconds back from the text gives the elapsed centiseconds, so two
    different times are never shown alike; below 100 minutes the text has
    exactly the eight characters of [MM:SS.CC]. *)
Theorem formatTime_lossless (a b : N) :
  parseTime (formatTime a) = Some a
  /\ (formatTime a = formatTime b -> a = b)
  /\ ((a < 600000)%N -> String.length (formatTime a) = 8%nat).
Proof.
  split; [apply parseTime_formatTime|]. split.
  - intros E. apply (f_equal parseTime) in E.
    rewrite !parseTime_formatTime in E. injection E as E. exact E.
  - intros H. rewrite formatTime_pad2.
    rewrite length_append. cbn [String.length]. rewrite length_append.
    cbn [String.length].
    rewrite (pad2_length (a mod 100)) by (apply N.mod_lt; discriminate).
    rewrite (pad2_length ((a / 100) mod 60))
      by (pose proof (N.mod_lt (a / 100) 60); lia).
    rewrite (pad2_length (a / 100 / 60)); [reflexivity|].
    apply N.Div0.div_lt_upper_bound.
    apply N.Div0.div_lt_upper_bound. lia.
Qed.

Lemma formatTime_lossless_witness :
  String.length (formatTime 12345) = 8%nat.
Proof.
  apply (proj2 (proj2 (formatTime_lossless 12345 0))). reflexivity.
Defined.

End DisplayFacts.

(** ** Properties of validation and logging *)

Module LoggingFacts.

Import Flow.
Local Open Scope string_scope.

Lemma trimStart_clean (s : string) : startsClean (JS.trimStart s).
Proof.
  induction s as [|c s IH]; simpl; [exact I|].
  destruct (JS.isWhiteSpace c) eqn:E; [exact IH | exact E].
Qed.

Lemma trimStart_fixed (s : string) : startsClean s -> JS.trimStart s = s.
Proof. destruct s as [|c s]; simpl; [reflexivity|]. intros ->. reflexivity. Qed.

Lemma trimEnd_clean (s : string) : startsClean s -> startsClean (JS.trimEnd s).
Proof.
  destruct s as [|c s]; simpl; [intros H; exact H|]. intros E.
  destruct (JS.trimEnd s); [rewrite E|]; exact E.
Qed.

Lemma trimEnd_cons (c : ascii) (s : string) :
  JS.trimEnd (String c s)
  = match JS.trimEnd s with
    | EmptyString =>
        if JS.isWhiteSpace c then EmptyString else String c EmptyString
    | t => String c t
    end.
Proof. reflexivity. Qed.

Lemma trimEnd_idempotent (s : string) :
  JS.trimEnd (JS.trimEnd s) = JS.trimEnd s.
Proof.
  induction s as [|c s IH]; [reflexivity|].
  rewrite trimEnd_cons.
  destruct (JS.trimEnd s) as [|x t] eqn:E.
  - destruct (JS.isWhiteSpace c) eqn:W; [reflexivity|].
    rewrite trimEnd_cons. simpl. rewrite W. reflexivity.
  - rewrite trimEnd_cons, IH. reflexivity.
Qed.

(** Trimming leaves nothing to trim. *)
Lemma trim_idempotent (s : string) : JS.trim (JS.trim s) = JS.trim s.
Proof.
  unfold JS.trim.
  rewrite (trimStart_fixed (JS.trimEnd (JS.trimStart s))).
  - apply trimEnd_idempotent.
  - apply trimEnd_clean, trimStart_clean.
Qed.

(** A number that is not not-a-number and is not below zero is zero or
    above. *)
Lemma not_negative (x : float) :
  is_nan x = false -> (x <? 0)%float = false -> (0 <=? x)%float = true.
Proof.
  unfold is_nan.
  rewrite negb_false_iff, FloatAxioms.eqb_spec, ltb_spec, leb_spec.
  change (Prim2SF 0) with (S754_zero false).
  destruct (Prim2SF x) as [s|s| |s m e]; simpl;
    try discriminate; try reflexivity.
  - destruct s; intros; [discriminate | reflexivity].
  - destruct s; simpl; intros; try discriminate; reflexivity.
Qed.

Lemma orZero_nonNegative (x : float) :
  is_nan x = false -> (x <? 0)%float = false -> nonNegative (orZero x).
Proof.
  intros Hn Hl. unfold orZero, nonNegative. rewrite Hn. simpl.
  destruct (x =? 0)%float; [split; reflexivity|].
  split; [exact Hn | apply not_negative; assumption].
Qed.

Lemma deepwell_nonNegative (Number : string -> float) (text : string) :
  Number "" = 0%float ->
  deepwellRejected Number text = false ->
  nonNegative (orZero (Number text)).
Proof.
  unfold deepwellRejected, isNaN. intros H0 H.
  destruct (String.eqb_spec text "") as [->|_]; simpl in H.
  - rewrite H0. split; reflexivity.
  - apply orb_false_iff in H. destruct H as [Hn Hl].
    apply orZero_nonNegative; assumption.
Qed.

Lemma validateInputs_nil (Number : string -> float)
    (operatorName deepwell9 deepwell10 : string) :
  validateInputs Number operatorName deepwell9 deepwell10 = []
  <-> (2 <= String.length (JS.trim operatorName))%nat
      /\ deepwellRejected Number deepwell9 = false
      /\ deepwellRejected Number deepwell10 = false.
Proof.
  unfold validateInputs.
  destruct (String.eqb_spec (JS.trim operatorName) "") as [E|N].
  - rewrite E. simpl. split; [discriminate | intros [H _]; lia].
  - destruct (Nat.ltb_spec (String.length (JS.trim operatorName)) 2)
      as [L|G].
    + split; [discriminate | intros [H _]; lia].
    + destruct (deepwellRejected Number deepwell9),
               (deepwellRejected Number deepwell10); simpl; split;
        try discriminate; try (intros (_ & ? & ?); discriminate);
        intros _; repeat split; exact G.
Qed.

(** X21.  [validateInputs] reports no error exactly when the operator
    name has two characters or more once trimmed and each deepwell field is
    empty or holds a number that is not negative; it reports at most one
    error per field.  The name error says "required" exactly when nothing
    is left of the name after trimming. *)
Theorem validateInputs_cases (Number : string -> float)
    (operatorName deepwell9 deepwell10 : string) :
  (validateInputs Number operatorName deepwell9 deepwell10 = []
   <-> (2 <= String.length (JS.trim operatorName))%nat
       /\ (deepwell9 = ""
           \/ (isNaN (Number deepwell9) = false
               /\ (Number deepwell9 <? 0)%float = false))
       /\ (deepwell10 = ""
           \/ (isNaN (Number deepwell10) = false
               /\ (Number deepwell10 <? 0)%float = false)))
  /\ NoDup (map fst (validateInputs Number operatorName deepwell9 deepwell10))
  /\ (In ("operatorName", "Operator name is required")
        (validateInputs Number operatorName deepwell9 deepwell10)
      <-> JS.trim operatorName = "").
Proof.
  assert (R : forall text,
            deepwellRejected Number text = false
            <-> text = ""
                \/ (isNaN (Number text) = false
                    /\ (Number text <? 0)%float = false)).
  { intros text. unfold deepwellRejected.
    destruct (String.eqb_spec text "") as [->|N]; simpl.
    - split; [left; reflexivity | reflexivity].
    - rewrite orb_false_iff. split; [intros H; right; exact H|].
      intros [E | H]; [contradiction | exact H]. }
  split; [|split].
  - rewrite validateInputs_nil, !R. reflexivity.
  - unfold validateInputs.
    destruct (String.eqb (JS.trim operatorName) "");
      [|destruct (String.length (JS.trim operatorName) <? 2)%nat];
      destruct (deepwellRejected Number deepwell9),
               (deepwellRejected Number deepwell10); simpl;
      repeat constructor; simpl; intuition discriminate.
  - unfold validateInputs.
    destruct (String.eqb_spec (JS.trim operatorName) "") as [E|N].
    + split; [intros _; exact E | intros _; left; reflexivity].
    + split; [|intros E; contradiction].
      destruct (String.length (JS.trim operatorName) <? 2)%nat;
        destruct (deepwellRejected Number deepwell9),
                 (deepwellRejected Number deepwell10); simpl;
        intuition discriminate.
Qed.

Lemma compute_formula (time : N) :
  time <> 0%N ->
  compute time
  = Number_of_toFixed2
      (1 / (Number_ofZ (Z.of_N time) / 100) * 3600 * 4.4)%float.
Proof.
  intros H. unfold compute.
  destruct (N.ltb_spec 0 time) as [_|Hle]; [reflexivity|].
  exfalso. apply H. apply N.le_0_r. exact Hle.
Qed.

Lemma autoLogReading_Some (Number : string -> float) (now : string)
    (s : Stopwatch.t) (r : NewReading.t) :
  Number "" = 0%float ->
  inSync Number s ->
  autoLogReading Number now s = Some r ->
  NewReading.timestamp r = now /\ wellFormedReading r.
Proof.
  intros H0 [Hg Hv]. unfold autoLogReading.
  destruct (N.eqb_spec (Stopwatch.time s) 0) as [|Ht]; [discriminate|].
  destruct (Nat.ltb_spec 0 (List.length (Stopwatch.validationErrors s)))
    as [|He]; [discriminate|].
  intros H. injection H as <-. split; [reflexivity|].
  assert (Hnil : Stopwatch.validationErrors s = [])
    by (apply length_zero_iff_nil; lia).
  rewrite Hv in Hnil. apply validateInputs_nil in Hnil.
  destruct Hnil as (Hname & H9 & H10).
  exists (Stopwatch.time s). simpl.
  split; [exact Ht|]. split; [reflexivity|]. split; [exact Hg|].
  split; [rewrite Hg; apply compute_formula; exact Ht|].
  split; [exact Hname|]. split; [apply trim_idempotent|].
  split; [apply deepwell_nonNegative; assumption|].
  split; [apply deepwell_nonNegative; assumption|].
  destruct (String.eqb_spec (Stopwatch.notes s) "") as [|N];
    [discriminate|].
  intros E. injection E as E. contradiction.
Qed.

Lemma orZero_number (x : float) : is_nan (orZero x) = false.
Proof.
  unfold orZero. destruct (is_nan x) eqn:E; [reflexivity|].
  cbn [orb]. destruct (x =? 0)%float; [reflexivity | exact E].
Qed.

Lemma autoLogReading_takenFrom (Number : string -> float) (now : string)
    (s : Stopwatch.t) (r : NewReading.t) :
  autoLogReading Number now s = Some r -> takenFrom Number s r.
Proof.
  unfold autoLogReading.
  destruct (N.eqb_spec (Stopwatch.time s) 0) as [|Ht]; [discriminate|].
  destruct (Nat.ltb_spec 0 (List.length (Stopwatch.validationErrors s)))
    as [|He]; [discriminate|].
  intros H. injection H as <-. unfold takenFrom; cbn.
  split; [exact Ht|].
  split; [apply length_zero_iff_nil; lia|].
  repeat (split; [reflexivity|]).
  split; [apply trim_idempotent|].
  repeat (split; [reflexivity|]).
  split; [apply orZero_number|].
  split; [apply orZero_number|].
  destruct (String.eqb_spec (Stopwatch.notes s) "") as [|N];
    [discriminate|].
  intros E. injection E as E. contradiction.
Qed.

Lemma step_logs (Number : string -> float) (s : Stopwatch.t) (e : Event)
    (r : NewReading.t) :
  snd (step Number s e) = Some r ->
  exists now, autoLogReading Number now s = Some r.
Proof.
  destruct e; simpl; try discriminate.
  destruct (0 <? Stopwatch.time s)%N; [|discriminate].
  intros H. exists now. exact H.
Qed.

Lemma effects_inSync (Number : string -> float) (s : Stopwatch.t) :
  inSync Number (validationEffect Number (gpmEffect s)).
Proof. split; reflexivity. Qed.

(** X22.  Whatever happens to the component, in any order (the interval
    firing, the buttons, field edits with any texts, a stored reading
    coming back, the effects running early or late), every reading handed
    to the store comes from a render whose timer is not at zero and whose
    error object is empty: its duration is that time in seconds, its flow
    rate is the rate cell of that render, its operator name is the trimmed
    name, its deepwell values are the converted fields and never
    not-a-number, and its notes are absent rather than empty.  When the
    cells of that render are up to date (the rate follows the time, the
    errors follow the fields) and [Number] reads the empty text as 0, the
    reading is well formed: the flow rate is the formula applied to the
    duration, the name has two characters or more, and the deepwell values
    are not negative.  The two effects bring the cells up to date. *)
Theorem logged_readings_well_formed (Number : string -> float)
    (events : list Event) (s : Stopwatch.t) :
  Forall (fun logged =>
            takenFrom Number (fst logged) (snd logged)
            /\ (Number "" = 0%float ->
                inSync Number (fst logged) ->
                wellFormedReading (snd logged)))
    (readingsLogged Number s events)
  /\ inSync Number
       (fst (step Number (fst (step Number s GpmEffect)) ValidationEffect)).
Proof.
  split; [|apply effects_inSync].
  revert s. induction events as [|e events IH]; intros s; simpl.
  - constructor.
  - pose proof (step_logs Number s e) as Hr.
    destruct (step Number s e) as [s' [r|]]; simpl in *; [|apply IH].
    constructor; [|apply IH].
    destruct (Hr r eq_refl) as [now Hlog]. cbn [fst snd]. split.
    + exact (autoLogReading_takenFrom Number now s r Hlog).
    + intros H0 Hs.
      exact (proj2 (autoLogReading_Some Number now s r H0 Hs Hlog)).
Qed.

Lemma logged_readings_well_formed_witness :
  Forall (fun logged => wellFormedReading (snd logged))
    (readingsLogged Number_ofField (mounted Number_ofField)
       [SetOperatorName " Ana "; ValidationEffect; SetDeepwell9 "12.5";
        ValidationEffect; Start; Tick; GpmEffect; Tick; GpmEffect;
        Stop "2024-03-01T04:00:00.000Z"]).
Proof.
  destruct (logged_readings_well_formed Number_ofField
              [SetOperatorName " Ana "; ValidationEffect; SetDeepwell9 "12.5";
               ValidationEffect; Start; Tick; GpmEffect; Tick; GpmEffect;
               Stop "2024-03-01T04:00:00.000Z"]
              (mounted Number_ofField)) as [all _].
  remember (readingsLogged _ _ _) as run eqn:E in all |- *.
  vm_compute in E. subst run.
  apply Forall_inv in all. destruct all as [_ wellFormed].
  constructor; [|constructor].
  apply wellFormed; [reflexivity|]. split; vm_compute; reflexivity.
Defined.



End LoggingFacts.


(** * The log as loaded: newest reading first *)

Module LogFacts.

Import Flow.

Lemma sortInsert_ext {A : Type} (cmp cmp' : A -> A -> Z) (x : A)
    (l : list A) :
  (forall y, In y l -> cmp x y = cmp' x y) ->
  Inventory.sortInsert cmp x l = Inventory.sortInsert cmp' x l.
Proof.
  induction l as [|y l IH]; intros H; [reflexivity|].
  cbn [Inventory.sortInsert].
  rewrite (H y (or_introl eq_refl)).
  rewrite IH; [reflexivity|].
  intros z Hz. apply H. right. exact Hz.
Qed.

Lemma Array_sort_ext {A : Type} (cmp cmp' : A -> A -> Z) (l : list A) :
  (forall x y, In x l -> In y l -> cmp x y = cmp' x y) ->
  Inventory.Array_sort cmp l = Inventory.Array_sort cmp' l.
Proof.
  induction l as [|x l IH]; intros H; [reflexivity|].
  cbn [Inventory.Array_sort fold_right].
  change (fold_right (Inventory.sortInsert cmp) [] l)
    with (Inventory.Array_sort cmp l).
  change (fold_right (Inventory.sortInsert cmp') [] l)
    with (Inventory.Array_sort cmp' l).
  rewrite IH.
  - apply sortInsert_ext. intros y Hy.
    apply DerivationFacts.Array_sort_In in Hy.
    apply H; [left; reflexivity | right; exact Hy].
  - intros a b Ha Hb. apply H; right; assumption.
Qed.

Lemma newestFirst_dated (a b : FlowReading) :
  isDated a = true -> isDated b = true ->
  newestFirst a b = (timeOf b - timeOf a)%Z.
Proof.
  unfold isDated, newestFirst, timeOf.
  destruct (Date_getTime (timestamp a)), (Date_getTime (timestamp b));
    intros; reflexivity || discriminate.
Qed.

Lemma loadFlowLog_by_time (readings : list FlowReading) :
  Forall (fun r => isDated r = true) readings ->
  loadFlowLog readings
  = Inventory.Array_sort (fun a b => (timeOf b - timeOf a)%Z) readings.
Proof.
  intros H. rewrite Forall_forall in H. unfold loadFlowLog.
  apply Array_sort_ext. intros a b Ha Hb.
  apply newestFirst_dated; apply H; assumption.
Qed.

(** X24.  The log is a rearrangement of the documents the store returned,
    whatever their timestamps.  When every timestamp is a date, the log is
    in order of time with the newest reading first (each reading is not
    older than any reading after it), and readings taken at the same time
    keep the order in which the store returned them. *)
Theorem loadFlowLog_newest_first (readings : list FlowReading) :
  Permutation (loadFlowLog readings) readings
  /\ List.length (loadFlowLog readings) = List.length readings
  /\ (Forall (fun r => isDated r = true) readings ->
      StronglySorted (fun a b => notOlder a b = true) (loadFlowLog readings)
      /\ forall t, filter (takenAt t) (loadFlowLog readings)
                   = filter (takenAt t) readings).
Proof.
  split; [apply DerivationFacts.Array_sort_Permutation|].
  split; [apply DerivationFacts.Array_sort_length|].
  intros H. pose proof (loadFlowLog_by_time readings H) as E.
  assert (Hd : Forall (fun r => isDated r = true) (loadFlowLog readings)).
  { rewrite Forall_forall in *. intros r Hr. apply H.
    apply (DerivationFacts.Array_sort_In newestFirst). exact Hr. }
  split.
  - assert (S : StronglySorted (fun a b => (timeOf b - timeOf a <= 0)%Z)
                  (loadFlowLog readings)).
    { rewrite E.
      apply (TableFacts.Array_sort_StronglySorted FlowReading
               (fun a b => (timeOf b - timeOf a)%Z)).
      - intros x y. lia.
      - intros x y z. lia. }
    clear E. induction S as [|a l S IH Ha]; [constructor|].
    apply Forall_cons_iff in Hd. destruct Hd as [Da Dl].
    constructor; [apply IH; exact Dl|].
    rewrite Forall_forall in *. intros b Hb.
    specialize (Ha b Hb). specialize (Dl b Hb).
    unfold notOlder, isDated, timeOf in *.
    destruct (Date_getTime (timestamp a)), (Date_getTime (timestamp b));
      try discriminate.
    apply Z.leb_le. lia.
  - intros t. rewrite E.
    apply (TableFacts.Array_sort_stable FlowReading
             (fun a b => (timeOf b - timeOf a)%Z)).
    intros a b. unfold takenAt, timeOf.
    destruct (Date_getTime (timestamp a)), (Date_getTime (timestamp b));
      try discriminate.
    intros Ha Hb. apply Z.eqb_eq in Ha, Hb. lia.
Qed.

Lemma loadFlowLog_newest_first_witness :
  StronglySorted (fun a b => notOlder a b = true)
    (loadFlowLog [Samples.oneReading; Samples.laterReading]).
Proof.
  destruct (loadFlowLog_newest_first
              [Samples.oneReading; Samples.laterReading])
    as (_ & _ & dated).
  apply dated. repeat constructor.
Defined.

(** A timestamp that is not a date compares as equal to every reading, so
    a log that holds one need not come out newest first. *)
Lemma undated_reading_breaks_order :
  loadFlowLog [Samples.oneReading; Samples.undatedReading;
               Samples.laterReading]
  = [Samples.oneReading; Samples.undatedReading; Samples.laterReading].
Proof. vm_compute. reflexivity. Qed.

End LogFacts.
